(** * Retention policy of de-stash-dump2s3.py

    A shallow embedding of the retention scheduler ([generate_daily],
    [generate_weekly], [generate_monthly], [save_days]), of the folder
    listing ([list_s3_folders]) and of the clean-up loop at the end of the
    script, with the properties the specification states about them.

    Python integers are [Z]; loop counters that only count up from zero
    are [nat].  Strings are [string]; [set] is stdpp's [gset string].
    Exceptions and loops that may run for ever are made explicit in the
    [result] type below. *)

From Stdlib Require Import ZArith Ascii String List Lia Bool.
From stdpp Require Import base decidable option list sorting gmap sets strings.

Local Open Scope Z_scope.

(** ** Outcomes of a computation *)

(** The exceptions the modelled code can raise. *)
Inductive exn : Type :=
| ValueError      (* strptime on a malformed string, replace() out of range *)
| OverflowError   (* datetime arithmetic leaving year 1..9999 *)
| IndexError      (* list[-1] on an empty list *)
| ClientError.    (* a failed call of the object store client *)

(** [Ret a]: normal completion; [Raise e]: an uncaught exception;
    [OutOfFuel]: a [while] loop was cut off by the model's iteration bound. *)
Inductive result (A : Type) : Type :=
| Ret (a : A)
| Raise (e : exn)
| OutOfFuel.

Arguments Ret {A} a.
Arguments Raise {A} e.
Arguments OutOfFuel {A}.

Definition bind {A B : Type} (m : result A) (k : A -> result B) : result B :=
  match m with
  | Ret a => k a
  | Raise e => Raise e
  | OutOfFuel => OutOfFuel
  end.

Notation "'let*' x ':=' m 'in' k" := (bind m (fun x => k))
  (at level 10, x name, m at level 100, k at level 200).

(** A list comprehension [[f(i) for i in l]] whose body may raise. *)
Fixpoint mapM {A B : Type} (f : A -> result B) (l : list A) : result (list B) :=
  match l with
  | [] => Ret []
  | x :: l' =>
      let* y := f x in
      let* ys := mapM f l' in
      Ret (y :: ys)
  end.

(** [l[-1]]. *)
Definition last_item {A : Type} (l : list A) : result A :=
  match last l with
  | Some x => Ret x
  | None => Raise IndexError
  end.

(** ** Calendar dates

    A [datetime] as the script uses it: always at midnight (it comes from
    [strptime] with a date-only format and is only moved by whole days),
    so the three date fields are all the state there is. *)

Record datetime : Type := mkdate { year : Z; month : Z; day : Z }.

Definition MINYEAR : Z := 1.
Definition MAXYEAR : Z := 9999.

Definition is_leap (y : Z) : bool :=
  (y mod 4 =? 0) && (negb (y mod 100 =? 0) || (y mod 400 =? 0)).

Definition days_in_month (y m : Z) : Z :=
  if (m =? 2) && is_leap y then 29
  else if m =? 2 then 28
  else if (m =? 4) || (m =? 6) || (m =? 9) || (m =? 11) then 30
  else 31.

(** The check the [datetime] constructor and [replace] perform. *)
Definition check_date (d : datetime) : bool :=
  (MINYEAR <=? year d) && (year d <=? MAXYEAR) &&
  (1 <=? month d) && (month d <=? 12) &&
  (1 <=? day d) && (day d <=? days_in_month (year d) (month d)).

(** [d.toordinal()], the day number datetime does its arithmetic on:
    1 for 0001-01-01, one more for every day after. *)
Definition days_before_year (y : Z) : Z :=
  let y := y - 1 in y * 365 + y / 4 - y / 100 + y / 400.

Definition DAYS_BEFORE_MONTH : list Z :=
  [-1; 0; 31; 59; 90; 120; 151; 181; 212; 243; 273; 304; 334].

Definition days_before_month (y m : Z) : Z :=
  nth (Z.to_nat m) DAYS_BEFORE_MONTH 0 + (if (2 <? m) && is_leap y then 1 else 0).

Definition toordinal (d : datetime) : Z :=
  days_before_year (year d) + days_before_month (year d) (month d) + day d.

(** [d - timedelta(days=1)]: the date whose ordinal is one less (see
    [pred_day_toordinal] and [toordinal_lt]), out of range before
    0001-01-01. *)
Definition pred_day (d : datetime) : result datetime :=
  if 1 <? day d then Ret (mkdate (year d) (month d) (day d - 1))
  else if 1 <? month d then
    Ret (mkdate (year d) (month d - 1) (days_in_month (year d) (month d - 1)))
  else if MINYEAR <? year d then Ret (mkdate (year d - 1) 12 31)
  else Raise OverflowError.

(** [d - timedelta(days=n)]. *)
Fixpoint sub_days (d : datetime) (n : nat) : result datetime :=
  match n with
  | O => Ret d
  | S n' => let* p := sub_days d n' in pred_day p
  end.

(** [d.replace(day=...)] and [d.replace(month=..., year=...)]. *)
Definition replace_day (d : datetime) (dd : Z) : result datetime :=
  let r := mkdate (year d) (month d) dd in
  if check_date r then Ret r else Raise ValueError.

Definition replace_month_year (d : datetime) (m y : Z) : result datetime :=
  let r := mkdate y m (day d) in
  if check_date r then Ret r else Raise ValueError.

(** Date order, as [datetime] compares: by year, then month, then day. *)
Definition date_lt (a b : datetime) : Prop :=
  year a < year b \/
  (year a = year b /\ (month a < month b \/ (month a = month b /\ day a < day b))).

(** The same order as a test. *)
Definition date_ltb (a b : datetime) : bool :=
  (year a <? year b) ||
  ((year a =? year b) && ((month a <? month b) || ((month a =? month b) && (day a <? day b)))).

(** Months counted from year 0: moves by one from a month to the next. *)
Definition month_index (d : datetime) : Z := 12 * year d + month d.

(** ** The format "%Y-%m-%d" *)

Definition digit_char (n : Z) : ascii := ascii_of_nat (48 + Z.to_nat (n mod 10)).

Definition is_digit (c : ascii) : bool :=
  let n := nat_of_ascii c in (48 <=? n)%nat && (n <=? 57)%nat.

Definition digit_val (c : ascii) : Z := Z.of_nat (nat_of_ascii c) - 48.

Definition pad2 (n : Z) : string :=
  String (digit_char (n / 10)) (String (digit_char n) EmptyString).

Definition pad4 (n : Z) : string :=
  String (digit_char (n / 1000)) (String (digit_char (n / 100)) (pad2 n)).

Definition dash : ascii := "-"%char.

(** [d.strftime("%Y-%m-%d")]: four, two and two digits, zero padded (for
    the year this is what every platform prints from year 1000 on). *)
Definition strftime (d : datetime) : string :=
  String.append (pad4 (year d))
    (String dash (String.append (pad2 (month d)) (String dash (pad2 (day d))))).

(** The directive %Y reads exactly four digits. *)
Definition parse_Y (s : string) : option (Z * string) :=
  match s with
  | String a (String b (String c (String d rest))) =>
      if is_digit a && is_digit b && is_digit c && is_digit d
      then Some (1000 * digit_val a + 100 * digit_val b + 10 * digit_val c + digit_val d, rest)
      else None
  | _ => None
  end.

(** %m reads [1[0-2]|0[1-9]|[1-9]]; the literal dash that follows decides
    between the two-character and the one-character alternatives. *)
Definition parse_m (s : string) : option (Z * string) :=
  match s with
  | String a (String b rest) =>
      if is_digit a && is_digit b then
        let v := 10 * digit_val a + digit_val b in
        if (1 <=? v) && (v <=? 12) then Some (v, rest) else None
      else if is_digit a && (1 <=? digit_val a) then Some (digit_val a, String b rest)
      else None
  | _ => None
  end.

(** %d reads [3[01]|[12]\d|0[1-9]|[1-9]| [1-9]] and must end the string
    (otherwise: "unconverted data remains"). *)
Definition parse_d (s : string) : option Z :=
  match s with
  | String a EmptyString =>
      if is_digit a && (1 <=? digit_val a) then Some (digit_val a) else None
  | String a (String b EmptyString) =>
      if is_digit a && is_digit b then
        let v := 10 * digit_val a + digit_val b in
        if (1 <=? v) && (v <=? 31) then Some v else None
      else if Ascii.eqb a " "%char && is_digit b && (1 <=? digit_val b)
      then Some (digit_val b)
      else None
  | _ => None
  end.

Definition expect_dash (s : string) : option string :=
  match s with
  | String c rest => if Ascii.eqb c dash then Some rest else None
  | EmptyString => None
  end.

(** [datetime.strptime(s, "%Y-%m-%d")]. *)
Definition strptime (s : string) : result datetime :=
  match parse_Y s with
  | Some (y, s1) =>
      match expect_dash s1 with
      | Some s2 =>
          match parse_m s2 with
          | Some (m, s3) =>
              match expect_dash s3 with
              | Some s4 =>
                  match parse_d s4 with
                  | Some d =>
                      let r := mkdate y m d in
                      if check_date r then Ret r else Raise ValueError
                  | None => Raise ValueError
                  end
              | None => Raise ValueError
              end
          | None => Raise ValueError
          end
      | None => Raise ValueError
      end
  | None => Raise ValueError
  end.

(** ** The retention scheduler *)

Definition generate_daily (input_date : string) : result (list string) :=
  let* input_date := strptime input_date in
  mapM (fun i => let* d := sub_days input_date i in Ret (strftime d)) (seq 0 7).

Definition specific_days : list Z := [22; 15; 8; 1].

Definition in_specific_days (d : Z) : bool := existsb (Z.eqb d) specific_days.

(** The [while len(result_days) < 4] loop of [generate_weekly]; one unit of
    fuel per iteration. *)
Fixpoint weekly_loop (fuel : nat) (input_date : datetime)
    (result_days : list string) (dc : nat) : result (list string) :=
  if (length result_days <? 4)%nat then
    match fuel with
    | O => OutOfFuel
    | S fuel' =>
        let* temp_date := sub_days input_date dc in
        let result_days :=
          if in_specific_days (day temp_date)
          then result_days ++ [strftime temp_date]
          else result_days in
        weekly_loop fuel' input_date result_days (S dc)
    end
  else Ret result_days.

Definition generate_weekly (fuel : nat) (input_date : string) : result (list string) :=
  let* parsed := strptime input_date in
  let* input_date := sub_days parsed 1 in
  weekly_loop fuel input_date [] 0%nat.

(** The [while len(months) < 3] loop of [generate_monthly]. *)
Fixpoint monthly_loop (fuel : nat) (temp_date : datetime) (months : list string)
    : result (list string) :=
  if (length months <? 3)%nat then
    match fuel with
    | O => OutOfFuel
    | S fuel' =>
        let previous_month := if 1 <? month temp_date then month temp_date - 1 else 12 in
        let previous_year := if 1 <? month temp_date then year temp_date else year temp_date - 1 in
        let* temp_date := replace_month_year temp_date previous_month previous_year in
        monthly_loop fuel' temp_date (months ++ [strftime temp_date])
    end
  else Ret months.

Definition generate_monthly (fuel : nat) (input_date : string) : result (list string) :=
  let* parsed := strptime input_date in
  let* input_date := sub_days parsed 1 in
  let* temp_date := replace_day input_date 1 in
  monthly_loop fuel temp_date [strftime temp_date].

Definition save_days (fuel : nat) (input_date : string) : result (list string) :=
  let* daily := generate_daily input_date in
  let* last_daily := last_item daily in
  let* weekly := generate_weekly fuel last_daily in
  let* last_weekly := last_item weekly in
  let* monthly := generate_monthly fuel last_weekly in
  Ret (daily ++ weekly ++ monthly).

(** ** The object store client *)

(** What the script reads of a [list_objects_v2] response: the keys of
    ['Contents'] (the entry is absent on an empty page), ['IsTruncated']
    and ['NextContinuationToken']. *)
Record list_response : Type := {
  Contents : option (list string);
  IsTruncated : bool;
  NextContinuationToken : option string
}.

(** A [delete_objects] response: the keys deleted and those the store
    reports under ['Errors']. *)
Record delete_response : Type := {
  Deleted : list string;
  Errors : list string
}.

(** The two calls the script makes on the boto3 client, over the state [S]
    of the store; both may raise. *)
Record s3_client (S : Type) : Type := {
  list_objects_v2 : S -> string -> string -> option string -> result list_response;
  delete_objects : S -> string -> list string -> S * result delete_response
}.

Arguments list_objects_v2 {S} _ _ _ _ _.
Arguments delete_objects {S} _ _ _ _.

(** [response.get('Contents', [])]. *)
Definition get_Contents (r : list_response) : list string := default [] (Contents r).

(** Python truth of a token: [None] and the empty string are false. *)
Definition truthy (t : option string) : bool :=
  match t with
  | Some s => negb (String.eqb s EmptyString)
  | None => false
  end.

(** ** Listing the dated folders *)

(** [s] without the leading [p], when [s] starts with [p]. *)
Fixpoint strip_prefix (p s : string) : option string :=
  match p, s with
  | EmptyString, _ => Some s
  | String a p', String b s' => if Ascii.eqb a b then strip_prefix p' s' else None
  | String _ _, EmptyString => None
  end.

(** The group [(\d{4}-\d{2}-\d{2})] followed by a slash. *)
Definition date_segment (s : string) : option string :=
  match s with
  | String y1 (String y2 (String y3 (String y4 (String h1 (String m1 (String m2
      (String h2 (String d1 (String d2 (String sl _)))))))))) =>
      if is_digit y1 && is_digit y2 && is_digit y3 && is_digit y4 &&
         Ascii.eqb h1 dash && is_digit m1 && is_digit m2 &&
         Ascii.eqb h2 dash && is_digit d1 && is_digit d2 &&
         Ascii.eqb sl "/"%char
      then Some (substring 0 10 s)
      else None
  | _ => None
  end.

(** [re.match(rf'^{prefix}/(\d{{4}}-\d{{2}}-\d{{2}})/', key)], group 1,
    on the domain where the pattern is this string function: a prefix
    without regular expression operators ([plain] below, such as the
    default [databases]), which the pattern reads as itself, and keys of
    ASCII characters ([ascii_text] below), among which [\d] is one of 0 to
    9.  Outside it the pattern may be rejected or match otherwise; the
    statements about [list_s3_folders] say which of the two conditions
    they are made under. *)
Definition match_folder (prefix key : string) : option string :=
  match strip_prefix (String.append prefix "/") key with
  | Some rest => date_segment rest
  | None => None
  end.

(** The [for content in response.get('Contents', [])] loop. *)
Definition add_folders (prefix : string) (folders : gset string) (keys : list string)
    : gset string :=
  fold_left
    (fun folders key =>
       match match_folder prefix key with
       | Some g => {[g]} ∪ folders
       | None => folders
       end)
    keys folders.

(** [sorted(folders)]. *)
Definition sorted (folders : gset string) : list string :=
  merge_sort String.le (elements folders).

(** One [delete_objects] request, with the folder the loop was at. *)
Record delete_request : Type := {
  req_folder : string;
  req_keys : list string;
  req_response : result delete_response
}.

(** How a run of the script ends: the store it leaves, the delete requests
    it made, and [sys.exit]'s argument or the uncaught exception. *)
Record run (S : Type) : Type := {
  final_store : S;
  requests : list delete_request;
  exit_code : result Z
}.

Arguments final_store {S} _.
Arguments requests {S} _.
Arguments exit_code {S} _.

(** [f"{DEST_FOLDER}/{folder}/"]. *)
Definition folder_prefix (DEST_FOLDER folder : string) : string :=
  String.append DEST_FOLDER (String.append "/" (String.append folder "/")).

Section client.
Context {S : Type} (s3_client : s3_client S).

(** The [while True] loop of [list_s3_folders]; one unit of fuel per
    request. *)
Fixpoint list_loop (fuel : nat) (st : S) (bucket_name prefix : string)
    (folders : gset string) (continuation_token : option string)
    : result (gset string) :=
  match fuel with
  | O => OutOfFuel
  | Datatypes.S fuel' =>
      let* response :=
        if truthy continuation_token
        then list_objects_v2 s3_client st bucket_name prefix continuation_token
        else list_objects_v2 s3_client st bucket_name prefix None in
      let folders := add_folders prefix folders (get_Contents response) in
      if IsTruncated response
      then list_loop fuel' st bucket_name prefix folders (NextContinuationToken response)
      else Ret folders
  end.

Definition list_s3_folders (fuel : nat) (st : S) (bucket_name prefix : string)
    : result (list string) :=
  let* folders := list_loop fuel st bucket_name prefix ∅ None in
  Ret (sorted folders).

(** The [for folder in existing_folders] loop.  The state of the store is
    threaded through; the requests made are logged in order.  An exception
    of either call ends the loop, and the script. *)
Fixpoint delete_loop (BUCKET_NAME DEST_FOLDER : string) (keep_folders : gset string)
    (existing_folders : list string) (st : S) (log : list delete_request)
    : S * list delete_request * result unit :=
  match existing_folders with
  | [] => (st, log, Ret tt)
  | folder :: rest =>
      if decide (folder ∈ keep_folders)
      then delete_loop BUCKET_NAME DEST_FOLDER keep_folders rest st log
      else
        match list_objects_v2 s3_client st BUCKET_NAME
                (folder_prefix DEST_FOLDER folder) None with
        | Ret listing =>
            let objects := get_Contents listing in
            let '(st', delete_response) :=
              delete_objects s3_client st BUCKET_NAME objects in
            let log' := log ++ [{| req_folder := folder; req_keys := objects;
                                   req_response := delete_response |}] in
            match delete_response with
            | Ret _ => delete_loop BUCKET_NAME DEST_FOLDER keep_folders rest st' log'
            | Raise e => (st', log', Raise e)
            | OutOfFuel => (st', log', OutOfFuel)
            end
        | Raise e => (st, log, Raise e)
        | OutOfFuel => (st, log, OutOfFuel)
        end
  end.

(** The retention part of the script, from [existing_folders = ...] to
    [sys.exit(exit_status)]; [exit_status] is what the backup loop left.
    The success message on standard output is not modelled. *)
Definition retention_policy (fuel : nat) (st : S)
    (BUCKET_NAME DEST_FOLDER DATE : string) (exit_status : Z) : run S :=
  match list_s3_folders fuel st BUCKET_NAME DEST_FOLDER with
  | Ret existing_folders =>
      match save_days fuel DATE with
      | Ret keep_dates =>
          let keep_folders : gset string := list_to_set keep_dates in
          let '(st', log, r) :=
            delete_loop BUCKET_NAME DEST_FOLDER keep_folders existing_folders st [] in
          {| final_store := st'; requests := log;
             exit_code := let* _ := r in Ret exit_status |}
      | Raise e => {| final_store := st; requests := []; exit_code := Raise e |}
      | OutOfFuel => {| final_store := st; requests := []; exit_code := OutOfFuel |}
      end
  | Raise e => {| final_store := st; requests := []; exit_code := Raise e |}
  | OutOfFuel => {| final_store := st; requests := []; exit_code := OutOfFuel |}
  end.

End client.

(** [exit_status] after the backup loop, given the return code of each
    upload: a failed upload sets it to -1 and the loop goes on. *)
Definition backup_loop (returncodes : list Z) : Z :=
  fold_left (fun exit_status rc => if rc =? 0 then exit_status else -1) returncodes 0.

(** * Vocabulary of the statements *)

(** A date the [datetime] constructor accepts. *)
Definition valid (d : datetime) : Prop := check_date d = true.

(** The date [n] days before [d], where it exists. *)
Definition back (d : datetime) (n : nat) : datetime :=
  match sub_days d n with
  | Ret p => p
  | _ => d
  end.

(** The dates a backward walk of [n] steps from [d] visits, in order. *)
Definition walk (d : datetime) (n : nat) : list datetime := map (back d) (seq 0 n).

(** The day of month of [d] is one of 22, 15, 8 and 1. *)
Definition special (d : datetime) : bool := in_specific_days (day d).

(** Every date of the list is strictly before all the dates in front of it. *)
Definition decreasing : list datetime -> Prop := StronglySorted (fun a b => date_lt b a).

(** The last day of the month before the month of [d]. *)
Definition prev_month_end (d : datetime) : datetime :=
  if 1 <? month d
  then mkdate (year d) (month d - 1) (days_in_month (year d) (month d - 1))
  else mkdate (year d - 1) 12 31.

(** The dates of the weekly tier for an anchor [a] reached after [k] steps. *)
Definition weekly_dates (a : datetime) (k : nat) : list datetime :=
  List.filter special (walk a k).

(** The first day of the month of [d]. *)
Definition first_of_month (d : datetime) : datetime := mkdate (year d) (month d) 1.

(** The first day of the month before the month of [d]. *)
Definition month_before (d : datetime) : datetime :=
  if month d =? 1 then mkdate (year d - 1) 12 1 else mkdate (year d) (month d - 1) 1.

(** A number that orders valid dates as [date_lt] does. *)
Definition date_key (d : datetime) : Z := 372 * year d + 31 * month d + day d.

(** The dates of the monthly tier for an anchor [a]. *)
Definition monthly_dates (a : datetime) : list datetime :=
  [first_of_month a;
   month_before (first_of_month a);
   month_before (month_before (first_of_month a))].

(** A reference date the scheduler is defined on: a string [strptime]
    accepts, of year 1001 or later, so that every date the scheduler prints
    and reads back has a year of four digits.  (The C library does not pad
    the years below 1000 on every platform, and in the first months of
    year 1 the walk back leaves the range of [datetime].) *)
Definition reference_date (s : string) (D : datetime) : Prop :=
  strptime s = Ret D /\ 1001 <= year D.

(** [weekly] is what a backward walk from [anchor] collects: the dates with
    a special day of month among the first [k] days at or before [anchor],
    where [k] is the first step count that brings four of them. *)
Definition weekly_from (anchor : datetime) (weekly : list string) : Prop :=
  exists k,
    (forall i, (i < k)%nat -> sub_days anchor i = Ret (back anchor i)) /\
    weekly = map strftime (weekly_dates anchor k) /\
    length weekly = 4%nat /\
    (forall j, (j < k)%nat -> (length (weekly_dates anchor j) < 4)%nat).

(** The pages a client serves for one listing, following the continuation
    tokens from [tok]; [n] bounds their number. *)
Fixpoint served_pages {S : Type} (cl : s3_client S) (n : nat) (st : S)
    (bucket_name prefix : string) (tok : option string) : option (list (list string)) :=
  match n with
  | O => None
  | Datatypes.S n' =>
      match list_objects_v2 cl st bucket_name prefix tok with
      | Ret r =>
          if IsTruncated r then
            if truthy (NextContinuationToken r) then
              option_map (cons (get_Contents r))
                (served_pages cl n' st bucket_name prefix (NextContinuationToken r))
            else None
          else Some [get_Contents r]
      | _ => None
      end
  end.

(** The existing folders that are not kept, in the order of the list. *)
Definition doomed (keep_folders : gset string) (existing_folders : list string)
    : list string :=
  List.filter (fun folder => negb (bool_decide (folder ∈ keep_folders))) existing_folders.

(** The request [rq] carries the keys of one listing response for its
    folder, asked without a continuation token, and the answer the store
    gave to the delete request. *)
Definition one_page_request {S : Type} (cl : s3_client S)
    (BUCKET_NAME DEST_FOLDER : string) (rq : delete_request) : Prop :=
  exists (st0 : S) (listing : list_response),
    list_objects_v2 cl st0 BUCKET_NAME (folder_prefix DEST_FOLDER (req_folder rq)) None
      = Ret listing /\
    req_keys rq = get_Contents listing /\
    req_response rq = snd (delete_objects cl st0 BUCKET_NAME (req_keys rq)).

(** * An in-memory store to run the script against *)

(** A bucket as the list of its keys in listing order.  As the object
    store does, a listing returns the keys under the prefix a page at a
    time ([page_size] keys at most, 1000 on S3), with a continuation token
    while keys remain; a delete request reports the keys it could not
    delete (here: the [locked] ones) under ['Errors'] and rejects an empty
    list of keys. *)
Record bucket : Type := {
  objects : list string;
  locked : list string;
  page_size : nat
}.

(** [k in l]. *)
Definition mem (k : string) (l : list string) : bool := existsb (String.eqb k) l.

(** The keys listed after the key [t]. *)
Fixpoint after (t : string) (l : list string) : list string :=
  match l with
  | [] => []
  | k :: l' => if String.eqb k t then l' else after t l'
  end.

(** One page of the keys under [prefix], from the start or from after the
    key the token names; the token of a truncated page is its last key. *)
Definition bucket_list (b : bucket) (bucket_name prefix : string) (tok : option string)
    : result list_response :=
  let matching := List.filter (String.prefix prefix) (objects b) in
  let remaining := match tok with Some t => after t matching | None => matching end in
  let page := firstn (page_size b) remaining in
  let more := (page_size b <? length remaining)%nat in
  Ret {| Contents := match page with [] => None | _ => Some page end;
         IsTruncated := more;
         NextContinuationToken := if more then last page else None |}.

(** Removes the keys that are not locked and reports the locked ones. *)
Definition bucket_delete (b : bucket) (bucket_name : string) (keys : list string)
    : bucket * result delete_response :=
  match keys with
  | [] => (b, Raise ClientError)
  | _ =>
      let refused := List.filter (fun k => mem k (locked b)) keys in
      let removed := List.filter (fun k => negb (mem k (locked b))) keys in
      ({| objects := List.filter (fun k => negb (mem k removed)) (objects b);
          locked := locked b;
          page_size := page_size b |},
       Ret {| Deleted := removed; Errors := refused |})
  end.

(** The in-memory store behind the client interface. *)
Definition bucket_client : s3_client bucket :=
  {| list_objects_v2 := bucket_list; delete_objects := bucket_delete |}.

(** Five objects in three dated folders. *)
Definition five_keys : list string :=
  ["databases/2024-01-01/03-00/shop.sql.gz";
   "databases/2024-01-01/03-00/wiki.sql.gz";
   "databases/2024-02-29/03-00/shop.sql.gz";
   "databases/2024-02-29/03-00/wiki.sql.gz";
   "databases/2024-03-15/03-00/shop.sql.gz"]%string.

(** The five objects in a store that lists 1000 keys a page, and a
    keep-set that leaves out the folder in the middle. *)
Definition small_store : bucket :=
  {| objects := five_keys; locked := []; page_size := 1000 |}.

Definition small_keep : gset string := list_to_set ["2024-03-15"; "2024-01-01"]%string.

Definition small_existing : list string := ["2024-01-01"; "2024-02-29"; "2024-03-15"]%string.

(** A folder of 1001 objects, older than anything kept in March 2024, in a
    store that lists 1000 keys a page. *)
Definition big_folder : list string :=
  map (fun i => String.append "databases/2020-01-01/03-00/db"
                  (String.append (pad4 (Z.of_nat i)) ".sql.gz"))
      (seq 0 1001).

(** The store that holds just that folder. *)
Definition big_store : bucket :=
  {| objects := big_folder; locked := []; page_size := 1000 |}.

(** The retention part of the script run on that store on 2024-03-15. *)
Definition big_run : run bucket :=
  retention_policy bucket_client 62 big_store "bucket" "databases" "2024-03-15" 0.

(** Two old folders and today's; the object of the first old folder cannot
    be deleted. *)
Definition locked_store : bucket :=
  {| objects := ["databases/2020-01-01/03-00/shop.sql.gz";
                 "databases/2020-01-02/03-00/shop.sql.gz";
                 "databases/2024-03-15/03-00/shop.sql.gz"]%string;
     locked := ["databases/2020-01-01/03-00/shop.sql.gz"%string];
     page_size := 1000 |}.

(** A client whose every delete request fails with an exception. *)
Definition refusing_client : s3_client bucket :=
  {| list_objects_v2 := bucket_list;
     delete_objects := fun b _ _ => (b, Raise ClientError) |}.

(** The retention part of the script on 2024-03-15 after a backup loop
    whose upload succeeded, on the store with the locked object: once with
    the in-memory client, once with the refusing one. *)
Definition locked_run : run bucket :=
  retention_policy bucket_client 62 locked_store "bucket" "databases" "2024-03-15"
    (backup_loop [0]).

Definition refused_run : run bucket :=
  retention_policy refusing_client 62 locked_store "bucket" "databases" "2024-03-15"
    (backup_loop [0]).

(** * The backup loop *)

(** The characters [str.split()] splits at, among those of ASCII. *)
Definition is_space (c : ascii) : bool :=
  let n := nat_of_ascii c in
  ((9 <=? n) && (n <=? 13) || (28 <=? n) && (n <=? 32))%nat.

(** [s.split()] for a string of ASCII characters ([ascii_text] below): the
    runs of characters between white space, in order; [word] is the run
    being read.  (Beyond ASCII [str.split] knows more white space; the
    statements about [split] are for ASCII text.) *)
Fixpoint split_from (word : string) (s : string) : list string :=
  match s with
  | EmptyString => if String.eqb word "" then [] else [word]
  | String c s' =>
      if is_space c
      then (if String.eqb word "" then split_from "" s' else word :: split_from "" s')
      else split_from (String.append word (String c "")) s'
  end.

Definition split (s : string) : list string := split_from "" s.

(** [databases = [db for db in result.stdout.split()
                  if db not in EXCLUDE_DB and db != "Database"]],
    with [EXCLUDE_DB = args.exclude.split()]. *)
Definition databases (stdout exclude : string) : list string :=
  let EXCLUDE_DB := split exclude in
  List.filter (fun db => negb (mem db EXCLUDE_DB) && negb (String.eqb db "Database"))
    (split stdout).

(** [f"{db}.sql.gz"]. *)
Definition filename (db : string) : string := String.append db ".sql.gz".

(** The key of the object the upload writes, from
    [f"s3://{BUCKET_NAME}/{DEST_FOLDER}/{DATE}/{TIME}/{filename}"]. *)
Definition upload_key (DEST_FOLDER DATE TIME db : string) : string :=
  String.append DEST_FOLDER
    (String.append "/" (String.append DATE
       (String.append "/" (String.append TIME (String.append "/" (filename db)))))).

(** * Further vocabulary *)

(** The text [mysql -e "SHOW DATABASES;"] prints for a list of names when
    standard output is a pipe: one name a line. *)
Fixpoint one_per_line (names : list string) : string :=
  match names with
  | [] => EmptyString
  | n :: names' => String.append n (String "010"%char (one_per_line names'))
  end.

(** A word as [split] returns them: not empty, without white space. *)
Fixpoint no_space (s : string) : bool :=
  match s with
  | EmptyString => true
  | String c s' => negb (is_space c) && no_space s'
  end.

Definition is_word (s : string) : bool := negb (String.eqb s "") && no_space s.

(** Text of ASCII characters only. *)
Fixpoint ascii_text (s : string) : bool :=
  match s with
  | EmptyString => true
  | String c s' => (nat_of_ascii c <? 128)%nat && ascii_text s'
  end.

(** A name without a slash, as every folder name is. *)
Fixpoint no_slash (s : string) : bool :=
  match s with
  | EmptyString => true
  | String c s' => negb (Ascii.eqb c "/"%char) && no_slash s'
  end.

(** A prefix the pattern of [list_s3_folders] reads as itself: letters,
    digits, [_], [-] and [/] only. *)
Definition plain_char (c : ascii) : bool :=
  let n := nat_of_ascii c in
  ((48 <=? n) && (n <=? 57) || (65 <=? n) && (n <=? 90) || (97 <=? n) && (n <=? 122)
   || (n =? 95) || (n =? 45) || (n =? 47))%nat.

Fixpoint plain (s : string) : bool :=
  match s with
  | EmptyString => true
  | String c s' => plain_char c && plain s'
  end.

(** A folder name as [list_s3_folders] extracts them: four digits, two
    digits and two digits with dashes between. *)
Definition date_shaped (g : string) : Prop :=
  date_segment (String.append g "/") = Some g.

(** A client whose listings only return keys under the prefix asked for. *)
Definition honours_prefix {S : Type} (cl : s3_client S) : Prop :=
  forall (st : S) (bucket_name prefix : string) (tok : option string) (r : list_response),
    list_objects_v2 cl st bucket_name prefix tok = Ret r ->
    Forall (fun key => String.prefix prefix key = true) (get_Contents r).

(** A store that says its first page is truncated and gives no token. *)
Definition tokenless_client : s3_client unit :=
  {| list_objects_v2 := fun _ _ _ _ =>
       Ret {| Contents := Some ["databases/2024-03-15/03-00/shop.sql.gz"%string];
              IsTruncated := true;
              NextContinuationToken := None |};
     delete_objects := fun st _ _ => (st, Raise ClientError) |}.

(** * Closed forms of the tiers *)

(** The weekly tier for an anchor [a]: the 22nd, 15th, 8th and 1st of the
    month of [a] that are not after [a], then those of the month before,
    four dates in all. *)
Definition weekly_closed (a : datetime) : list datetime :=
  let this s := mkdate (year a) (month a) s in
  let before s := mkdate (year (prev_month_end a)) (month (prev_month_end a)) s in
  if 22 <=? day a then [this 22; this 15; this 8; this 1]
  else if 15 <=? day a then [this 15; this 8; this 1; before 22]
  else if 8 <=? day a then [this 8; this 1; before 22; before 15]
  else [this 1; before 22; before 15; before 8].

(** The monthly tier for the same anchor: the first days of the three
    months before the month of [a]. *)
Definition monthly_closed (a : datetime) : list datetime :=
  [month_before a;
   month_before (month_before a);
   month_before (month_before (month_before a))].

(** A step of a walk of [d + L] days, told by the month it lands in
    ([true]: the month the walk starts in, on day [d]; [false]: the month
    before, of [L] days) and the day of month. *)
Definition step_tag (d L : Z) (i : nat) : bool * Z :=
  if Z.of_nat i <? d then (true, d - Z.of_nat i) else (false, L - (Z.of_nat i - d)).

(** The date a tag stands for in a walk from [a]. *)
Definition tag_date (a : datetime) (t : bool * Z) : datetime :=
  if fst t
  then mkdate (year a) (month a) (snd t)
  else mkdate (year (prev_month_end a)) (month (prev_month_end a)) (snd t).

(** [weekly_closed] in tags. *)
Definition closed_tags (d : Z) : list (bool * Z) :=
  if 22 <=? d then [(true, 22); (true, 15); (true, 8); (true, 1)]
  else if 15 <=? d then [(true, 15); (true, 8); (true, 1); (false, 22)]
  else if 8 <=? d then [(true, 8); (true, 1); (false, 22); (false, 15)]
  else [(true, 1); (false, 22); (false, 15); (false, 8)].

(** * Properties *)

(** ** The result monad *)

Lemma bind_Ret_inv {A B : Type} (m : result A) (k : A -> result B) (b : B) :
  bind m k = Ret b -> exists a, m = Ret a /\ k a = Ret b.
Proof. destruct m; simpl; intros H; try discriminate. eauto. Qed.

Lemma mapM_Ret {A B : Type} (f : A -> result B) (g : A -> B) (l : list A) :
  (forall x, In x l -> f x = Ret (g x)) -> mapM f l = Ret (map g l).
Proof.
  induction l as [|x l IH]; intros H; simpl; [reflexivity|].
  rewrite (H x) by (left; reflexivity). simpl.
  rewrite IH by (intros y Hy; apply H; right; exact Hy). reflexivity.
Qed.

(** ** Calendar arithmetic *)

Lemma days_in_month_bounds (y m : Z) : 28 <= days_in_month y m <= 31.
Proof.
  unfold days_in_month.
  destruct ((m =? 2) && is_leap y); [lia|].
  destruct (m =? 2); [lia|].
  destruct ((m =? 4) || (m =? 6) || (m =? 9) || (m =? 11)); lia.
Qed.

Lemma valid_iff (d : datetime) :
  valid d <->
  1 <= year d <= 9999 /\ 1 <= month d <= 12 /\
  1 <= day d <= days_in_month (year d) (month d).
Proof.
  unfold valid, check_date, MINYEAR, MAXYEAR.
  rewrite !andb_true_iff, !Z.leb_le. tauto.
Qed.

Lemma date_ltb_lt (a b : datetime) : date_ltb a b = true <-> date_lt a b.
Proof.
  unfold date_ltb, date_lt.
  rewrite !orb_true_iff, !andb_true_iff, !orb_true_iff, !andb_true_iff,
    !Z.ltb_lt, !Z.eqb_eq. tauto.
Qed.

Lemma date_lt_trans (a b c : datetime) : date_lt a b -> date_lt b c -> date_lt a c.
Proof. unfold date_lt. lia. Qed.

Lemma date_lt_irrefl (a : datetime) : ~ date_lt a a.
Proof. unfold date_lt. lia. Qed.

#[local] Instance date_lt_transitive : Transitive date_lt.
Proof. intros a b c. apply date_lt_trans. Qed.

(** One day back stays a date, is earlier, and leaves the month index
    where it was or one lower. *)
Lemma pred_day_ok (d : datetime) :
  valid d -> 13 < month_index d ->
  exists p, pred_day d = Ret p /\ valid p /\ date_lt p d /\
            month_index d - 1 <= month_index p <= month_index d.
Proof.
  intros Hv Hm. apply valid_iff in Hv. destruct d as [y m dd].
  unfold month_index, pred_day, MINYEAR in *. simpl in *.
  destruct (Z.ltb_spec 1 dd).
  - eexists; split; [reflexivity|]. rewrite valid_iff. unfold date_lt. simpl. lia.
  - destruct (Z.ltb_spec 1 m).
    + eexists; split; [reflexivity|]. rewrite valid_iff. unfold date_lt. simpl.
      pose proof (days_in_month_bounds y (m - 1)). lia.
    + destruct (Z.ltb_spec 1 y); [|lia].
      eexists; split; [reflexivity|]. rewrite valid_iff. unfold date_lt. simpl.
      change (days_in_month (y - 1) 12) with 31. lia.
Qed.

(** *** Agreement with the day numbers of datetime *)

Lemma days_before_month_succ (y m : Z) :
  1 <= m < 12 ->
  days_before_month y (m + 1) = days_before_month y m + days_in_month y m.
Proof.
  intros H.
  assert (m = 1 \/ m = 2 \/ m = 3 \/ m = 4 \/ m = 5 \/ m = 6 \/
          m = 7 \/ m = 8 \/ m = 9 \/ m = 10 \/ m = 11) as Hc by lia.
  unfold days_before_month, days_in_month.
  destruct (is_leap y);
    repeat (destruct Hc as [->|Hc]; [reflexivity|]); subst; reflexivity.
Qed.

Lemma days_before_year_succ (y : Z) :
  days_before_year (y + 1) = days_before_year y + 365 + (if is_leap y then 1 else 0).
Proof.
  unfold days_before_year, is_leap. cbv zeta.
  replace (y + 1 - 1) with y by lia.
  destruct (Z.eqb_spec (y mod 4) 0), (Z.eqb_spec (y mod 100) 0),
    (Z.eqb_spec (y mod 400) 0);
    cbn [negb andb orb]; Z.div_mod_to_equations; lia.
Qed.

Lemma days_before_year_mono (a b : Z) :
  a <= b -> days_before_year a <= days_before_year b.
Proof.
  intros H. unfold days_before_year. cbv zeta. Z.div_mod_to_equations. lia.
Qed.

Lemma days_before_month_mono (y m m' : Z) :
  1 <= m -> m <= m' -> m' <= 12 -> days_before_month y m <= days_before_month y m'.
Proof.
  intros H1 H2 H3.
  assert (Hk : forall k : nat, m + Z.of_nat k <= 12 ->
                 days_before_month y m <= days_before_month y (m + Z.of_nat k)).
  { induction k as [|k IH]; intros Hle.
    - rewrite Z.add_0_r. lia.
    - replace (m + Z.of_nat (S k)) with (m + Z.of_nat k + 1) by lia.
      rewrite days_before_month_succ by lia.
      pose proof (days_in_month_bounds y (m + Z.of_nat k)). specialize (IH ltac:(lia)). lia. }
  replace m' with (m + Z.of_nat (Z.to_nat (m' - m))) by lia. apply Hk. lia.
Qed.

Lemma days_before_month_end (y m : Z) :
  1 <= m <= 12 ->
  days_before_month y m + days_in_month y m <= 365 + (if is_leap y then 1 else 0).
Proof.
  intros H. destruct (Z.eq_dec m 12) as [->|Hne].
  - unfold days_before_month, days_in_month. destruct (is_leap y); simpl; lia.
  - rewrite <- days_before_month_succ by lia.
    pose proof (days_before_month_mono y (m + 1) 12 ltac:(lia) ltac:(lia) ltac:(lia)).
    assert (days_before_month y 12 + 31 = 365 + (if is_leap y then 1 else 0)).
    { unfold days_before_month. destruct (is_leap y); reflexivity. }
    lia.
Qed.

(** One day back is one ordinal less. *)
Lemma pred_day_toordinal (d p : datetime) :
  valid d -> pred_day d = Ret p -> toordinal p = toordinal d - 1.
Proof.
  intros Hv. apply valid_iff in Hv. destruct d as [y m dd].
  unfold pred_day, MINYEAR, toordinal. cbn [year month day] in *.
  destruct (Z.ltb_spec 1 dd); [intros [= <-]; cbn [year month day]; lia|].
  destruct (Z.ltb_spec 1 m).
  - intros [= <-]. cbn [year month day].
    pose proof (days_before_month_succ y (m - 1) ltac:(lia)) as Hs.
    replace (m - 1 + 1) with m in Hs by lia. lia.
  - destruct (Z.ltb_spec 1 y); [|discriminate].
    intros [= <-]. cbn [year month day].
    pose proof (days_before_year_succ (y - 1)) as Hs.
    replace (y - 1 + 1) with y in Hs by lia.
    assert (m = 1) as -> by lia.
    assert (days_before_month (y - 1) 12 = 334 + (if is_leap (y - 1) then 1 else 0))
      as -> by reflexivity.
    change (days_before_month y 1) with 0. lia.
Qed.

(** The ordinal grows with the date, so a date is known by its ordinal. *)
Lemma toordinal_lt (a b : datetime) :
  valid a -> valid b -> date_lt a b -> toordinal a < toordinal b.
Proof.
  intros Ha Hb. apply valid_iff in Ha, Hb.
  destruct a as [ya ma da], b as [yb mb db].
  unfold date_lt, toordinal. cbn [year month day] in *.
  pose proof (days_before_month_end ya ma ltac:(lia)) as Hend.
  intros [Hy|[-> [Hm|[-> Hd]]]].
  - pose proof (days_before_year_succ ya) as Hs.
    pose proof (days_before_year_mono (ya + 1) yb ltac:(lia)).
    pose proof (days_before_month_mono yb 1 mb ltac:(lia) ltac:(lia) ltac:(lia)) as H1.
    change (days_before_month yb 1) with 0 in H1. lia.
  - pose proof (days_before_month_succ yb ma ltac:(lia)).
    pose proof (days_before_month_mono yb (ma + 1) mb ltac:(lia) ltac:(lia) ltac:(lia)).
    lia.
  - lia.
Qed.

Lemma sub_days_ok (d : datetime) (n : nat) :
  valid d -> 13 + Z.of_nat n <= month_index d ->
  exists p, sub_days d n = Ret p /\ valid p /\
            (n <> O -> date_lt p d) /\
            month_index d - Z.of_nat n <= month_index p <= month_index d.
Proof.
  intros Hv. induction n as [|n IH]; intros Hm.
  - exists d. simpl. repeat split; try lia; try assumption.
  - destruct IH as (p & Hp & Hvp & Hlt & Hmi); [lia|].
    destruct (pred_day_ok p Hvp) as (q & Hq & Hvq & Hlq & Hmq); [lia|].
    exists q. simpl. rewrite Hp. simpl. repeat split; try assumption; try lia.
    intros _. destruct n; [simpl in Hp; injection Hp as <-; assumption|].
    eapply date_lt_trans; [exact Hlq|]. apply Hlt. congruence.
Qed.

(** ** Formatting and parsing are inverse on dates *)

Lemma digit_char_spec (n : Z) :
  is_digit (digit_char n) = true /\ digit_val (digit_char n) = n mod 10.
Proof.
  unfold digit_char.
  assert (Hb : 0 <= n mod 10 < 10) by (apply Z.mod_pos_bound; lia).
  assert (Hk : (Z.to_nat (n mod 10) < 10)%nat) by lia.
  assert (Hz : n mod 10 = Z.of_nat (Z.to_nat (n mod 10))) by lia.
  rewrite Hz at 3. clear Hz Hb.
  generalize dependent (Z.to_nat (n mod 10)). intros k Hk.
  do 10 (destruct k as [|k]; [split; reflexivity|]). lia.
Qed.

Lemma is_digit_digit_char (n : Z) : is_digit (digit_char n) = true.
Proof. apply digit_char_spec. Qed.

Lemma digit_val_digit_char (n : Z) : digit_val (digit_char n) = n mod 10.
Proof. apply digit_char_spec. Qed.

Lemma append_String (c : ascii) (s r : string) :
  String.append (String c s) r = String c (String.append s r).
Proof. reflexivity. Qed.

Lemma append_Empty (r : string) : String.append EmptyString r = r.
Proof. reflexivity. Qed.

Lemma parse_Y_pad4 (y : Z) (rest : string) :
  0 <= y <= 9999 -> parse_Y (String.append (pad4 y) rest) = Some (y, rest).
Proof.
  intros Hy. unfold pad4, pad2, parse_Y. rewrite !append_String, append_Empty.
  rewrite !is_digit_digit_char, !digit_val_digit_char. cbn [andb].
  f_equal. f_equal.
  pose proof (Z.div_mod y 10 ltac:(lia)).
  pose proof (Z.div_mod (y / 10) 10 ltac:(lia)).
  pose proof (Z.div_mod (y / 100) 10 ltac:(lia)).
  pose proof (Z.div_mod (y / 1000) 10 ltac:(lia)).
  replace (y / 100) with (y / 10 / 10) in * by (rewrite Z.div_div by lia; reflexivity).
  replace (y / 1000) with (y / 10 / 10 / 10) in * by (rewrite !Z.div_div by lia; reflexivity).
  assert (y / 10 / 10 / 10 / 10 = 0).
  { rewrite !Z.div_div by lia. apply Z.div_small. lia. }
  lia.
Qed.

Lemma two_digits (v : Z) :
  0 <= v <= 99 -> 10 * ((v / 10) mod 10) + v mod 10 = v.
Proof.
  intros Hv. rewrite (Z.mod_small (v / 10)).
  - symmetry. apply Z.div_mod. lia.
  - split; [apply Z.div_pos; lia|]. apply Z.div_lt_upper_bound; lia.
Qed.

Lemma parse_m_pad2 (m : Z) (rest : string) :
  1 <= m <= 12 -> parse_m (String.append (pad2 m) rest) = Some (m, rest).
Proof.
  intros Hm. unfold pad2, parse_m. rewrite !append_String, append_Empty.
  rewrite !is_digit_digit_char, !digit_val_digit_char. cbn [andb].
  rewrite two_digits by lia.
  destruct (Z.leb_spec 1 m); [|lia]. destruct (Z.leb_spec m 12); [|lia].
  reflexivity.
Qed.

Lemma parse_d_pad2 (d : Z) : 1 <= d <= 31 -> parse_d (pad2 d) = Some d.
Proof.
  intros Hd. unfold pad2, parse_d.
  rewrite !is_digit_digit_char, !digit_val_digit_char. cbn [andb].
  rewrite two_digits by lia.
  destruct (Z.leb_spec 1 d); [|lia]. destruct (Z.leb_spec d 31); [|lia].
  reflexivity.
Qed.

Lemma expect_dash_dash (s : string) : expect_dash (String dash s) = Some s.
Proof. reflexivity. Qed.

(** Parsing what [strftime] printed gives the date back. *)
Lemma strptime_strftime (d : datetime) : valid d -> strptime (strftime d) = Ret d.
Proof.
  intros Hv. pose proof Hv as Hc. apply valid_iff in Hv.
  destruct d as [y m dd]. simpl in Hv.
  pose proof (days_in_month_bounds y m).
  unfold strptime, strftime. cbn [year month day].
  rewrite parse_Y_pad4 by lia. rewrite expect_dash_dash.
  rewrite parse_m_pad2 by lia. rewrite expect_dash_dash.
  rewrite parse_d_pad2 by lia. cbv zeta.
  unfold valid in Hc. rewrite Hc. reflexivity.
Qed.

Lemma strftime_inj (a b : datetime) :
  valid a -> valid b -> strftime a = strftime b -> a = b.
Proof.
  intros Ha Hb Heq.
  pose proof (strptime_strftime a Ha) as H1.
  rewrite Heq, (strptime_strftime b Hb) in H1. congruence.
Qed.

(** [strptime] only ever returns dates that pass the constructor's check. *)
Lemma strptime_valid (s : string) (d : datetime) : strptime s = Ret d -> valid d.
Proof.
  unfold strptime.
  destruct (parse_Y s) as [[y s1]|]; [|discriminate].
  destruct (expect_dash s1) as [s2|]; [|discriminate].
  destruct (parse_m s2) as [[m s3]|]; [|discriminate].
  destruct (expect_dash s3) as [s4|]; [|discriminate].
  destruct (parse_d s4) as [dd|]; [|discriminate].
  cbv zeta. destruct (check_date (mkdate y m dd)) eqn:E; [|discriminate].
  intros [= <-]. exact E.
Qed.

(** ** Walking backward day by day *)

Lemma pred_day_valid (d p : datetime) : valid d -> pred_day d = Ret p -> valid p.
Proof.
  intros Hv. apply valid_iff in Hv. destruct d as [y m dd].
  unfold pred_day, MINYEAR. simpl in *.
  destruct (Z.ltb_spec 1 dd).
  - intros [= <-]. apply valid_iff. simpl. lia.
  - destruct (Z.ltb_spec 1 m).
    + intros [= <-]. apply valid_iff. simpl.
      pose proof (days_in_month_bounds y (m - 1)). lia.
    + destruct (Z.ltb_spec 1 y); [|discriminate].
      intros [= <-]. apply valid_iff. simpl.
      change (days_in_month (y - 1) 12) with 31. lia.
Qed.

Lemma pred_day_lt (d p : datetime) : valid d -> pred_day d = Ret p -> date_lt p d.
Proof.
  intros Hv. apply valid_iff in Hv. destruct d as [y m dd].
  unfold pred_day, MINYEAR, date_lt. simpl in *.
  destruct (Z.ltb_spec 1 dd); [intros [= <-]; simpl; lia|].
  destruct (Z.ltb_spec 1 m); [intros [= <-]; simpl; lia|].
  destruct (Z.ltb_spec 1 y); [intros [= <-]; simpl; lia|discriminate].
Qed.

Lemma sub_days_S (d : datetime) (n : nat) :
  sub_days d (S n) = bind (sub_days d n) pred_day.
Proof. reflexivity. Qed.

Lemma sub_days_add (d : datetime) (n k : nat) :
  sub_days d (n + k) = bind (sub_days d n) (fun p => sub_days p k).
Proof.
  induction k as [|k IH].
  - rewrite Nat.add_0_r. destruct (sub_days d n); reflexivity.
  - rewrite Nat.add_succ_r, sub_days_S, IH.
    destruct (sub_days d n); reflexivity.
Qed.

Lemma sub_days_back (d p : datetime) (n : nat) : sub_days d n = Ret p -> back d n = p.
Proof. unfold back. intros ->. reflexivity. Qed.

(** If the [n]-th day back exists, so do all the days before it. *)
Lemma sub_days_prefix (d p : datetime) (n i : nat) :
  sub_days d n = Ret p -> (i <= n)%nat -> sub_days d i = Ret (back d i).
Proof.
  intros Hn Hi. replace n with (i + (n - i))%nat in Hn by lia.
  rewrite sub_days_add in Hn. apply bind_Ret_inv in Hn as (q & Hq & _).
  rewrite (sub_days_back _ _ _ Hq). exact Hq.
Qed.

Lemma sub_days_valid (d p : datetime) (n : nat) :
  valid d -> sub_days d n = Ret p -> valid p.
Proof.
  intros Hv. revert p. induction n as [|n IH]; intros p.
  - intros [= <-]. exact Hv.
  - rewrite sub_days_S. intros H. apply bind_Ret_inv in H as (q & Hq & Hp).
    eapply pred_day_valid; [apply IH; exact Hq|exact Hp].
Qed.

(** Going further back gives a strictly earlier date. *)
Lemma sub_days_lt (d p q : datetime) (i j : nat) :
  valid d -> (i < j)%nat ->
  sub_days d i = Ret p -> sub_days d j = Ret q -> date_lt q p.
Proof.
  intros Hv Hij Hp. revert q. induction j as [|j IH]; intros q Hq; [lia|].
  rewrite sub_days_S in Hq. apply bind_Ret_inv in Hq as (r & Hr & Hq).
  assert (Hvr : valid r) by (eapply sub_days_valid; eassumption).
  pose proof (pred_day_lt r q Hvr Hq) as Hlt.
  destruct (Nat.eq_dec i j) as [->|Hne].
  - rewrite Hp in Hr. injection Hr as <-. exact Hlt.
  - eapply date_lt_trans; [exact Hlt|]. apply IH; [lia|exact Hr].
Qed.

(** [n] days back is [n] ordinals less, as [d - timedelta(days=n)] is
    defined. *)
Lemma sub_days_toordinal (d p : datetime) (n : nat) :
  valid d -> sub_days d n = Ret p -> toordinal p = toordinal d - Z.of_nat n.
Proof.
  intros Hv. revert p. induction n as [|n IH]; intros p.
  - intros [= <-]. lia.
  - rewrite sub_days_S. intros H. apply bind_Ret_inv in H as (q & Hq & Hp).
    rewrite (pred_day_toordinal q p); [rewrite (IH q Hq); lia| |exact Hp].
    eapply sub_days_valid; eassumption.
Qed.

Lemma StronglySorted_map_seq {A : Type} (R : A -> A -> Prop) (f : nat -> A) (s n : nat) :
  (forall i j, (s <= i < j)%nat -> (j < s + n)%nat -> R (f i) (f j)) ->
  StronglySorted R (map f (seq s n)).
Proof.
  revert s. induction n as [|n IH]; intros s H; simpl; constructor.
  - apply IH. intros i j Hij Hj. apply H; lia.
  - apply List.Forall_forall. intros x Hx. apply in_map_iff in Hx as (j & <- & Hj).
    apply in_seq in Hj. apply H; lia.
Qed.

Lemma StronglySorted_filter_bool {A : Type} (R : A -> A -> Prop) (f : A -> bool) (l : list A) :
  StronglySorted R l -> StronglySorted R (List.filter f l).
Proof.
  induction 1 as [|x l Hl IH Hx]; simpl; [constructor|].
  destruct (f x); [|exact IH].
  constructor; [exact IH|].
  apply List.Forall_forall. intros y Hy. apply filter_In in Hy as [Hy _].
  rewrite List.Forall_forall in Hx. apply Hx. exact Hy.
Qed.

(** A walk that stays in range visits valid, strictly decreasing dates,
    none of them after its starting point. *)
Lemma walk_props (a : datetime) (n : nat) :
  valid a ->
  (forall i, (i < n)%nat -> sub_days a i = Ret (back a i)) ->
  decreasing (walk a n) /\
  Forall (fun t => valid t /\ (t = a \/ date_lt t a)) (walk a n).
Proof.
  intros Hv H. split.
  - apply StronglySorted_map_seq. intros i j Hij Hj.
    eapply sub_days_lt; [exact Hv| |apply H|apply H]; lia.
  - apply List.Forall_forall. intros t Ht. apply in_map_iff in Ht as (i & <- & Hi).
    apply in_seq in Hi. split.
    + eapply sub_days_valid; [exact Hv|apply H; lia].
    + destruct i as [|i]; [left; reflexivity|right].
      eapply (sub_days_lt a a _ 0 (S i)); [exact Hv|lia|reflexivity|apply H; lia].
Qed.

(** ** The weekly loop *)

Lemma weekly_loop_eq (fuel : nat) (a : datetime) (acc : list string) (dc : nat) :
  weekly_loop fuel a acc dc =
  if (length acc <? 4)%nat then
    match fuel with
    | O => OutOfFuel
    | S fuel' =>
        let* temp_date := sub_days a dc in
        weekly_loop fuel' a
          (if special temp_date then acc ++ [strftime temp_date] else acc) (S dc)
    end
  else Ret acc.
Proof. destruct fuel; reflexivity. Qed.

(** The loop collects the special days of the walk, in order, and stops
    with the step that brings the fourth one. *)
Lemma weekly_loop_run (a : datetime) (n : nat) :
  forall (fuel : nat) (acc : list string) (dc : nat),
  (forall i, (dc <= i < dc + n)%nat -> sub_days a i = Ret (back a i)) ->
  (length acc <= 4)%nat ->
  (4 <= length acc + length (List.filter special (map (back a) (seq dc n))))%nat ->
  (n <= fuel)%nat ->
  exists k, (k <= n)%nat /\
    weekly_loop fuel a acc dc =
      Ret (acc ++ map strftime (List.filter special (map (back a) (seq dc k)))) /\
    (length acc + length (List.filter special (map (back a) (seq dc k))) = 4)%nat /\
    (forall j, (j < k)%nat ->
       (length acc + length (List.filter special (map (back a) (seq dc j))) < 4)%nat).
Proof.
  induction n as [|n IH]; intros fuel acc dc Hsub Hacc Hcnt Hfuel;
    rewrite weekly_loop_eq.
  - simpl in Hcnt. assert (length acc = 4%nat) as Hl by lia.
    exists O. rewrite Hl. simpl. rewrite app_nil_r. repeat split; try lia.
  - destruct (Nat.ltb_spec (length acc) 4) as [Hlt|Hge].
    + destruct fuel as [|fuel]; [lia|].
      rewrite (Hsub dc) by lia. cbn [bind].
      change (seq dc (S n)) with (dc :: seq (S dc) n) in Hcnt.
      cbn [map List.filter] in Hcnt.
      destruct (IH fuel (if special (back a dc) then acc ++ [strftime (back a dc)] else acc)
                  (S dc)) as (k & Hk & Hrun & Hfour & Hmin).
      * intros i Hi. apply Hsub. lia.
      * destruct (special (back a dc)); [rewrite length_app; simpl|]; lia.
      * destruct (special (back a dc)); [rewrite length_app; simpl in *|]; lia.
      * lia.
      * exists (S k). split; [lia|].
        change (seq dc (S k)) with (dc :: seq (S dc) k). cbn [map List.filter].
        rewrite Hrun. destruct (special (back a dc)) eqn:Hs.
        -- rewrite length_app in Hfour, Hmin. cbn [length] in *.
           split; [rewrite <- app_assoc; reflexivity|]. split; [lia|].
           intros [|j] Hj; [simpl; lia|].
           change (seq dc (S j)) with (dc :: seq (S dc) j). cbn [map List.filter].
           rewrite Hs. cbn [length]. specialize (Hmin j). lia.
        -- split; [reflexivity|]. split; [exact Hfour|].
           intros [|j] Hj; [simpl; lia|].
           change (seq dc (S j)) with (dc :: seq (S dc) j). cbn [map List.filter].
           rewrite Hs. apply Hmin. lia.
    + assert (length acc = 4%nat) as Hl by lia.
      exists O. simpl. rewrite app_nil_r. repeat split; try lia.
Qed.

(** ** Where a walk goes: the rest of this month, then the month before *)

Lemma sub_days_same_month (a : datetime) (i : nat) :
  Z.of_nat i < day a ->
  sub_days a i = Ret (mkdate (year a) (month a) (day a - Z.of_nat i)).
Proof.
  induction i as [|i IH]; intros Hi.
  - simpl. destruct a as [y m d]. simpl. rewrite Z.sub_0_r. reflexivity.
  - rewrite sub_days_S, IH by lia. cbn [bind]. unfold pred_day. cbn [year month day].
    destruct (Z.ltb_spec 1 (day a - Z.of_nat i)); [|lia].
    do 2 f_equal. lia.
Qed.

Lemma sub_days_to_prev_month (a : datetime) :
  valid a -> 13 < month_index a ->
  sub_days a (Z.to_nat (day a)) = Ret (prev_month_end a).
Proof.
  intros Hv Hm. apply valid_iff in Hv.
  replace (Z.to_nat (day a)) with (S (Z.to_nat (day a) - 1)) by lia.
  rewrite sub_days_S, sub_days_same_month by lia. cbn [bind].
  replace (day a - Z.of_nat (Z.to_nat (day a) - 1)) with 1 by lia.
  unfold pred_day, prev_month_end, month_index, MINYEAR in *. cbn [year month day].
  change (1 <? 1) with false. cbv iota.
  destruct (Z.ltb_spec 1 (month a)); [reflexivity|].
  destruct (Z.ltb_spec 1 (year a)); [reflexivity|lia].
Qed.

Lemma prev_month_end_props (a : datetime) :
  valid a -> 13 < month_index a ->
  valid (prev_month_end a) /\
  month_index (prev_month_end a) = month_index a - 1 /\
  28 <= day (prev_month_end a) <= 31.
Proof.
  intros Hv Hm. apply valid_iff in Hv.
  unfold prev_month_end, month_index in *.
  pose proof (days_in_month_bounds (year a) (month a - 1)).
  destruct (Z.ltb_spec 1 (month a)); rewrite valid_iff; cbn [year month day].
  - lia.
  - change (days_in_month (year a - 1) 12) with 31. lia.
Qed.

Lemma map_seq_shift {A : Type} (f : nat -> A) (s n : nat) :
  map f (seq s n) = map (fun j => f (s + j)%nat) (seq 0 n).
Proof.
  revert f s. induction n as [|n IH]; intros f s; [reflexivity|].
  cbn [seq map]. rewrite Nat.add_0_r. f_equal.
  rewrite (IH f (S s)), (IH (fun j => f (s + j)%nat) 1%nat). apply map_ext. intros j.
  f_equal. lia.
Qed.

(** Days [L], [L-1], ..., 1 of a month of 28 to 31 days hold the four
    special days. *)
Lemma four_special_in_month (y m L : Z) :
  28 <= L <= 31 ->
  length (List.filter special
            (map (fun j => mkdate y m (L - Z.of_nat j)) (seq 0 (Z.to_nat L)))) = 4%nat.
Proof.
  intros HL.
  assert (L = 28 \/ L = 29 \/ L = 30 \/ L = 31) as [->|[->|[->| ->]]] by lia;
    reflexivity.
Qed.

(** The steps a walk can take inside the month it starts in and the month
    before, and where each of them lands. *)
Lemma walk_two_months (a : datetime) (i : nat) :
  valid a -> 13 < month_index a ->
  (i < Z.to_nat (day a) + Z.to_nat (day (prev_month_end a)))%nat ->
  sub_days a i = Ret (back a i) /\
  ((Z.of_nat i < day a /\
    back a i = mkdate (year a) (month a) (day a - Z.of_nat i)) \/
   (day a <= Z.of_nat i /\
    back a i = mkdate (year (prev_month_end a)) (month (prev_month_end a))
                 (day (prev_month_end a) - (Z.of_nat i - day a)))).
Proof.
  intros Hv Hm Hi. pose proof Hv as Hv'. apply valid_iff in Hv'.
  destruct (Z.lt_ge_cases (Z.of_nat i) (day a)) as [Hlt|Hge].
  - pose proof (sub_days_same_month a i Hlt) as H.
    rewrite (sub_days_back _ _ _ H). split; [exact H|]. left. split; [exact Hlt|reflexivity].
  - assert (Hs : sub_days a i =
                 Ret (mkdate (year (prev_month_end a)) (month (prev_month_end a))
                        (day (prev_month_end a) - (Z.of_nat i - day a)))).
    { replace i with (Z.to_nat (day a) + (i - Z.to_nat (day a)))%nat at 1 by lia.
      rewrite sub_days_add, sub_days_to_prev_month by assumption. cbn [bind].
      rewrite sub_days_same_month by lia. do 2 f_equal. lia. }
    rewrite (sub_days_back _ _ _ Hs). split; [exact Hs|]. right. split; [lia|reflexivity].
Qed.

Lemma walk_app (a : datetime) (n k : nat) :
  walk a (n + k) = walk a n ++ map (back a) (seq n k).
Proof. unfold walk. rewrite seq_app, map_app. reflexivity. Qed.

(** Within the month of [a] and the month before there are at least four
    special days at or before [a]. *)
Lemma walk_has_four (a : datetime) :
  valid a -> 13 < month_index a ->
  (4 <= length (List.filter special
                  (walk a (Z.to_nat (day a) + Z.to_nat (day (prev_month_end a))))))%nat.
Proof.
  intros Hv Hm.
  destruct (prev_month_end_props a Hv Hm) as (_ & _ & HL).
  rewrite walk_app, List.filter_app, length_app.
  rewrite map_seq_shift.
  rewrite (map_ext_in _ (fun j => mkdate (year (prev_month_end a)) (month (prev_month_end a))
                                    (day (prev_month_end a) - Z.of_nat j))).
  - rewrite four_special_in_month by exact HL. lia.
  - intros j Hj. apply in_seq in Hj.
    destruct (walk_two_months a (Z.to_nat (day a) + j) Hv Hm) as (_ & [[Hc _]|[_ ->]]).
    + lia.
    + apply valid_iff in Hv. lia.
    + apply valid_iff in Hv. f_equal. lia.
Qed.

(** What [generate_weekly] returns, for every input from 0001-03-01 on:
    the anchor is the day before the input, the loop stops after some [k]
    steps that all exist, and the result is the special days among them. *)
Lemma generate_weekly_spec (fuel : nat) (s : string) (w : datetime) :
  strptime s = Ret w -> 14 < month_index w -> (62 <= fuel)%nat ->
  exists a k,
    pred_day w = Ret a /\ valid a /\ date_lt a w /\
    month_index w - 1 <= month_index a /\
    (forall i, (i < k)%nat -> sub_days a i = Ret (back a i)) /\
    (forall i, (i < k)%nat -> month_index a - 1 <= month_index (back a i)) /\
    generate_weekly fuel s = Ret (map strftime (weekly_dates a k)) /\
    length (weekly_dates a k) = 4%nat /\
    (forall j, (j < k)%nat -> (length (weekly_dates a j) < 4)%nat).
Proof.
  intros Hs Hm Hfuel. pose proof (strptime_valid _ _ Hs) as Hw.
  destruct (pred_day_ok w Hw) as (a & Ha & Hva & Hlt & Hmi); [lia|].
  assert (Hma : 13 < month_index a) by lia.
  destruct (prev_month_end_props a Hva Hma) as (_ & _ & HL).
  pose proof Hva as Hda. apply valid_iff in Hda.
  pose proof (days_in_month_bounds (year a) (month a)).
  set (N := (Z.to_nat (day a) + Z.to_nat (day (prev_month_end a)))%nat).
  destruct (weekly_loop_run a N fuel [] 0%nat) as (k & Hk & Hrun & Hfour & Hmin).
  - intros i Hi. apply walk_two_months; [assumption|assumption|]. fold N. lia.
  - simpl. lia.
  - simpl. apply (walk_has_four a Hva Hma).
  - subst N. lia.
  - exists a, k. repeat split; try assumption; try lia.
    + intros i Hi. apply walk_two_months; [assumption|assumption|]. fold N. lia.
    + intros i Hi.
      destruct (walk_two_months a i Hva Hma) as (_ & [[_ ->]|[_ ->]]); [fold N; lia| |].
      * unfold month_index. cbn [year month]. lia.
      * destruct (prev_month_end_props a Hva Hma) as (_ & Hp & _).
        unfold month_index in *. cbn [year month]. lia.
    + unfold generate_weekly. rewrite Hs. cbn [bind sub_days]. rewrite Ha. cbn [bind].
      exact Hrun.
Qed.

(** The weekly dates are valid, special, strictly decreasing, and none is
    after the anchor. *)
Lemma weekly_dates_props (a : datetime) (k : nat) :
  valid a ->
  (forall i, (i < k)%nat -> sub_days a i = Ret (back a i)) ->
  decreasing (weekly_dates a k) /\
  Forall (fun t => valid t /\ special t = true /\ (t = a \/ date_lt t a))
    (weekly_dates a k).
Proof.
  intros Hv H. destruct (walk_props a k Hv H) as (Hdec & Hall). split.
  - apply StronglySorted_filter_bool. exact Hdec.
  - apply List.Forall_forall. intros t Ht. apply filter_In in Ht as (Ht & Hs).
    rewrite List.Forall_forall in Hall. destruct (Hall t Ht). auto.
Qed.

(** ** The daily and the monthly tier *)

Lemma generate_daily_spec (s : string) (D : datetime) :
  strptime s = Ret D -> 19 <= month_index D ->
  (forall i, (i <= 6)%nat -> sub_days D i = Ret (back D i)) /\
  generate_daily s = Ret (map strftime (walk D 7)).
Proof.
  intros Hs Hm. pose proof (strptime_valid _ _ Hs) as Hv.
  assert (H6 : forall i, (i <= 6)%nat -> sub_days D i = Ret (back D i)).
  { intros i Hi. destruct (sub_days_ok D 6 Hv) as (p & Hp & _); [lia|].
    eapply sub_days_prefix; eassumption. }
  split; [exact H6|].
  unfold generate_daily, walk. rewrite Hs. cbn [bind]. rewrite map_map.
  apply mapM_Ret. intros i Hi. apply in_seq in Hi.
  rewrite H6 by lia. reflexivity.
Qed.

Lemma monthly_loop_eq (fuel : nat) (t : datetime) (months : list string) :
  monthly_loop fuel t months =
  if (length months <? 3)%nat then
    match fuel with
    | O => OutOfFuel
    | S fuel' =>
        let* t' := replace_month_year t
                     (if 1 <? month t then month t - 1 else 12)
                     (if 1 <? month t then year t else year t - 1) in
        monthly_loop fuel' t' (months ++ [strftime t'])
    end
  else Ret months.
Proof. destruct fuel; reflexivity. Qed.

Lemma month_before_props (t : datetime) :
  valid t -> day t = 1 -> 13 < month_index t ->
  replace_month_year t (if 1 <? month t then month t - 1 else 12)
                       (if 1 <? month t then year t else year t - 1)
    = Ret (month_before t) /\
  valid (month_before t) /\ day (month_before t) = 1 /\
  month_index (month_before t) = month_index t - 1 /\
  date_lt (month_before t) t.
Proof.
  intros Hv Hd Hm. apply valid_iff in Hv.
  unfold replace_month_year, month_before, month_index, date_lt in *. rewrite Hd.
  destruct (Z.ltb_spec 1 (month t)); destruct (Z.eqb_spec (month t) 1); try lia.
  - assert (Hc : valid (mkdate (year t) (month t - 1) 1)).
    { apply valid_iff. cbn [year month day].
      pose proof (days_in_month_bounds (year t) (month t - 1)). lia. }
    cbv zeta. rewrite Hc. cbn [year month day]. repeat split; try assumption; lia.
  - assert (Hc : valid (mkdate (year t - 1) 12 1)).
    { apply valid_iff. cbn [year month day].
      change (days_in_month (year t - 1) 12) with 31. lia. }
    cbv zeta. rewrite Hc. cbn [year month day]. repeat split; try assumption; lia.
Qed.

Lemma first_of_month_props (a : datetime) :
  valid a ->
  replace_day a 1 = Ret (first_of_month a) /\
  valid (first_of_month a) /\ day (first_of_month a) = 1 /\
  month_index (first_of_month a) = month_index a /\
  (first_of_month a = a \/ date_lt (first_of_month a) a).
Proof.
  intros Hv. pose proof Hv as Hv'. apply valid_iff in Hv'.
  assert (Hc : valid (first_of_month a)).
  { apply valid_iff. unfold first_of_month. cbn [year month day].
    pose proof (days_in_month_bounds (year a) (month a)). lia. }
  unfold replace_day. fold (first_of_month a). rewrite Hc.
  repeat split; try assumption.
  destruct a as [y m d]. unfold first_of_month, date_lt. cbn [year month day] in *.
  destruct (Z.eq_dec d 1) as [->|]; [left; reflexivity|right; lia].
Qed.

(** What [generate_monthly] returns, for every input from 0001-04-01 on. *)
Lemma generate_monthly_spec (fuel : nat) (s : string) (w : datetime) :
  strptime s = Ret w -> 15 < month_index w -> (2 <= fuel)%nat ->
  exists a,
    pred_day w = Ret a /\ valid a /\ date_lt a w /\
    generate_monthly fuel s =
      Ret (map strftime [first_of_month a;
                         month_before (first_of_month a);
                         month_before (month_before (first_of_month a))]).
Proof.
  intros Hs Hm Hfuel. pose proof (strptime_valid _ _ Hs) as Hw.
  destruct (pred_day_ok w Hw) as (a & Ha & Hva & Hlt & Hmi); [lia|].
  destruct (first_of_month_props a Hva) as (Hr1 & Hv1 & Hd1 & Hm1 & _).
  destruct (month_before_props _ Hv1 Hd1) as (Hr2 & Hv2 & Hd2 & Hm2 & _); [lia|].
  destruct (month_before_props _ Hv2 Hd2) as (Hr3 & Hv3 & Hd3 & Hm3 & _); [lia|].
  exists a. repeat split; try assumption.
  unfold generate_monthly. rewrite Hs. cbn [bind sub_days]. rewrite Ha. cbn [bind].
  rewrite Hr1. cbn [bind].
  destruct fuel as [|[|fuel]]; [lia|lia|].
  rewrite monthly_loop_eq. cbn [length Nat.ltb Nat.leb]. rewrite Hr2. cbn [bind].
  rewrite monthly_loop_eq. cbn [length app Nat.ltb Nat.leb]. rewrite Hr3. cbn [bind].
  rewrite monthly_loop_eq. reflexivity.
Qed.

(** ** The three tiers together *)

Lemma date_lt_key (a b : datetime) :
  valid a -> valid b -> (date_lt a b <-> date_key a < date_key b).
Proof.
  intros Ha Hb. apply valid_iff in Ha, Hb.
  pose proof (days_in_month_bounds (year a) (month a)).
  pose proof (days_in_month_bounds (year b) (month b)).
  unfold date_lt, date_key. lia.
Qed.

Lemma date_le_key (a b : datetime) :
  valid a -> valid b -> a = b \/ date_lt a b -> date_key a <= date_key b.
Proof.
  intros Ha Hb [->|H]; [lia|]. apply date_lt_key in H; [lia|assumption|assumption].
Qed.

Lemma decreasing_of_keys (l : list datetime) :
  Forall valid l ->
  StronglySorted (fun a b => date_key b < date_key a) l -> decreasing l.
Proof.
  intros Hv Hs. induction Hs as [|x l Hl IH Hx]; [constructor|].
  apply Forall_cons in Hv as [Hvx Hvl].
  constructor; [apply IH; exact Hvl|].
  rewrite List.Forall_forall in *. intros y Hy.
  apply date_lt_key; [apply Hvl, Hy|exact Hvx|apply Hx, Hy].
Qed.

Lemma weekly_dates_in (a t : datetime) (k : nat) :
  In t (weekly_dates a k) -> exists i, (i < k)%nat /\ t = back a i /\ special t = true.
Proof.
  unfold weekly_dates, walk. intros H. apply filter_In in H as (H & Hs).
  apply in_map_iff in H as (i & <- & Hi). apply in_seq in Hi.
  exists i. repeat split; [lia|exact Hs].
Qed.

(** Everything [save_days] does for a reference date of year 2 or later:
    the dates of the three tiers, how each tier is anchored on the one
    before, and that the fourteen dates are valid and strictly decreasing. *)
Lemma save_days_anatomy (fuel : nat) (s : string) (D : datetime) :
  strptime s = Ret D -> 2 <= year D -> (62 <= fuel)%nat ->
  exists k w1 w2 w3 w4 a,
    (forall i, (i <= 7)%nat -> sub_days D i = Ret (back D i)) /\
    (forall i, (i < k)%nat -> sub_days (back D 7) i = Ret (back (back D 7) i)) /\
    weekly_dates (back D 7) k = [w1; w2; w3; w4] /\
    (forall j, (j < k)%nat -> (length (weekly_dates (back D 7) j) < 4)%nat) /\
    pred_day w4 = Ret a /\
    generate_daily s = Ret (map strftime (walk D 7)) /\
    generate_weekly fuel (strftime (back D 6)) = Ret (map strftime [w1; w2; w3; w4]) /\
    generate_monthly fuel (strftime w4) = Ret (map strftime (monthly_dates a)) /\
    save_days fuel s =
      Ret (map strftime (walk D 7 ++ [w1; w2; w3; w4] ++ monthly_dates a)) /\
    decreasing (walk D 7 ++ [w1; w2; w3; w4] ++ monthly_dates a) /\
    Forall valid (walk D 7 ++ [w1; w2; w3; w4] ++ monthly_dates a).
Proof.
  intros Hs Hy Hfuel. pose proof (strptime_valid _ _ Hs) as Hv.
  assert (HmD : 25 <= month_index D).
  { apply valid_iff in Hv. unfold month_index. lia. }
  (* the daily tier and the seven days back *)
  destruct (generate_daily_spec s D Hs) as (_ & Hdaily); [lia|].
  destruct (sub_days_ok D 7 Hv) as (A & HA & HvA & _ & HmA); [lia|].
  assert (H7 : forall i, (i <= 7)%nat -> sub_days D i = Ret (back D i)).
  { intros i Hi. eapply sub_days_prefix; eassumption. }
  assert (HvD : forall i, (i <= 7)%nat -> valid (back D i)).
  { intros i Hi. eapply sub_days_valid; [exact Hv|apply H7, Hi]. }
  assert (HkD : forall i, (i < 7)%nat -> date_key (back D (S i)) < date_key (back D i)).
  { intros i Hi. apply date_lt_key; [apply HvD; lia|apply HvD; lia|].
    eapply sub_days_lt; [exact Hv| |apply H7|apply H7]; lia. }
  destruct (sub_days_ok D 6 Hv) as (w & Hw & Hvw & _ & Hmw); [lia|].
  rewrite (sub_days_back _ _ _ HA) in *.
  pose proof (sub_days_back _ _ _ Hw) as Hbw.
  (* the weekly tier *)
  destruct (generate_weekly_spec fuel (strftime w) w (strptime_strftime w Hvw))
    as (a0 & k & Ha0 & _ & _ & _ & Hsub & Hmi & Hweekly & Hlen & Hmin); [lia|exact Hfuel|].
  assert (a0 = A) as ->.
  { rewrite sub_days_S, Hw in HA. cbn [bind] in HA. congruence. }
  destruct (weekly_dates_props A k HvA Hsub) as (Hdec & Hall).
  destruct (weekly_dates A k) as [|w1 [|w2 [|w3 [|w4 [|]]]]] eqn:Hwd; try discriminate.
  apply Forall_cons in Hall as ((Hv1 & _ & Hle1) & Hall).
  apply Forall_cons in Hall as ((Hv2 & _ & _) & Hall).
  apply Forall_cons in Hall as ((Hv3 & _ & _) & Hall).
  apply Forall_cons in Hall as ((Hv4 & _ & _) & _).
  apply StronglySorted_inv in Hdec as (Hdec & H12). apply Forall_cons in H12 as (H12 & _).
  apply StronglySorted_inv in Hdec as (Hdec & H23). apply Forall_cons in H23 as (H23 & _).
  apply StronglySorted_inv in Hdec as (_ & H34). apply Forall_cons in H34 as (H34 & _).
  apply date_le_key in Hle1; [|assumption|assumption].
  apply date_lt_key in H12, H23, H34; try assumption.
  assert (Hm4 : month_index A - 1 <= month_index w4).
  { destruct (weekly_dates_in A w4 k) as (i & Hi & -> & _).
    - rewrite Hwd. simpl. tauto.
    - apply Hmi, Hi. }
  (* the monthly tier *)
  destruct (generate_monthly_spec fuel (strftime w4) w4 (strptime_strftime w4 Hv4))
    as (a & Ha & Hva & Hlta & Hmonthly); [lia|lia|].
  apply date_lt_key in Hlta; try assumption.
  assert (Hma : month_index w4 - 1 <= month_index a).
  { destruct (pred_day_ok w4 Hv4) as (a' & Ha' & _ & _ & Hm'); [lia|].
    assert (a' = a) as -> by congruence. lia. }
  destruct (first_of_month_props a Hva) as (_ & Hvm1 & Hd1 & Hmi1 & Hle).
  apply date_le_key in Hle; try assumption.
  destruct (month_before_props _ Hvm1 Hd1) as (_ & Hvm2 & Hd2 & Hmi2 & Hlt2); [lia|].
  destruct (month_before_props _ Hvm2 Hd2) as (_ & Hvm3 & _ & _ & Hlt3); [lia|].
  apply date_lt_key in Hlt2, Hlt3; try assumption.
  exists k, w1, w2, w3, w4, a.
  assert (Hvall : Forall valid (walk D 7 ++ [w1; w2; w3; w4] ++ monthly_dates a)).
  { unfold walk, monthly_dates. cbn [seq map app].
    repeat apply List.Forall_cons; try apply List.Forall_nil; try assumption;
      apply HvD; lia. }
  repeat split; try assumption.
  - rewrite Hbw. exact Hweekly.
  - unfold save_days. rewrite Hdaily. cbn [bind].
    assert (last_item (map strftime (walk D 7)) = Ret (strftime (back D 6))) as ->
      by reflexivity.
    cbn [bind]. rewrite Hbw, Hweekly. cbn [bind].
    assert (last_item (map strftime [w1; w2; w3; w4]) = Ret (strftime w4)) as ->
      by reflexivity.
    cbn [bind]. rewrite Hmonthly. cbn [bind]. rewrite !map_app. reflexivity.
  - apply decreasing_of_keys; [exact Hvall|].
    pose proof (HkD 0%nat ltac:(lia)). pose proof (HkD 1%nat ltac:(lia)).
    pose proof (HkD 2%nat ltac:(lia)). pose proof (HkD 3%nat ltac:(lia)).
    pose proof (HkD 4%nat ltac:(lia)). pose proof (HkD 5%nat ltac:(lia)).
    pose proof (HkD 6%nat ltac:(lia)) as H67.
    rewrite (sub_days_back _ _ _ HA) in H67.
    unfold walk, monthly_dates. cbn [seq map app].
    repeat (apply SSorted_cons;
            [|repeat apply List.Forall_cons; try apply List.Forall_nil; lia]).
    apply SSorted_nil.
Qed.

(** * The claims about the retention scheduler *)

Lemma back_pred (D : datetime) (i : nat) :
  sub_days D i = Ret (back D i) -> sub_days D (S i) = Ret (back D (S i)) ->
  pred_day (back D i) = Ret (back D (S i)).
Proof. intros Hi HS. rewrite sub_days_S, Hi in HS. exact HS. Qed.

Lemma special_day (t : datetime) : special t = true -> In (day t) [1; 8; 15; 22].
Proof.
  unfold special, in_specific_days, specific_days. cbn [existsb].
  rewrite !orb_true_iff, !Z.eqb_eq. simpl. intros [H|[H|[H|[H|H]]]]; auto 6.
  discriminate.
Qed.

Lemma decreasing_NoDup (l : list datetime) : decreasing l -> NoDup l.
Proof.
  induction 1 as [|x l Hl IH Hx]; constructor; [|exact IH].
  intros Hin. rewrite List.Forall_forall in Hx.
  apply list_elem_of_In in Hin. apply (date_lt_irrefl x), Hx, Hin.
Qed.

(** The strings [save_days] returns are pairwise different. *)
Lemma strftime_NoDup (l : list datetime) :
  Forall valid l -> decreasing l -> NoDup (map strftime l).
Proof.
  intros Hv Hd. apply (NoDup_fmap_2_strong strftime); [|apply decreasing_NoDup, Hd].
  intros x y Hx Hy. rewrite Forall_forall in Hv. apply strftime_inj; auto.
Qed.

Lemma save_days_distinct (fuel : nat) (s : string) (D : datetime) :
  reference_date s D -> (62 <= fuel)%nat ->
  exists ks, save_days fuel s = Ret ks /\ NoDup ks /\ length ks = 14%nat.
Proof.
  intros [Hs Hy] Hfuel.
  destruct (save_days_anatomy fuel s D Hs ltac:(lia) Hfuel)
    as (k & w1 & w2 & w3 & w4 & a & _ & _ & _ & _ & _ & _ & _ & _ & Hsave & Hdec & Hv).
  eexists. split; [exact Hsave|]. split; [apply strftime_NoDup; assumption|].
  rewrite length_map. reflexivity.
Qed.

(** C8: for every reference date D the daily tier is the seven contiguous
    dates D, D-1, ..., D-6, in this order, and they open the list
    [save_days] returns. *)
Theorem daily_tier_seven_contiguous_days (fuel : nat) (s : string) (D : datetime) :
  reference_date s D -> (62 <= fuel)%nat ->
  exists d1 d2 d3 d4 d5 d6 rest,
    pred_day D = Ret d1 /\ pred_day d1 = Ret d2 /\ pred_day d2 = Ret d3 /\
    pred_day d3 = Ret d4 /\ pred_day d4 = Ret d5 /\ pred_day d5 = Ret d6 /\
    generate_daily s = Ret (map strftime [D; d1; d2; d3; d4; d5; d6]) /\
    save_days fuel s = Ret (map strftime [D; d1; d2; d3; d4; d5; d6] ++ rest).
Proof.
  intros [Hs Hy] Hfuel.
  destruct (save_days_anatomy fuel s D Hs ltac:(lia) Hfuel)
    as (k & w1 & w2 & w3 & w4 & a & H7 & _ & _ & _ & _ & Hdaily & _ & _ & Hsave & _).
  exists (back D 1), (back D 2), (back D 3), (back D 4), (back D 5), (back D 6).
  exists (map strftime ([w1; w2; w3; w4] ++ monthly_dates a)).
  assert (back D 0 = D) as H0 by reflexivity.
  repeat split.
  - rewrite <- H0 at 1. apply back_pred; apply H7; lia.
  - apply back_pred; apply H7; lia.
  - apply back_pred; apply H7; lia.
  - apply back_pred; apply H7; lia.
  - apply back_pred; apply H7; lia.
  - apply back_pred; apply H7; lia.
  - exact Hdaily.
  - rewrite Hsave, map_app. reflexivity.
Qed.

Lemma daily_tier_seven_contiguous_days_witness :
  reference_date "2024-03-15" (mkdate 2024 3 15) /\ (62 <= 62)%nat /\
  exists d1 d2 d3 d4 d5 d6 rest,
    pred_day (mkdate 2024 3 15) = Ret d1 /\ pred_day d1 = Ret d2 /\
    pred_day d2 = Ret d3 /\ pred_day d3 = Ret d4 /\ pred_day d4 = Ret d5 /\
    pred_day d5 = Ret d6 /\
    generate_daily "2024-03-15" =
      Ret (map strftime [mkdate 2024 3 15; d1; d2; d3; d4; d5; d6]) /\
    save_days 62 "2024-03-15" =
      Ret (map strftime [mkdate 2024 3 15; d1; d2; d3; d4; d5; d6] ++ rest).
Proof.
  split; [split; [reflexivity|simpl; lia]|].
  split; [lia|].
  apply daily_tier_seven_contiguous_days; [split; [reflexivity|simpl; lia]|lia].
Defined.

(** C7: for every input date (of year 1001 or later), [generate_weekly]
    returns exactly four dates, each with day of month 1, 8, 15 or 22,
    strictly decreasing. *)
Theorem weekly_tier_four_special_days (fuel : nat) (s : string) (w : datetime) :
  strptime s = Ret w -> 1001 <= year w -> (62 <= fuel)%nat ->
  exists w1 w2 w3 w4,
    generate_weekly fuel s = Ret (map strftime [w1; w2; w3; w4]) /\
    Forall (fun t => valid t /\ In (day t) [1; 8; 15; 22]) [w1; w2; w3; w4] /\
    date_lt w2 w1 /\ date_lt w3 w2 /\ date_lt w4 w3.
Proof.
  intros Hs Hy Hfuel.
  assert (Hm : 14 < month_index w).
  { pose proof (strptime_valid _ _ Hs) as Hv. apply valid_iff in Hv.
    unfold month_index. lia. }
  destruct (generate_weekly_spec fuel s w Hs Hm Hfuel)
    as (a & k & _ & Hva & _ & _ & Hsub & _ & Hweekly & Hlen & _).
  destruct (weekly_dates_props a k Hva Hsub) as (Hdec & Hall).
  destruct (weekly_dates a k) as [|w1 [|w2 [|w3 [|w4 [|]]]]]; try discriminate.
  exists w1, w2, w3, w4. split; [exact Hweekly|]. split.
  - eapply Forall_impl; [exact Hall|]. intros t (Hv & Hsp & _).
    split; [exact Hv|apply special_day, Hsp].
  - apply StronglySorted_inv in Hdec as (Hdec & H12). apply Forall_cons in H12 as (H12 & _).
    apply StronglySorted_inv in Hdec as (Hdec & H23). apply Forall_cons in H23 as (H23 & _).
    apply StronglySorted_inv in Hdec as (_ & H34). apply Forall_cons in H34 as (H34 & _).
    auto.
Qed.

Lemma weekly_tier_four_special_days_witness :
  strptime "2024-03-09" = Ret (mkdate 2024 3 9) /\
  1001 <= year (mkdate 2024 3 9) /\ (62 <= 62)%nat /\
  exists w1 w2 w3 w4,
    generate_weekly 62 "2024-03-09" = Ret (map strftime [w1; w2; w3; w4]) /\
    Forall (fun t => valid t /\ In (day t) [1; 8; 15; 22]) [w1; w2; w3; w4] /\
    date_lt w2 w1 /\ date_lt w3 w2 /\ date_lt w4 w3.
Proof.
  split; [reflexivity|]. split; [simpl; lia|]. split; [lia|].
  apply (weekly_tier_four_special_days 62 "2024-03-09" (mkdate 2024 3 9));
    [reflexivity|simpl; lia|lia].
Defined.

(** C1, as amended: inside [save_days] the weekly tier is computed from the
    last daily date, so its anchor is the reference date minus 7 days (not
    minus 1 day); from that anchor the walk goes back day by day, collects
    each date whose day of month is 22, 15, 8 or 1, and stops once four
    dates are collected. *)
Theorem weekly_tier_anchored_a_week_back (fuel : nat) (s : string) (D : datetime) :
  reference_date s D -> (62 <= fuel)%nat ->
  exists daily last_daily weekly monthly anchor,
    generate_daily s = Ret daily /\
    last_item daily = Ret last_daily /\
    generate_weekly fuel last_daily = Ret weekly /\
    save_days fuel s = Ret (daily ++ weekly ++ monthly) /\
    sub_days D 7 = Ret anchor /\
    weekly_from anchor weekly.
Proof.
  intros [Hs Hy] Hfuel.
  destruct (save_days_anatomy fuel s D Hs ltac:(lia) Hfuel)
    as (k & w1 & w2 & w3 & w4 & a & H7 & Hsub & Hwd & Hmin & _ & Hdaily & Hweekly & _
        & Hsave & _).
  exists (map strftime (walk D 7)), (strftime (back D 6)),
    (map strftime [w1; w2; w3; w4]), (map strftime (monthly_dates a)), (back D 7).
  split; [exact Hdaily|]. split; [reflexivity|]. split; [exact Hweekly|].
  split; [rewrite Hsave, !map_app; reflexivity|].
  split; [apply H7; lia|].
  exists k. rewrite Hwd. repeat split; assumption.
Qed.

Lemma weekly_tier_anchored_a_week_back_witness :
  reference_date "2024-03-09" (mkdate 2024 3 9) /\ (62 <= 62)%nat /\
  exists daily last_daily weekly monthly anchor,
    generate_daily "2024-03-09" = Ret daily /\
    last_item daily = Ret last_daily /\
    generate_weekly 62 last_daily = Ret weekly /\
    save_days 62 "2024-03-09" = Ret (daily ++ weekly ++ monthly) /\
    sub_days (mkdate 2024 3 9) 7 = Ret anchor /\
    weekly_from anchor weekly.
Proof.
  split; [split; [reflexivity|simpl; lia]|]. split; [lia|].
  apply (weekly_tier_anchored_a_week_back 62 "2024-03-09" (mkdate 2024 3 9));
    [split; [reflexivity|simpl; lia]|lia].
Defined.

(** C1, as stated, fails for the reference date 2024-03-09: the day before
    is 2024-03-08, the walk from there would collect 2024-03-08 first, but
    the weekly tier [save_days] computes starts at 2024-03-01. *)
Lemma weekly_tier_not_anchored_yesterday :
  reference_date "2024-03-09" (mkdate 2024 3 9) /\
  sub_days (mkdate 2024 3 9) 1 = Ret (mkdate 2024 3 8) /\
  generate_daily "2024-03-09" =
    Ret ["2024-03-09"; "2024-03-08"; "2024-03-07"; "2024-03-06";
         "2024-03-05"; "2024-03-04"; "2024-03-03"]%string /\
  generate_weekly 62 "2024-03-03" =
    Ret ["2024-03-01"; "2024-02-22"; "2024-02-15"; "2024-02-08"]%string /\
  save_days 62 "2024-03-09" =
    Ret ["2024-03-09"; "2024-03-08"; "2024-03-07"; "2024-03-06";
         "2024-03-05"; "2024-03-04"; "2024-03-03";
         "2024-03-01"; "2024-02-22"; "2024-02-15"; "2024-02-08";
         "2024-02-01"; "2024-01-01"; "2023-12-01"]%string /\
  ~ weekly_from (mkdate 2024 3 8)
      ["2024-03-01"; "2024-02-22"; "2024-02-15"; "2024-02-08"]%string.
Proof.
  split; [split; [reflexivity|simpl; lia]|].
  split; [reflexivity|]. split; [reflexivity|]. split; [reflexivity|].
  split; [reflexivity|].
  intros (k & _ & Heq & _).
  destruct k as [|k]; [discriminate|].
  unfold weekly_dates, walk in Heq. cbn [seq map List.filter] in Heq.
  change (special (back (mkdate 2024 3 8) 0)) with true in Heq.
  cbn [map] in Heq. injection Heq as Heq _. discriminate.
Qed.

(** C6: for every reference date the monthly tier is anchored at the last
    weekly date minus 1 day; it holds the first day of the anchor's month
    and of the two months before (December of the year before follows
    January): three first-of-month dates of consecutive months, strictly
    decreasing. *)
Theorem monthly_tier_three_first_days (fuel : nat) (s : string) (D : datetime) :
  reference_date s D -> (62 <= fuel)%nat ->
  exists daily weekly last_weekly w4 anchor m1 m2 m3,
    save_days fuel s = Ret (daily ++ weekly ++ map strftime [m1; m2; m3]) /\
    length daily = 7%nat /\ length weekly = 4%nat /\
    last_item weekly = Ret last_weekly /\
    generate_monthly fuel last_weekly = Ret (map strftime [m1; m2; m3]) /\
    strptime last_weekly = Ret w4 /\ sub_days w4 1 = Ret anchor /\
    m1 = mkdate (year anchor) (month anchor) 1 /\
    m2 = month_before m1 /\ m3 = month_before m2 /\
    day m2 = 1 /\ day m3 = 1 /\
    month_index m2 = month_index m1 - 1 /\ month_index m3 = month_index m2 - 1 /\
    date_lt m2 m1 /\ date_lt m3 m2.
Proof.
  intros [Hs Hy] Hfuel.
  destruct (save_days_anatomy fuel s D Hs ltac:(lia) Hfuel)
    as (k & w1 & w2 & w3 & w4 & a & _ & _ & _ & _ & Ha & _ & _ & Hmonthly & Hsave & Hdec & Hv).
  exists (map strftime (walk D 7)), (map strftime [w1; w2; w3; w4]), (strftime w4), w4, a.
  exists (first_of_month a), (month_before (first_of_month a)),
    (month_before (month_before (first_of_month a))).
  apply Forall_app in Hv as (_ & Hv). apply Forall_app in Hv as (Hvw & Hvm).
  assert (Hv4 : valid w4).
  { rewrite Forall_forall in Hvw. apply Hvw. set_solver. }
  unfold decreasing in Hdec.
  apply StronglySorted_app_1_r, StronglySorted_app_1_r in Hdec.
  apply StronglySorted_inv in Hdec as (Hdec & H12). apply Forall_cons in H12 as (H12 & _).
  apply StronglySorted_inv in Hdec as (_ & H23). apply Forall_cons in H23 as (H23 & _).
  apply Forall_cons in Hvm as (Hvm1 & Hvm). apply Forall_cons in Hvm as (Hvm2 & Hvm).
  apply Forall_cons in Hvm as (Hvm3 & _).
  assert (Hkey : forall t, valid t -> valid (month_before t) -> date_lt (month_before t) t ->
                   day (month_before t) = 1 /\
                   month_index (month_before t) = month_index t - 1).
  { intros t Ht Hb Hlt. apply valid_iff in Ht, Hb. revert Hb Hlt.
    unfold month_before, month_index, date_lt.
    destruct (Z.eqb_spec (month t) 1); cbn [year month day]; lia. }
  destruct (Hkey _ Hvm1 Hvm2 H12) as (Hd2 & Hi2).
  destruct (Hkey _ Hvm2 Hvm3 H23) as (Hd3 & Hi3).
  repeat split; try assumption.
  apply strptime_strftime, Hv4.
Qed.

Lemma monthly_tier_three_first_days_witness :
  reference_date "2024-03-15" (mkdate 2024 3 15) /\ (62 <= 62)%nat /\
  exists daily weekly last_weekly w4 anchor m1 m2 m3,
    save_days 62 "2024-03-15" = Ret (daily ++ weekly ++ map strftime [m1; m2; m3]) /\
    length daily = 7%nat /\ length weekly = 4%nat /\
    last_item weekly = Ret last_weekly /\
    generate_monthly 62 last_weekly = Ret (map strftime [m1; m2; m3]) /\
    strptime last_weekly = Ret w4 /\ sub_days w4 1 = Ret anchor /\
    m1 = mkdate (year anchor) (month anchor) 1 /\
    m2 = month_before m1 /\ m3 = month_before m2 /\
    day m2 = 1 /\ day m3 = 1 /\
    month_index m2 = month_index m1 - 1 /\ month_index m3 = month_index m2 - 1 /\
    date_lt m2 m1 /\ date_lt m3 m2.
Proof.
  split; [split; [reflexivity|simpl; lia]|]. split; [lia|].
  apply (monthly_tier_three_first_days 62 "2024-03-15" (mkdate 2024 3 15));
    [split; [reflexivity|simpl; lia]|lia].
Defined.

Lemma save_days_size (fuel : nat) (s : string) (D : datetime) :
  reference_date s D -> (62 <= fuel)%nat ->
  exists ks, save_days fuel s = Ret ks /\ size (list_to_set ks : gset string) = 14%nat.
Proof.
  intros Hr Hfuel.
  destruct (save_days_distinct fuel s D Hr Hfuel) as (ks & Hsave & Hnd & Hlen).
  exists ks. split; [exact Hsave|]. rewrite size_list_to_set by exact Hnd. exact Hlen.
Qed.

(** C10: for every reference date D the three tiers are pairwise disjoint:
    the result of [save_days] is the rendering of 7 + 4 + 3 calendar
    dates of which every daily date is after D-7, every weekly date is on
    or before D-7 and every monthly date is strictly before every weekly
    date; so the retention set holds exactly 14 different dates. *)
Theorem tiers_pairwise_disjoint (fuel : nat) (s : string) (D : datetime) :
  reference_date s D -> (62 <= fuel)%nat ->
  exists daily weekly monthly anchor,
    save_days fuel s = Ret (map strftime (daily ++ weekly ++ monthly)) /\
    Forall valid (daily ++ weekly ++ monthly) /\
    length daily = 7%nat /\ length weekly = 4%nat /\ length monthly = 3%nat /\
    sub_days D 7 = Ret anchor /\
    (forall d, In d daily -> date_lt anchor d) /\
    (forall w, In w weekly -> w = anchor \/ date_lt w anchor) /\
    (forall w m, In w weekly -> In m monthly -> date_lt m w) /\
    (forall x, In x (map strftime daily) -> ~ In x (map strftime weekly)) /\
    (forall x, In x (map strftime daily) -> ~ In x (map strftime monthly)) /\
    (forall x, In x (map strftime weekly) -> ~ In x (map strftime monthly)) /\
    size (list_to_set (map strftime (daily ++ weekly ++ monthly)) : gset string) = 14%nat.
Proof.
  intros [Hs Hy] Hfuel. pose proof (strptime_valid _ _ Hs) as HvD.
  destruct (save_days_anatomy fuel s D Hs ltac:(lia) Hfuel)
    as (k & w1 & w2 & w3 & w4 & a & H7 & Hsub & Hwd & _ & _ & _ & _ & _ & Hsave & Hdec & Hv).
  assert (HvA : valid (back D 7)) by (eapply sub_days_valid; [exact HvD|apply H7; lia]).
  destruct (weekly_dates_props (back D 7) k HvA Hsub) as (_ & Hall). rewrite Hwd in Hall.
  pose proof (strftime_NoDup _ Hv Hdec) as Hnd.
  exists (walk D 7), [w1; w2; w3; w4], (monthly_dates a), (back D 7).
  split; [exact Hsave|]. split; [exact Hv|]. do 3 (split; [reflexivity|]).
  split; [apply H7; lia|].
  split.
  { intros d Hd. apply in_map_iff in Hd as (i & <- & Hi). apply in_seq in Hi.
    eapply (sub_days_lt D _ _ i 7); [exact HvD|lia|apply H7; lia|apply H7; lia]. }
  split.
  { intros w Hw. rewrite List.Forall_forall in Hall. apply (Hall w Hw). }
  split.
  { intros w m Hw Hm. unfold decreasing in Hdec.
    apply StronglySorted_app_1_r in Hdec.
    apply (StronglySorted_app_1_elem_of _ _ _ w m Hdec); apply list_elem_of_In; assumption. }
  rewrite !map_app in Hnd.
  apply NoDup_app in Hnd as (_ & Hdw & Hnd). apply NoDup_app in Hnd as (_ & Hwm & _).
  split.
  { intros x Hx Hw. apply (Hdw x); [apply list_elem_of_In, Hx|].
    apply elem_of_app. left. apply list_elem_of_In, Hw. }
  split.
  { intros x Hx Hm. apply (Hdw x); [apply list_elem_of_In, Hx|].
    apply elem_of_app. right. apply list_elem_of_In, Hm. }
  split.
  { intros x Hx Hm. apply (Hwm x); apply list_elem_of_In; assumption. }
  rewrite size_list_to_set by (apply strftime_NoDup; assumption).
  rewrite length_map. reflexivity.
Qed.

Lemma tiers_pairwise_disjoint_witness :
  reference_date "2024-03-15" (mkdate 2024 3 15) /\ (62 <= 62)%nat /\
  exists daily weekly monthly anchor,
    save_days 62 "2024-03-15" = Ret (map strftime (daily ++ weekly ++ monthly)) /\
    Forall valid (daily ++ weekly ++ monthly) /\
    length daily = 7%nat /\ length weekly = 4%nat /\ length monthly = 3%nat /\
    sub_days (mkdate 2024 3 15) 7 = Ret anchor /\
    (forall d, In d daily -> date_lt anchor d) /\
    (forall w, In w weekly -> w = anchor \/ date_lt w anchor) /\
    (forall w m, In w weekly -> In m monthly -> date_lt m w) /\
    (forall x, In x (map strftime daily) -> ~ In x (map strftime weekly)) /\
    (forall x, In x (map strftime daily) -> ~ In x (map strftime monthly)) /\
    (forall x, In x (map strftime weekly) -> ~ In x (map strftime monthly)) /\
    size (list_to_set (map strftime (daily ++ weekly ++ monthly)) : gset string) = 14%nat.
Proof.
  split; [split; [reflexivity|simpl; lia]|]. split; [lia|].
  apply (tiers_pairwise_disjoint 62 "2024-03-15" (mkdate 2024 3 15));
    [split; [reflexivity|simpl; lia]|lia].
Defined.

(** C5, as amended: for every reference date the retention set has exactly
    14 elements (which lies between 11 and 14): the monthly tier is computed
    from the last weekly date and never overlaps the other tiers, so the
    cardinality is the same for all reference dates. *)
Theorem retention_set_has_fourteen_dates (fuel : nat) (s : string) (D : datetime) :
  reference_date s D -> (62 <= fuel)%nat ->
  exists keep_dates,
    save_days fuel s = Ret keep_dates /\
    size (list_to_set keep_dates : gset string) = 14%nat /\
    (11 <= size (list_to_set keep_dates : gset string) <= 14)%nat.
Proof.
  intros Hr Hfuel.
  destruct (save_days_size fuel s D Hr Hfuel) as (ks & Hsave & Hsize).
  exists ks. rewrite Hsize. repeat split; try assumption; lia.
Qed.

Lemma retention_set_has_fourteen_dates_witness :
  reference_date "2024-03-15" (mkdate 2024 3 15) /\ (62 <= 62)%nat /\
  exists keep_dates,
    save_days 62 "2024-03-15" = Ret keep_dates /\
    size (list_to_set keep_dates : gset string) = 14%nat /\
    (11 <= size (list_to_set keep_dates : gset string) <= 14)%nat.
Proof.
  split; [split; [reflexivity|simpl; lia]|]. split; [lia|].
  apply (retention_set_has_fourteen_dates 62 "2024-03-15" (mkdate 2024 3 15));
    [split; [reflexivity|simpl; lia]|lia].
Defined.

(** C5, as stated, fails: the cardinality does not depend on the reference
    date.  No two reference dates give retention sets of different sizes. *)
Lemma retention_size_not_data_dependent :
  ~ exists (fuel : nat) (s1 s2 : string) (D1 D2 : datetime) (ks1 ks2 : list string),
      (62 <= fuel)%nat /\ reference_date s1 D1 /\ reference_date s2 D2 /\
      save_days fuel s1 = Ret ks1 /\ save_days fuel s2 = Ret ks2 /\
      size (list_to_set ks1 : gset string) <> size (list_to_set ks2 : gset string).
Proof.
  intros (fuel & s1 & s2 & D1 & D2 & ks1 & ks2 & Hfuel & H1 & H2 & Hk1 & Hk2 & Hne).
  destruct (save_days_size fuel s1 D1 H1 Hfuel) as (l1 & Hl1 & Hs1).
  destruct (save_days_size fuel s2 D2 H2 Hfuel) as (l2 & Hl2 & Hs2).
  rewrite Hk1 in Hl1. rewrite Hk2 in Hl2.
  injection Hl1 as <-. injection Hl2 as <-. congruence.
Qed.

(** * The claims about the reconciler *)

(** ** Pagination *)

Lemma add_folders_app (prefix : string) (folders : gset string) (l1 l2 : list string) :
  add_folders prefix folders (l1 ++ l2) =
  add_folders prefix (add_folders prefix folders l1) l2.
Proof. unfold add_folders. apply fold_left_app. Qed.

(** The loop of [list_s3_folders] adds the folders of every page served. *)
Lemma list_loop_pages {S : Type} (cl : s3_client S) (st : S) (bucket_name prefix : string)
    (n : nat) :
  forall (fuel : nat) (tok : option string) (folders : gset string)
         (pages : list (list string)),
  truthy tok = true \/ tok = None ->
  served_pages cl n st bucket_name prefix tok = Some pages ->
  (n <= fuel)%nat ->
  list_loop cl fuel st bucket_name prefix folders tok =
    Ret (add_folders prefix folders (concat pages)).
Proof.
  induction n as [|n IH]; intros fuel tok folders pages Htok Hp Hfuel; [discriminate|].
  destruct fuel as [|fuel]; [lia|].
  cbn [served_pages] in Hp. cbn [list_loop].
  assert (Hcall : (if truthy tok
                   then list_objects_v2 cl st bucket_name prefix tok
                   else list_objects_v2 cl st bucket_name prefix None)
                  = list_objects_v2 cl st bucket_name prefix tok).
  { destruct Htok as [->| ->]; reflexivity. }
  rewrite Hcall.
  destruct (list_objects_v2 cl st bucket_name prefix tok) as [r| |]; try discriminate.
  cbn [bind]. destruct (IsTruncated r).
  - destruct (truthy (NextContinuationToken r)) eqn:Ht; [|discriminate].
    destruct (served_pages cl n st bucket_name prefix (NextContinuationToken r))
      as [rest|] eqn:Hrest; [|discriminate].
    injection Hp as <-. cbn [concat]. rewrite add_folders_app.
    apply IH; [left; exact Ht|exact Hrest|lia].
  - injection Hp as <-. cbn [concat]. rewrite app_nil_r. reflexivity.
Qed.

(** C9: a listing served in N pages through continuation tokens gives the
    same sorted folder list as a listing that returns the same keys in one
    page (for a plain prefix and keys of ASCII characters, where the
    pattern is [match_folder]). *)
Theorem pagination_same_folders {S1 S2 : Type} (cl1 : s3_client S1) (cl2 : s3_client S2)
    (st1 : S1) (st2 : S2) (bucket_name prefix : string) (N fuel : nat)
    (pages : list (list string)) :
  plain prefix = true -> forallb ascii_text (concat pages) = true ->
  served_pages cl1 N st1 bucket_name prefix None = Some pages ->
  served_pages cl2 1 st2 bucket_name prefix None = Some [concat pages] ->
  (N <= fuel)%nat ->
  exists folders,
    list_s3_folders cl1 fuel st1 bucket_name prefix = Ret folders /\
    list_s3_folders cl2 fuel st2 bucket_name prefix = Ret folders /\
    folders = sorted (add_folders prefix ∅ (concat pages)).
Proof.
  intros _ _ H1 H2 Hfuel.
  assert (HN : (1 <= N)%nat) by (destruct N; [discriminate|lia]).
  exists (sorted (add_folders prefix ∅ (concat pages))).
  unfold list_s3_folders.
  rewrite (list_loop_pages cl1 st1 bucket_name prefix N fuel None ∅ pages)
    by (auto; lia).
  rewrite (list_loop_pages cl2 st2 bucket_name prefix 1 fuel None ∅ [concat pages])
    by (auto; lia).
  cbn [bind concat]. rewrite app_nil_r. auto.
Qed.

Lemma pagination_same_folders_witness :
  plain "databases" = true /\
  forallb ascii_text
    (concat [firstn 2 five_keys; firstn 2 (skipn 2 five_keys); skipn 4 five_keys]) = true /\
  served_pages bucket_client 3
    {| objects := five_keys; locked := []; page_size := 2 |} "bucket" "databases" None
    = Some [firstn 2 five_keys; firstn 2 (skipn 2 five_keys); skipn 4 five_keys] /\
  served_pages bucket_client 1
    {| objects := five_keys; locked := []; page_size := 1000 |} "bucket" "databases" None
    = Some [concat [firstn 2 five_keys; firstn 2 (skipn 2 five_keys); skipn 4 five_keys]] /\
  (3 <= 3)%nat /\
  exists folders,
    list_s3_folders bucket_client 3
      {| objects := five_keys; locked := []; page_size := 2 |} "bucket" "databases"
      = Ret folders /\
    list_s3_folders bucket_client 3
      {| objects := five_keys; locked := []; page_size := 1000 |} "bucket" "databases"
      = Ret folders /\
    folders = sorted (add_folders "databases" ∅
                (concat [firstn 2 five_keys; firstn 2 (skipn 2 five_keys);
                         skipn 4 five_keys])).
Proof.
  split; [reflexivity|]. split; [reflexivity|].
  split; [reflexivity|]. split; [reflexivity|]. split; [lia|].
  apply (pagination_same_folders bucket_client bucket_client _ _ "bucket" "databases" 3 3);
    [reflexivity|reflexivity|reflexivity|reflexivity|lia].
Defined.

(** ** Which folders get a delete request *)

Lemma delete_loop_log {S : Type} (cl : s3_client S) (BUCKET_NAME DEST_FOLDER : string)
    (keep_folders : gset string) (existing_folders : list string) :
  forall (st : S) (log : list delete_request) (rq : delete_request),
  In rq (snd (fst (delete_loop cl BUCKET_NAME DEST_FOLDER keep_folders
                     existing_folders st log))) ->
  In rq log \/ ((req_folder rq ∉ keep_folders) /\ In (req_folder rq) existing_folders).
Proof.
  induction existing_folders as [|folder rest IH]; intros st log rq Hin.
  - left. exact Hin.
  - cbn [delete_loop] in Hin. destruct (decide (folder ∈ keep_folders)) as [Hk|Hk].
    + destruct (IH _ _ _ Hin) as [H|[H1 H2]]; [left; exact H|right].
      split; [exact H1|right; exact H2].
    + destruct (list_objects_v2 cl st BUCKET_NAME _ None) as [listing| |];
        [|left; exact Hin|left; exact Hin].
      destruct (delete_objects cl st BUCKET_NAME (get_Contents listing)) as [st' resp].
      assert (Hnew : forall q,
                In q (log ++ [{| req_folder := folder; req_keys := get_Contents listing;
                                 req_response := resp |}]) ->
                In q log \/ ((req_folder q ∉ keep_folders) /\ In (req_folder q) (folder :: rest))).
      { intros q Hq. apply in_app_iff in Hq as [Hq|[<-|[]]]; [left; exact Hq|right].
        split; [exact Hk|left; reflexivity]. }
      destruct resp as [r|e|]; cbn [fst snd] in Hin; try (apply Hnew; exact Hin).
      destruct (IH _ _ _ Hin) as [H|[H1 H2]]; [apply Hnew; exact H|right].
      split; [exact H1|right; exact H2].
Qed.

(** ** Folders larger than one page *)

Lemma delete_loop_requests {S : Type} (cl : s3_client S) (BUCKET_NAME DEST_FOLDER : string)
    (keep_folders : gset string) (existing_folders : list string) :
  forall (st st' : S) (log log' : list delete_request),
  delete_loop cl BUCKET_NAME DEST_FOLDER keep_folders existing_folders st log
    = (st', log', Ret tt) ->
  exists new,
    log' = log ++ new /\
    map req_folder new = doomed keep_folders existing_folders /\
    Forall (one_page_request cl BUCKET_NAME DEST_FOLDER) new.
Proof.
  induction existing_folders as [|folder rest IH]; intros st st' log log' Hrun.
  - injection Hrun as <- <-. exists []. rewrite app_nil_r.
    repeat split. constructor.
  - cbn [delete_loop] in Hrun. unfold doomed. cbn [List.filter].
    destruct (decide (folder ∈ keep_folders)) as [Hk|Hk].
    + rewrite (bool_decide_eq_true_2 _ Hk). cbn [negb]. apply (IH _ _ _ _ Hrun).
    + rewrite (bool_decide_eq_false_2 _ Hk). cbn [negb].
      destruct (list_objects_v2 cl st BUCKET_NAME (folder_prefix DEST_FOLDER folder) None)
        as [listing| |] eqn:Hlist; try discriminate.
      destruct (delete_objects cl st BUCKET_NAME (get_Contents listing))
        as [st1 resp] eqn:Hdel.
      destruct resp as [r|e|]; try discriminate.
      destruct (IH _ _ _ _ Hrun) as (new & -> & Hf & Hall).
      exists ({| req_folder := folder; req_keys := get_Contents listing;
                 req_response := Ret r |} :: new).
      rewrite <- app_assoc. split; [reflexivity|]. split.
      * cbn [map req_folder]. f_equal. exact Hf.
      * constructor; [|exact Hall].
        exists st, listing. cbn [req_folder req_keys req_response].
        rewrite Hdel. repeat split. exact Hlist.
Qed.

(** X16: when the loop runs to its end, every existing folder that is not
    kept gets exactly one delete request, in the order of the listing, and
    the request carries exactly the keys of one listing response for the
    prefix of that folder, asked without a continuation token.  Requests
    are not split. *)
Theorem one_request_per_doomed_folder {S : Type} (cl : s3_client S)
    (BUCKET_NAME DEST_FOLDER : string) (keep_folders : gset string)
    (existing_folders : list string) (st : S) :
  snd (delete_loop cl BUCKET_NAME DEST_FOLDER keep_folders existing_folders st [])
    = Ret tt ->
  let log := snd (fst (delete_loop cl BUCKET_NAME DEST_FOLDER keep_folders
                         existing_folders st [])) in
  map req_folder log = doomed keep_folders existing_folders /\
  Forall (one_page_request cl BUCKET_NAME DEST_FOLDER) log.
Proof.
  destruct (delete_loop cl BUCKET_NAME DEST_FOLDER keep_folders existing_folders st [])
    as [[st' log'] r] eqn:Hrun.
  cbn [fst snd]. intros ->.
  destruct (delete_loop_requests _ _ _ _ _ _ _ _ _ Hrun) as (new & -> & Hf & Hall).
  split; assumption.
Qed.

Lemma one_request_per_doomed_folder_witness :
  snd (delete_loop bucket_client "bucket" "databases" small_keep small_existing
         small_store []) = Ret tt /\
  map req_folder
    (snd (fst (delete_loop bucket_client "bucket" "databases" small_keep small_existing
                 small_store [])))
    = doomed small_keep small_existing /\
  Forall (one_page_request bucket_client "bucket" "databases")
    (snd (fst (delete_loop bucket_client "bucket" "databases" small_keep small_existing
                 small_store []))).
Proof.
  split; [vm_compute; reflexivity|].
  apply (one_request_per_doomed_folder bucket_client "bucket" "databases"
           small_keep small_existing small_store).
  vm_compute. reflexivity.
Defined.

(** C3 does not hold of the code.  For a folder of 1001 objects in a store
    that lists 1000 keys a page, [list_s3_folders] follows the continuation
    token (one request is not enough for it, two are), but the clean-up
    loop makes one listing request for the folder, does not follow the
    token, and sends one delete request with the 1000 keys of the first
    page: the last object is in no request and is still there when the run
    ends with status 0. *)
Theorem big_folder_not_emptied :
  length big_folder = 1001%nat /\
  forallb (String.prefix "databases/2020-01-01/") big_folder = true /\
  served_pages bucket_client 2 big_store "bucket" "databases" None =
    Some [firstn 1000 big_folder; skipn 1000 big_folder] /\
  list_s3_folders bucket_client 1 big_store "bucket" "databases" = OutOfFuel /\
  list_s3_folders bucket_client 2 big_store "bucket" "databases" =
    Ret ["2020-01-01"%string] /\
  mem "databases/2020-01-01/03-00/db1000.sql.gz" big_folder = true /\
  map req_folder (requests big_run) = ["2020-01-01"%string] /\
  map (fun q => length (req_keys q)) (requests big_run) = [1000%nat] /\
  forallb (fun q => negb (mem "databases/2020-01-01/03-00/db1000.sql.gz" (req_keys q)))
    (requests big_run) = true /\
  objects (final_store big_run) = ["databases/2020-01-01/03-00/db1000.sql.gz"%string] /\
  exit_code big_run = Ret 0.
Proof. vm_compute. repeat split. Qed.

(** ** Failed deletions *)

(** C4 does not hold of the code.  When the store answers a delete request
    with ['Errors'], the response is never read: the object stays and the
    run still exits with status 0 (whereas a failed upload does set the
    status to -1).  When the request raises, the loop stops at once: the
    second old folder gets no request. *)
Theorem failed_delete_not_recorded :
  map (fun q => (req_folder q, req_response q)) (requests locked_run) =
    [("2020-01-01"%string,
      Ret {| Deleted := [];
             Errors := ["databases/2020-01-01/03-00/shop.sql.gz"%string] |});
     ("2020-01-02"%string,
      Ret {| Deleted := ["databases/2020-01-02/03-00/shop.sql.gz"%string];
             Errors := [] |})] /\
  objects (final_store locked_run) =
    ["databases/2020-01-01/03-00/shop.sql.gz";
     "databases/2024-03-15/03-00/shop.sql.gz"]%string /\
  exit_code locked_run = Ret 0 /\
  backup_loop [0; 1; 0] = -1 /\
  map req_folder (requests refused_run) = ["2020-01-01"%string] /\
  exit_code refused_run = Raise ClientError.
Proof. vm_compute. repeat split. Qed.

(** ** The examples of the specification *)

(** Reference date 2024-03-15: the three tiers. *)
Example save_days_2024_03_15 :
  save_days 62 "2024-03-15" =
    Ret ["2024-03-15"; "2024-03-14"; "2024-03-13"; "2024-03-12";
         "2024-03-11"; "2024-03-10"; "2024-03-09";
         "2024-03-08"; "2024-03-01"; "2024-02-22"; "2024-02-15";
         "2024-02-01"; "2024-01-01"; "2023-12-01"]%string.
Proof. reflexivity. Qed.

(** Existing folders 2024-01-01, 2024-02-29 and 2024-03-15 on that day:
    2024-02-29 is deleted, the other two are kept. *)
Example reconcile_2024_03_15 :
  list_s3_folders bucket_client 62 small_store "bucket" "databases" = Ret small_existing /\
  map req_folder
    (requests (retention_policy bucket_client 62 small_store "bucket" "databases"
                 "2024-03-15" 0)) = ["2024-02-29"%string] /\
  objects
    (final_store (retention_policy bucket_client 62 small_store "bucket" "databases"
                    "2024-03-15" 0)) =
    ["databases/2024-01-01/03-00/shop.sql.gz";
     "databases/2024-01-01/03-00/wiki.sql.gz";
     "databases/2024-03-15/03-00/shop.sql.gz"]%string.
Proof. vm_compute. repeat split. Qed.

(** * More about the retention scheduler *)

(** ** What comes back whenever something comes back *)

Lemma mapM_length {A B : Type} (f : A -> result B) (l : list A) (r : list B) :
  mapM f l = Ret r -> length r = length l.
Proof.
  revert r. induction l as [|x l IH]; intros r; simpl.
  - intros [= <-]. reflexivity.
  - intros H. apply bind_Ret_inv in H as (y & _ & H).
    apply bind_Ret_inv in H as (ys & Hys & [= <-]). simpl. f_equal. apply IH, Hys.
Qed.

Lemma weekly_loop_length (fuel : nat) (a : datetime) :
  forall (acc : list string) (dc : nat) (r : list string),
  weekly_loop fuel a acc dc = Ret r -> (length acc <= 4)%nat -> length r = 4%nat.
Proof.
  induction fuel as [|fuel IH]; intros acc dc r; rewrite weekly_loop_eq;
    destruct (Nat.ltb_spec (length acc) 4) as [Hlt|Hge].
  - discriminate.
  - intros [= <-] Hle. lia.
  - intros H _. apply bind_Ret_inv in H as (t & _ & H).
    apply (IH _ _ _ H). destruct (special t); [rewrite length_app; simpl|]; lia.
  - intros [= <-] Hle. lia.
Qed.

Lemma monthly_loop_length (fuel : nat) :
  forall (t : datetime) (months r : list string),
  monthly_loop fuel t months = Ret r -> (length months <= 3)%nat -> length r = 3%nat.
Proof.
  induction fuel as [|fuel IH]; intros t months r; rewrite monthly_loop_eq;
    destruct (Nat.ltb_spec (length months) 3) as [Hlt|Hge].
  - discriminate.
  - intros [= <-] Hle. lia.
  - intros H _. apply bind_Ret_inv in H as (t' & _ & H).
    apply (IH _ _ _ H). rewrite length_app. simpl. lia.
  - intros [= <-] Hle. lia.
Qed.

(** X1: for every input string and every loop bound, a result of
    [save_days] is always made of 7 daily, 4 weekly and 3 monthly
    strings: 14 in all, never a partial list. *)
Theorem save_days_returns_fourteen (fuel : nat) (s : string) (keep_dates : list string) :
  save_days fuel s = Ret keep_dates ->
  exists daily weekly monthly,
    keep_dates = daily ++ weekly ++ monthly /\
    length daily = 7%nat /\ length weekly = 4%nat /\ length monthly = 3%nat /\
    length keep_dates = 14%nat.
Proof.
  unfold save_days. intros H.
  apply bind_Ret_inv in H as (daily & Hd & H).
  apply bind_Ret_inv in H as (ld & _ & H).
  apply bind_Ret_inv in H as (weekly & Hw & H).
  apply bind_Ret_inv in H as (lw & _ & H).
  apply bind_Ret_inv in H as (monthly & Hm & [= <-]).
  assert (Hld : length daily = 7%nat).
  { unfold generate_daily in Hd. apply bind_Ret_inv in Hd as (D & _ & Hd).
    apply mapM_length in Hd. exact Hd. }
  assert (Hlw : length weekly = 4%nat).
  { unfold generate_weekly in Hw. apply bind_Ret_inv in Hw as (p & _ & Hw).
    apply bind_Ret_inv in Hw as (a & _ & Hw).
    apply (weekly_loop_length _ _ _ _ _ Hw). simpl. lia. }
  assert (Hlm : length monthly = 3%nat).
  { unfold generate_monthly in Hm. apply bind_Ret_inv in Hm as (p & _ & Hm).
    apply bind_Ret_inv in Hm as (a & _ & Hm).
    apply bind_Ret_inv in Hm as (t & _ & Hm).
    apply (monthly_loop_length _ _ _ _ Hm). simpl. lia. }
  exists daily, weekly, monthly. rewrite !length_app, Hld, Hlw, Hlm. auto.
Qed.

Lemma save_days_returns_fourteen_witness :
  save_days 40 "2024-3-9" =
    Ret ["2024-03-09"; "2024-03-08"; "2024-03-07"; "2024-03-06";
         "2024-03-05"; "2024-03-04"; "2024-03-03";
         "2024-03-01"; "2024-02-22"; "2024-02-15"; "2024-02-08";
         "2024-02-01"; "2024-01-01"; "2023-12-01"]%string /\
  exists daily weekly monthly,
    ["2024-03-09"; "2024-03-08"; "2024-03-07"; "2024-03-06";
     "2024-03-05"; "2024-03-04"; "2024-03-03";
     "2024-03-01"; "2024-02-22"; "2024-02-15"; "2024-02-08";
     "2024-02-01"; "2024-01-01"; "2023-12-01"]%string = daily ++ weekly ++ monthly /\
    length daily = 7%nat /\ length weekly = 4%nat /\ length monthly = 3%nat /\
    length ["2024-03-09"; "2024-03-08"; "2024-03-07"; "2024-03-06";
            "2024-03-05"; "2024-03-04"; "2024-03-03";
            "2024-03-01"; "2024-02-22"; "2024-02-15"; "2024-02-08";
            "2024-02-01"; "2024-01-01"; "2023-12-01"]%string = 14%nat.
Proof.
  split; [reflexivity|].
  apply (save_days_returns_fourteen 40 "2024-3-9"). reflexivity.
Defined.

(** ** The tiers in closed form *)

Lemma filter_map_bool {A B : Type} (f : B -> bool) (g : A -> B) (l : list A) :
  List.filter f (map g l) = map g (List.filter (fun x => f (g x)) l).
Proof.
  induction l as [|x l IH]; [reflexivity|]. cbn [map List.filter].
  destruct (f (g x)); cbn [map]; rewrite IH; reflexivity.
Qed.

(** The first four special days of a walk through the rest of a month and
    the month before, for every day the walk can start on and every
    length the month before can have. *)
Lemma closed_tags_ok (d L : Z) :
  1 <= d <= 31 -> 28 <= L <= 31 ->
  firstn 4 (List.filter (fun t => in_specific_days (snd t))
              (map (step_tag d L) (seq 0 (Z.to_nat d + Z.to_nat L))))
  = closed_tags d.
Proof.
  intros Hd HL.
  assert (L = 28 \/ L = 29 \/ L = 30 \/ L = 31) as HL' by lia.
  assert (d = 1 \/ d = 2 \/ d = 3 \/ d = 4 \/ d = 5 \/ d = 6 \/ d = 7 \/ d = 8 \/ d = 9 \/ d = 10 \/ d = 11 \/ d = 12 \/ d = 13 \/ d = 14 \/ d = 15 \/ d = 16 \/ d = 17 \/ d = 18 \/ d = 19 \/ d = 20 \/ d = 21 \/ d = 22 \/ d = 23 \/ d = 24 \/ d = 25 \/ d = 26 \/ d = 27 \/ d = 28 \/ d = 29 \/ d = 30 \/ d = 31) as Hd' by lia.
  clear Hd HL.
  destruct HL' as [->|[->|[->| ->]]];
    repeat (destruct Hd' as [->|Hd']; [reflexivity|]); subst; reflexivity.
Qed.

Lemma walk_tags (a : datetime) :
  valid a -> 13 < month_index a ->
  walk a (Z.to_nat (day a) + Z.to_nat (day (prev_month_end a))) =
  map (fun i => tag_date a (step_tag (day a) (day (prev_month_end a)) i))
    (seq 0 (Z.to_nat (day a) + Z.to_nat (day (prev_month_end a)))).
Proof.
  intros Hv Hm. unfold walk. apply map_ext_in. intros i Hi. apply in_seq in Hi.
  unfold step_tag, tag_date.
  destruct (walk_two_months a i Hv Hm ltac:(lia)) as (_ & [[Hlt ->]|[Hge ->]]).
  - destruct (Z.ltb_spec (Z.of_nat i) (day a)); [reflexivity|lia].
  - destruct (Z.ltb_spec (Z.of_nat i) (day a)); [lia|reflexivity].
Qed.

Lemma closed_tags_dates (a : datetime) :
  map (tag_date a) (closed_tags (day a)) = weekly_closed a.
Proof.
  unfold closed_tags, weekly_closed. cbv zeta.
  destruct (22 <=? day a); [reflexivity|].
  destruct (15 <=? day a); [reflexivity|].
  destruct (8 <=? day a); reflexivity.
Qed.

(** A walk that stops with its fourth special day has collected the
    closed form. *)
Lemma weekly_dates_closed (a : datetime) (k : nat) :
  valid a -> 13 < month_index a ->
  length (weekly_dates a k) = 4%nat ->
  (forall j, (j < k)%nat -> (length (weekly_dates a j) < 4)%nat) ->
  weekly_dates a k = weekly_closed a.
Proof.
  intros Hv Hm Hlen Hmin.
  set (N := (Z.to_nat (day a) + Z.to_nat (day (prev_month_end a)))%nat).
  assert (Hk : (k <= N)%nat).
  { destruct (Nat.le_gt_cases k N) as [H|H]; [exact H|].
    pose proof (Hmin N H) as Hlt. pose proof (walk_has_four a Hv Hm) as Hfour.
    fold N in Hfour. unfold weekly_dates in Hlt. lia. }
  assert (Hpre : firstn 4 (List.filter special (walk a N)) = weekly_dates a k).
  { replace N with (k + (N - k))%nat by lia.
    rewrite walk_app, List.filter_app. fold (weekly_dates a k).
    rewrite <- Hlen at 1. rewrite firstn_app, Nat.sub_diag, firstn_all. cbn [firstn].
    apply app_nil_r. }
  rewrite <- Hpre. subst N. rewrite walk_tags by assumption.
  rewrite <- (map_map (step_tag (day a) (day (prev_month_end a))) (tag_date a)).
  rewrite filter_map_bool, firstn_map.
  assert (Hsp : forall t, special (tag_date a t) = in_specific_days (snd t)).
  { intros [[|] z]; reflexivity. }
  rewrite (List.filter_ext _ _ Hsp).
  pose proof Hv as Hv'. apply valid_iff in Hv'.
  pose proof (days_in_month_bounds (year a) (month a)).
  destruct (prev_month_end_props a Hv Hm) as (_ & _ & HL).
  rewrite closed_tags_ok by lia. apply closed_tags_dates.
Qed.

(** X2: for every input date of year 1001 or later, the weekly tier is, in
    this order, the 22nd, 15th, 8th and 1st of the anchor's month that are
    not after the anchor (the day before the input), followed by the 22nd,
    15th and 8th of the month before as far as needed to make four. *)
Theorem generate_weekly_closed_form (fuel : nat) (s : string) (w : datetime) :
  strptime s = Ret w -> 1001 <= year w -> (62 <= fuel)%nat ->
  exists a,
    sub_days w 1 = Ret a /\
    generate_weekly fuel s = Ret (map strftime (weekly_closed a)).
Proof.
  intros Hs Hy Hfuel.
  assert (Hm : 14 < month_index w).
  { pose proof (strptime_valid _ _ Hs) as Hv. apply valid_iff in Hv.
    unfold month_index. lia. }
  destruct (generate_weekly_spec fuel s w Hs Hm Hfuel)
    as (a & k & Ha & Hva & _ & Hma & _ & _ & Hweekly & Hlen & Hmin).
  exists a. split; [exact Ha|].
  rewrite Hweekly. rewrite (weekly_dates_closed a k); auto. lia.
Qed.

Lemma generate_weekly_closed_form_witness :
  strptime "2024-03-03" = Ret (mkdate 2024 3 3) /\
  1001 <= year (mkdate 2024 3 3) /\ (62 <= 62)%nat /\
  exists a,
    sub_days (mkdate 2024 3 3) 1 = Ret a /\
    generate_weekly 62 "2024-03-03" = Ret (map strftime (weekly_closed a)).
Proof.
  split; [reflexivity|]. split; [simpl; lia|]. split; [lia|].
  apply (generate_weekly_closed_form 62 "2024-03-03" (mkdate 2024 3 3));
    [reflexivity|simpl; lia|lia].
Defined.

(** The day before the last date of the weekly tier lies in the month
    before the month of the anchor. *)
Lemma weekly_closed_last (a w1 w2 w3 w4 p : datetime) :
  valid a -> 13 < month_index a ->
  weekly_closed a = [w1; w2; w3; w4] -> pred_day w4 = Ret p ->
  first_of_month p = month_before a.
Proof.
  intros Hv Hm Hw Hp. pose proof Hv as Hv'. apply valid_iff in Hv'.
  assert (Hpm : first_of_month (prev_month_end a) = month_before a).
  { unfold prev_month_end, month_before, first_of_month.
    destruct (Z.ltb_spec 1 (month a)), (Z.eqb_spec (month a) 1); try lia; reflexivity. }
  assert (Hmid : forall s, 1 < s ->
            pred_day (mkdate (year (prev_month_end a)) (month (prev_month_end a)) s) = Ret p ->
            first_of_month p = month_before a).
  { intros s Hs. unfold pred_day. cbn [year month day].
    destruct (Z.ltb_spec 1 s); [|lia]. intros [= <-]. exact Hpm. }
  unfold weekly_closed in Hw. cbv zeta in Hw.
  destruct (22 <=? day a).
  { injection Hw as _ _ _ <-.
    assert (Hpe : pred_day (mkdate (year a) (month a) 1) = Ret (prev_month_end a)).
    { unfold pred_day, prev_month_end, month_index, MINYEAR in *. cbn [year month day].
      change (1 <? 1) with false. cbv iota.
      destruct (Z.ltb_spec 1 (month a)); [reflexivity|].
      destruct (Z.ltb_spec 1 (year a)); [reflexivity|lia]. }
    rewrite Hpe in Hp. injection Hp as <-. exact Hpm. }
  destruct (15 <=? day a); [injection Hw as _ _ _ <-; apply (Hmid 22); [lia|exact Hp]|].
  destruct (8 <=? day a); injection Hw as _ _ _ <-;
    [apply (Hmid 15)|apply (Hmid 8)]; try lia; exact Hp.
Qed.

(** X3: for every reference date D the whole result of [save_days] is
    fixed by D and D-7 alone: the seven days from D back, the weekly tier
    of D-7 in closed form, and the first days of the three months before
    the month of D-7. *)
Theorem save_days_closed_form (fuel : nat) (s : string) (D : datetime) :
  reference_date s D -> (62 <= fuel)%nat ->
  exists A,
    sub_days D 7 = Ret A /\
    save_days fuel s =
      Ret (map strftime (walk D 7 ++ weekly_closed A ++ monthly_closed A)).
Proof.
  intros [Hs Hy] Hfuel. pose proof (strptime_valid _ _ Hs) as HvD.
  destruct (save_days_anatomy fuel s D Hs ltac:(lia) Hfuel)
    as (k & w1 & w2 & w3 & w4 & a & H7 & Hsub & Hwd & Hmin & Ha & _ & _ & _ & Hsave & _).
  assert (HA : sub_days D 7 = Ret (back D 7)) by (apply H7; lia).
  assert (HvA : valid (back D 7)) by (eapply sub_days_valid; eassumption).
  assert (HmA : 13 < month_index (back D 7)).
  { destruct (sub_days_ok D 7 HvD) as (p & Hp & _ & _ & Hmi).
    - apply valid_iff in HvD. unfold month_index. lia.
    - rewrite (sub_days_back _ _ _ Hp). apply valid_iff in HvD.
      unfold month_index in *. lia. }
  assert (Hclosed : weekly_closed (back D 7) = [w1; w2; w3; w4]).
  { rewrite <- Hwd. symmetry. apply weekly_dates_closed; auto. rewrite Hwd. reflexivity. }
  exists (back D 7). split; [exact HA|].
  rewrite Hsave, Hclosed. do 3 f_equal.
  unfold monthly_dates, monthly_closed.
  rewrite (weekly_closed_last _ _ _ _ _ _ HvA HmA Hclosed Ha). reflexivity.
Qed.

Lemma save_days_closed_form_witness :
  reference_date "2024-03-15" (mkdate 2024 3 15) /\ (62 <= 62)%nat /\
  exists A,
    sub_days (mkdate 2024 3 15) 7 = Ret A /\
    save_days 62 "2024-03-15" =
      Ret (map strftime (walk (mkdate 2024 3 15) 7 ++ weekly_closed A ++ monthly_closed A)).
Proof.
  split; [split; [reflexivity|simpl; lia]|]. split; [lia|].
  apply (save_days_closed_form 62 "2024-03-15" (mkdate 2024 3 15));
    [split; [reflexivity|simpl; lia]|lia].
Defined.

(** ** Where the range of datetime ends *)

Lemma toordinal_first : toordinal (mkdate 1 1 1) = 1.
Proof. reflexivity. Qed.

Lemma first_date_or_later (d : datetime) :
  valid d -> d = mkdate 1 1 1 \/ date_lt (mkdate 1 1 1) d.
Proof.
  intros Hv. apply valid_iff in Hv. destruct d as [y m dd].
  unfold date_lt. cbn [year month day] in *.
  destruct (Z.eq_dec y 1) as [->|]; [|right; lia].
  destruct (Z.eq_dec m 1) as [->|]; [|right; lia].
  destruct (Z.eq_dec dd 1) as [->|]; [left; reflexivity|right; lia].
Qed.

Lemma pred_day_domain (d : datetime) :
  valid d ->
  (toordinal d = 1 /\ pred_day d = Raise OverflowError) \/
  (1 < toordinal d /\ exists p, pred_day d = Ret p).
Proof.
  intros Hv. destruct (first_date_or_later d Hv) as [->|Hlt].
  - left. split; reflexivity.
  - right. split.
    + apply (toordinal_lt (mkdate 1 1 1) d) in Hlt; [|reflexivity|exact Hv].
      rewrite toordinal_first in Hlt. exact Hlt.
    + apply valid_iff in Hv. destruct d as [y m dd].
      unfold pred_day, date_lt, MINYEAR in *. cbn [year month day] in *.
      destruct (Z.ltb_spec 1 dd); [eauto|].
      destruct (Z.ltb_spec 1 m); [eauto|].
      destruct (Z.ltb_spec 1 y); [eauto|lia].
Qed.

(** [d - timedelta(days=n)] exists exactly when [n] is less than the
    ordinal of [d]. *)
Lemma sub_days_domain (d : datetime) (n : nat) :
  valid d ->
  (Z.of_nat n < toordinal d -> exists p, sub_days d n = Ret p) /\
  (toordinal d <= Z.of_nat n -> sub_days d n = Raise OverflowError).
Proof.
  intros Hv. induction n as [|n [IHok IHno]].
  - split; [intros _; exists d; reflexivity|].
    destruct (pred_day_domain d Hv) as [[H _]|[H _]]; lia.
  - rewrite sub_days_S. split.
    + intros Hn. destruct IHok as (p & Hp); [lia|]. rewrite Hp. cbn [bind].
      pose proof (sub_days_valid _ _ _ Hv Hp) as Hvp.
      pose proof (sub_days_toordinal _ _ _ Hv Hp) as Ho.
      destruct (pred_day_domain p Hvp) as [[H _]|[_ H]]; [lia|exact H].
    + intros Hn. destruct (Z.eq_dec (toordinal d) (Z.of_nat (S n))) as [He|Hne].
      * destruct IHok as (p & Hp); [lia|]. rewrite Hp. cbn [bind].
        pose proof (sub_days_valid _ _ _ Hv Hp) as Hvp.
        pose proof (sub_days_toordinal _ _ _ Hv Hp) as Ho.
        destruct (pred_day_domain p Hvp) as [[_ H]|[H _]]; [exact H|lia].
      * rewrite IHno by lia. reflexivity.
Qed.

Lemma mapM_Raise {A B : Type} (f : A -> result B) (e : exn) (l1 l2 : list A) (x : A) :
  (forall y, In y l1 -> exists r, f y = Ret r) -> f x = Raise e ->
  mapM f (l1 ++ x :: l2) = Raise e.
Proof.
  induction l1 as [|y l1 IH]; intros Hok Hx; simpl.
  - rewrite Hx. reflexivity.
  - destruct (Hok y) as (r & ->); [left; reflexivity|]. cbn [bind].
    rewrite IH; [reflexivity| |exact Hx]. intros z Hz. apply Hok. right. exact Hz.
Qed.

(** X4: [generate_daily] needs the six days before the reference date to
    exist: for a date before 0001-01-07 it raises OverflowError, for every
    other date it returns seven strings. *)
Theorem generate_daily_range (s : string) (D : datetime) :
  strptime s = Ret D ->
  (date_lt D (mkdate 1 1 7) -> generate_daily s = Raise OverflowError) /\
  (~ date_lt D (mkdate 1 1 7) ->
   exists daily, generate_daily s = Ret daily /\ length daily = 7%nat).
Proof.
  intros Hs. pose proof (strptime_valid _ _ Hs) as Hv.
  assert (H7 : valid (mkdate 1 1 7)) by reflexivity.
  unfold generate_daily. rewrite Hs. cbn [bind]. split.
  - intros Hlt. apply (toordinal_lt _ _ Hv H7) in Hlt.
    change (toordinal (mkdate 1 1 7)) with 7 in Hlt.
    destruct (pred_day_domain D Hv) as [[H1 _]|[H1 _]];
      set (n := Z.to_nat (toordinal D)).
    all: replace (seq 0 7) with (seq 0 n ++ n :: seq (S n) (6 - n))
      by (change (n :: seq (S n) (6 - n)) with (seq n (S (6 - n)));
          rewrite <- seq_app; f_equal; lia).
    all: apply mapM_Raise;
      [intros i Hi; apply in_seq in Hi;
       destruct (proj1 (sub_days_domain D i Hv)) as (p & ->); [lia|eexists; reflexivity]
      |rewrite (proj2 (sub_days_domain D n Hv)) by lia; reflexivity].
  - intros Hge.
    assert (Ho : 7 <= toordinal D).
    { destruct (Z.le_gt_cases 7 (toordinal D)) as [H|H]; [exact H|exfalso].
      apply Hge. apply valid_iff in Hv. destruct D as [y m dd].
      unfold date_lt, toordinal in *. cbn [year month day] in *.
      destruct (Z.eq_dec y 1) as [->|Hy].
      - destruct (Z.eq_dec m 1) as [->|Hm].
        + change (days_before_year 1) with 0 in H.
          change (days_before_month 1 1) with 0 in H. lia.
        + pose proof (days_before_month_mono 1 2 m ltac:(lia) ltac:(lia) ltac:(lia)) as Hmm.
          change (days_before_year 1) with 0 in H.
          change (days_before_month 1 2) with 31 in Hmm. lia.
      - pose proof (days_before_year_mono 2 y ltac:(lia)) as Hyy.
        change (days_before_year 2) with 365 in Hyy.
        pose proof (days_before_month_mono y 1 m ltac:(lia) ltac:(lia) ltac:(lia)) as Hmm.
        change (days_before_month y 1) with 0 in Hmm. lia. }
    destruct (mapM (fun i => let* d := sub_days D i in Ret (strftime d)) (seq 0 7))
      as [daily|e|] eqn:Hmap.
    + exists daily. split; [reflexivity|]. apply mapM_length in Hmap. exact Hmap.
    + exfalso. rewrite (mapM_Ret _ (fun i => strftime (back D i))) in Hmap; [discriminate|].
      intros i Hi. apply in_seq in Hi.
      destruct (proj1 (sub_days_domain D i Hv)) as (p & Hp); [lia|].
      rewrite Hp, (sub_days_back _ _ _ Hp). reflexivity.
    + exfalso. rewrite (mapM_Ret _ (fun i => strftime (back D i))) in Hmap; [discriminate|].
      intros i Hi. apply in_seq in Hi.
      destruct (proj1 (sub_days_domain D i Hv)) as (p & Hp); [lia|].
      rewrite Hp, (sub_days_back _ _ _ Hp). reflexivity.
Qed.

Lemma generate_daily_range_witness :
  strptime "0001-01-06" = Ret (mkdate 1 1 6) /\
  (date_lt (mkdate 1 1 6) (mkdate 1 1 7) -> generate_daily "0001-01-06" = Raise OverflowError) /\
  (~ date_lt (mkdate 1 1 6) (mkdate 1 1 7) ->
   exists daily, generate_daily "0001-01-06" = Ret daily /\ length daily = 7%nat).
Proof.
  split; [reflexivity|].
  apply (generate_daily_range "0001-01-06" (mkdate 1 1 6)). reflexivity.
Defined.

(** * More about the reconciler *)

(** ** The folder list *)

Lemma elem_of_add_folders (prefix : string) (keys : list string) :
  forall (folders : gset string) (x : string),
  x ∈ add_folders prefix folders keys <->
  x ∈ folders \/ exists key, In key keys /\ match_folder prefix key = Some x.
Proof.
  unfold add_folders. induction keys as [|key keys IH]; intros folders x; cbn [fold_left].
  - split; [auto|]. intros [H|(k & [] & _)]. exact H.
  - rewrite IH. split.
    + intros [H|(k & Hk & Hm)].
      * destruct (match_folder prefix key) as [g|] eqn:Hg; [|left; exact H].
        apply elem_of_union in H as [H|H]; [|left; exact H].
        apply elem_of_singleton in H as ->. right. exists key. split; [left; reflexivity|exact Hg].
      * right. exists k. split; [right; exact Hk|exact Hm].
    + intros [H|(k & [<-|Hk] & Hm)].
      * left. destruct (match_folder prefix key); [|exact H].
        apply elem_of_union. right. exact H.
      * left. rewrite Hm. apply elem_of_union. left. apply elem_of_singleton. reflexivity.
      * right. exists k. split; assumption.
Qed.

Lemma sorted_spec (folders : gset string) :
  Sorted String.le (sorted folders) /\ NoDup (sorted folders) /\
  forall x, In x (sorted folders) <-> x ∈ folders.
Proof.
  unfold sorted. split; [apply Sorted_merge_sort; apply _|]. split.
  - rewrite merge_sort_Permutation. apply NoDup_elements.
  - intros x. rewrite <- list_elem_of_In, merge_sort_Permutation. apply elem_of_elements.
Qed.

(** X5: for a plain prefix and keys of ASCII characters, when the store
    serves the listing in pages that end, the result of [list_s3_folders]
    is in ascending order, holds no folder twice, and holds exactly the
    date segments of the keys served that have the form
    prefix/YYYY-MM-DD/...; keys of another form add nothing. *)
Theorem list_s3_folders_sorted_set {S : Type} (cl : s3_client S) (st : S)
    (bucket_name prefix : string) (N fuel : nat) (pages : list (list string)) :
  plain prefix = true -> forallb ascii_text (concat pages) = true ->
  served_pages cl N st bucket_name prefix None = Some pages ->
  (N <= fuel)%nat ->
  exists folders,
    list_s3_folders cl fuel st bucket_name prefix = Ret folders /\
    Sorted String.le folders /\ NoDup folders /\
    forall x, In x folders <->
              exists key, In key (concat pages) /\ match_folder prefix key = Some x.
Proof.
  intros _ _ Hp Hfuel.
  exists (sorted (add_folders prefix ∅ (concat pages))).
  destruct (sorted_spec (add_folders prefix ∅ (concat pages))) as (Hs & Hn & Hin).
  split.
  - unfold list_s3_folders.
    rewrite (list_loop_pages cl st bucket_name prefix N fuel None ∅ pages) by auto.
    reflexivity.
  - split; [exact Hs|]. split; [exact Hn|].
    intros x. rewrite Hin, elem_of_add_folders. split.
    + intros [H|H]; [exfalso; exact (not_elem_of_empty x H)|exact H].
    + intros H. right. exact H.
Qed.

Lemma list_s3_folders_sorted_set_witness :
  plain "databases" = true /\
  forallb ascii_text
    (concat [firstn 2 five_keys; firstn 2 (skipn 2 five_keys); skipn 4 five_keys]) = true /\
  served_pages bucket_client 3
    {| objects := five_keys; locked := []; page_size := 2 |} "bucket" "databases" None
    = Some [firstn 2 five_keys; firstn 2 (skipn 2 five_keys); skipn 4 five_keys] /\
  (3 <= 3)%nat /\
  exists folders,
    list_s3_folders bucket_client 3
      {| objects := five_keys; locked := []; page_size := 2 |} "bucket" "databases"
      = Ret folders /\
    Sorted String.le folders /\ NoDup folders /\
    forall x, In x folders <->
              exists key,
                In key (concat [firstn 2 five_keys; firstn 2 (skipn 2 five_keys);
                                skipn 4 five_keys]) /\
                match_folder "databases" key = Some x.
Proof.
  split; [reflexivity|]. split; [reflexivity|]. split; [reflexivity|]. split; [lia|].
  apply (list_s3_folders_sorted_set bucket_client _ "bucket" "databases" 3 3);
    [reflexivity|reflexivity|reflexivity|lia].
Defined.

Lemma list_loop_tokenless {S : Type} (cl : s3_client S) (st : S)
    (bucket_name prefix : string) (r : list_response) :
  list_objects_v2 cl st bucket_name prefix None = Ret r ->
  IsTruncated r = true -> truthy (NextContinuationToken r) = false ->
  forall (fuel : nat) (folders : gset string) (tok : option string),
  truthy tok = false ->
  list_loop cl fuel st bucket_name prefix folders tok = OutOfFuel.
Proof.
  intros Hr Ht Hn. induction fuel as [|fuel IH]; intros folders tok Htok; [reflexivity|].
  cbn [list_loop]. rewrite Htok, Hr. cbn [bind]. rewrite Ht. apply IH. exact Hn.
Qed.

(** X6: for a plain prefix, a first page that says it is truncated but
    carries no token (or an empty one) makes [list_s3_folders] ask for the
    first page again and again: whatever the bound on the number of
    requests, the loop has not ended. *)
Theorem list_s3_folders_needs_a_token {S : Type} (cl : s3_client S) (st : S)
    (bucket_name prefix : string) (r : list_response) :
  plain prefix = true ->
  list_objects_v2 cl st bucket_name prefix None = Ret r ->
  IsTruncated r = true -> truthy (NextContinuationToken r) = false ->
  forall fuel, list_s3_folders cl fuel st bucket_name prefix = OutOfFuel.
Proof.
  intros _ Hr Ht Hn fuel. unfold list_s3_folders.
  rewrite (list_loop_tokenless cl st bucket_name prefix r Hr Ht Hn); reflexivity.
Qed.

Lemma list_s3_folders_needs_a_token_witness :
  plain "databases" = true /\
  list_objects_v2 tokenless_client tt "bucket" "databases" None =
    Ret {| Contents := Some ["databases/2024-03-15/03-00/shop.sql.gz"%string];
           IsTruncated := true; NextContinuationToken := None |} /\
  forall fuel, list_s3_folders tokenless_client fuel tt "bucket" "databases" = OutOfFuel.
Proof.
  split; [reflexivity|]. split; [reflexivity|].
  apply (list_s3_folders_needs_a_token tokenless_client tt "bucket" "databases"
           {| Contents := Some ["databases/2024-03-15/03-00/shop.sql.gz"%string];
              IsTruncated := true; NextContinuationToken := None |});
    reflexivity.
Defined.

(** ** Keys, prefixes and folder names *)

Lemma append_assoc (a b c : string) :
  String.append (String.append a b) c = String.append a (String.append b c).
Proof. induction a as [|x a IH]; [reflexivity|]. rewrite !append_String, IH. reflexivity. Qed.

Lemma append_inj_l (p a b : string) : String.append p a = String.append p b -> a = b.
Proof.
  induction p as [|c p IH]; [auto|]. rewrite !append_String. intros [= H]. apply IH, H.
Qed.

Lemma strip_prefix_Some (p : string) :
  forall (k r : string), strip_prefix p k = Some r -> k = String.append p r.
Proof.
  induction p as [|a p IH]; intros k r; cbn [strip_prefix].
  - intros [= <-]. reflexivity.
  - destruct k as [|b k]; [discriminate|].
    destruct (Ascii.eqb_spec a b) as [<-|]; [|discriminate].
    intros H. rewrite append_String. f_equal. apply IH, H.
Qed.

Lemma strip_prefix_append (p r : string) : strip_prefix p (String.append p r) = Some r.
Proof.
  induction p as [|a p IH]; [reflexivity|].
  rewrite append_String. cbn [strip_prefix]. rewrite Ascii.eqb_refl. exact IH.
Qed.

Lemma prefix_append (p : string) :
  forall k, String.prefix p k = true -> exists r, k = String.append p r.
Proof.
  induction p as [|a p IH]; intros k.
  - intros _. exists k. reflexivity.
  - destruct k as [|b k]; cbn [String.prefix]; [discriminate|].
    destruct (ascii_dec a b) as [<-|]; [|discriminate].
    intros H. destruct (IH k H) as (r & ->). exists r. rewrite append_String. reflexivity.
Qed.

Lemma date_segment_Some (r g : string) :
  date_segment r = Some g ->
  date_shaped g /\ exists rest, r = String.append g (String "/"%char rest).
Proof.
  unfold date_shaped.
  destruct r as [|y1 [|y2 [|y3 [|y4 [|h1 [|m1 [|m2 [|h2 [|d1 [|d2 [|sl rest]]]]]]]]]]];
    try discriminate.
  cbn [date_segment].
  destruct (is_digit y1 && is_digit y2 && is_digit y3 && is_digit y4 &&
            Ascii.eqb h1 dash && is_digit m1 && is_digit m2 &&
            Ascii.eqb h2 dash && is_digit d1 && is_digit d2 &&
            Ascii.eqb sl "/"%char) eqn:Hc; [|discriminate].
  intros [= <-]. cbn [substring]. rewrite !append_String, append_Empty.
  cbn [date_segment substring].
  pose proof Hc as Hc'. rewrite !andb_true_iff in Hc'.
  destruct Hc' as (_ & Hsl). apply Ascii.eqb_eq in Hsl. subst sl.
  split.
  - rewrite Hc. reflexivity.
  - exists rest. rewrite !append_String, append_Empty. reflexivity.
Qed.

Lemma date_shaped_segment (g rest : string) :
  date_shaped g -> date_segment (String.append g (String "/"%char rest)) = Some g.
Proof.
  unfold date_shaped.
  destruct g as [|y1 [|y2 [|y3 [|y4 [|h1 [|m1 [|m2 [|h2 [|d1 [|d2 g']]]]]]]]]];
    try discriminate.
  destruct g' as [|c g'].
  - rewrite !append_String, ?append_Empty. cbn [date_segment substring].
    destruct (is_digit y1 && is_digit y2 && is_digit y3 && is_digit y4 &&
              Ascii.eqb h1 dash && is_digit m1 && is_digit m2 &&
              Ascii.eqb h2 dash && is_digit d1 && is_digit d2 &&
              Ascii.eqb "/"%char "/"%char); [reflexivity|discriminate].
  - rewrite !append_String, ?append_Empty. cbn [date_segment substring].
    destruct (is_digit y1 && is_digit y2 && is_digit y3 && is_digit y4 &&
              Ascii.eqb h1 dash && is_digit m1 && is_digit m2 &&
              Ascii.eqb h2 dash && is_digit d1 && is_digit d2 &&
              Ascii.eqb c "/"%char); discriminate.
Qed.

Lemma folder_prefix_split (p g rest : string) :
  String.append (folder_prefix p g) rest =
  String.append (String.append p "/") (String.append g (String "/"%char rest)).
Proof. unfold folder_prefix. rewrite !append_assoc. reflexivity. Qed.

(** A key that gives the folder [g] lies under the prefix the clean-up
    lists for [g]. *)
Lemma match_folder_Some (p k g : string) :
  match_folder p k = Some g ->
  date_shaped g /\ exists rest, k = String.append (folder_prefix p g) rest.
Proof.
  unfold match_folder.
  destruct (strip_prefix (String.append p "/") k) as [r|] eqn:Hr; [|discriminate].
  intros Hg. apply strip_prefix_Some in Hr.
  apply date_segment_Some in Hg as (Hs & rest & ->).
  split; [exact Hs|]. exists rest. rewrite folder_prefix_split. exact Hr.
Qed.

(** A key under the prefix the clean-up lists for a dated folder [g] gives
    that folder and no other. *)
Lemma match_folder_under_prefix (p g k : string) :
  date_shaped g -> String.prefix (folder_prefix p g) k = true ->
  match_folder p k = Some g.
Proof.
  intros Hs Hp. apply prefix_append in Hp as (rest & ->).
  rewrite folder_prefix_split. unfold match_folder.
  rewrite strip_prefix_append. apply date_shaped_segment, Hs.
Qed.

(** The strings [strftime] prints have the form of a folder name. *)
Lemma strftime_date_shaped (d : datetime) : date_shaped (strftime d).
Proof.
  unfold date_shaped, strftime, pad4, pad2.
  repeat (rewrite append_String || rewrite append_Empty).
  cbn [date_segment substring].
  rewrite !is_digit_digit_char. reflexivity.
Qed.

Lemma prefix_append_true (p r : string) : String.prefix p (String.append p r) = true.
Proof.
  induction p as [|a p IH]; [destruct r; reflexivity|].
  rewrite append_String. cbn [String.prefix].
  destruct (ascii_dec a a) as [_|Hne]; [exact IH|congruence].
Qed.

(** The key of an upload lies under the prefix of the folder of its day. *)
Lemma upload_key_under_prefix (DEST_FOLDER DATE TIME db : string) :
  String.prefix (folder_prefix DEST_FOLDER DATE) (upload_key DEST_FOLDER DATE TIME db) = true.
Proof.
  unfold upload_key.
  replace (String.append DEST_FOLDER
             (String.append "/" (String.append DATE
                (String.append "/" (String.append TIME (String.append "/" (filename db)))))))
    with (String.append (folder_prefix DEST_FOLDER DATE)
            (String.append TIME (String.append "/" (filename db)))).
  - apply prefix_append_true.
  - unfold folder_prefix. rewrite !append_assoc. reflexivity.
Qed.

Lemma match_folder_upload_key (DEST_FOLDER TIME db : string) (d : datetime) :
  match_folder DEST_FOLDER (upload_key DEST_FOLDER (strftime d) TIME db) = Some (strftime d).
Proof.
  apply match_folder_under_prefix; [apply strftime_date_shaped|apply upload_key_under_prefix].
Qed.

(** ** Folder names hold no slash *)

Lemma is_digit_not_slash (c : ascii) : is_digit c = true -> Ascii.eqb c "/"%char = false.
Proof.
  destruct (Ascii.eqb_spec c "/"%char) as [->|]; [discriminate|reflexivity].
Qed.

Lemma dash_not_slash (c : ascii) : Ascii.eqb c dash = true -> Ascii.eqb c "/"%char = false.
Proof. intros H. apply Ascii.eqb_eq in H as ->. reflexivity. Qed.

Lemma date_shaped_no_slash (g : string) : date_shaped g -> no_slash g = true.
Proof.
  unfold date_shaped.
  destruct g as [|y1 [|y2 [|y3 [|y4 [|h1 [|m1 [|m2 [|h2 [|d1 [|d2 g']]]]]]]]]];
    try discriminate.
  rewrite !append_String. cbn [date_segment].
  destruct g' as [|c g']; rewrite ?append_String, ?append_Empty.
  - destruct (is_digit y1) eqn:Hy1; [|discriminate].
    destruct (is_digit y2) eqn:Hy2; [|discriminate].
    destruct (is_digit y3) eqn:Hy3; [|discriminate].
    destruct (is_digit y4) eqn:Hy4; [|discriminate].
    destruct (Ascii.eqb h1 dash) eqn:Hh1; [|discriminate].
    destruct (is_digit m1) eqn:Hm1; [|discriminate].
    destruct (is_digit m2) eqn:Hm2; [|discriminate].
    destruct (Ascii.eqb h2 dash) eqn:Hh2; [|discriminate].
    destruct (is_digit d1) eqn:Hd1; [|discriminate].
    destruct (is_digit d2) eqn:Hd2; [|discriminate].
    intros _. cbn [no_slash].
    repeat first [rewrite is_digit_not_slash by assumption
                 |rewrite dash_not_slash by assumption].
    reflexivity.
  - destruct (is_digit y1 && is_digit y2 && is_digit y3 && is_digit y4 &&
              Ascii.eqb h1 dash && is_digit m1 && is_digit m2 &&
              Ascii.eqb h2 dash && is_digit d1 && is_digit d2 &&
              Ascii.eqb c "/"%char); discriminate.
Qed.

(** Two names without a slash that are followed by a slash in the same
    string are the same name. *)
Lemma no_slash_split (f : string) :
  forall (k r1 r2 : string),
  no_slash f = true -> no_slash k = true ->
  String.append f (String "/"%char r1) = String.append k (String "/"%char r2) -> f = k.
Proof.
  induction f as [|a f IH]; intros [|b k] r1 r2 Hf Hk; rewrite ?append_String, ?append_Empty.
  - reflexivity.
  - intros [= <- _]. cbn [no_slash] in Hk. rewrite Ascii.eqb_refl in Hk. discriminate.
  - intros [= -> _]. cbn [no_slash] in Hf. rewrite Ascii.eqb_refl in Hf. discriminate.
  - intros [= -> H]. f_equal. cbn [no_slash] in Hf, Hk.
    apply andb_true_iff in Hf as [_ Hf]. apply andb_true_iff in Hk as [_ Hk].
    apply (IH k r1 r2 Hf Hk H).
Qed.

(** A key lies under the prefix of one folder at most. *)
Lemma folder_prefix_unique (p f k key : string) :
  no_slash f = true -> no_slash k = true ->
  String.prefix (folder_prefix p f) key = true ->
  String.prefix (folder_prefix p k) key = true -> f = k.
Proof.
  intros Hf Hk H1 H2.
  apply prefix_append in H1 as (r1 & ->). apply prefix_append in H2 as (r2 & H2).
  rewrite !folder_prefix_split in H2. apply append_inj_l in H2.
  apply (no_slash_split f k r1 r2 Hf Hk H2).
Qed.

(** ** The kept dates have the form of a folder name *)

Lemma mapM_Forall {A B : Type} (P : B -> Prop) (f : A -> result B) (l : list A) :
  (forall x y, f x = Ret y -> P y) ->
  forall r, mapM f l = Ret r -> Forall P r.
Proof.
  intros Hf. induction l as [|x l IH]; intros r; simpl.
  - intros [= <-]. constructor.
  - intros H. apply bind_Ret_inv in H as (y & Hy & H).
    apply bind_Ret_inv in H as (ys & Hys & [= <-]).
    constructor; [apply (Hf x y Hy)|apply IH, Hys].
Qed.

Lemma weekly_loop_date_shaped (fuel : nat) (a : datetime) :
  forall (acc : list string) (dc : nat) (r : list string),
  weekly_loop fuel a acc dc = Ret r -> Forall date_shaped acc -> Forall date_shaped r.
Proof.
  induction fuel as [|fuel IH]; intros acc dc r; rewrite weekly_loop_eq;
    destruct (length acc <? 4)%nat.
  - discriminate.
  - intros [= <-] Hacc. exact Hacc.
  - intros H Hacc. apply bind_Ret_inv in H as (t & _ & H).
    apply (IH _ _ _ H). destruct (special t); [|exact Hacc].
    apply List.Forall_app. split; [exact Hacc|].
    constructor; [apply strftime_date_shaped|constructor].
  - intros [= <-] Hacc. exact Hacc.
Qed.

Lemma monthly_loop_date_shaped (fuel : nat) :
  forall (t : datetime) (months r : list string),
  monthly_loop fuel t months = Ret r -> Forall date_shaped months -> Forall date_shaped r.
Proof.
  induction fuel as [|fuel IH]; intros t months r; rewrite monthly_loop_eq;
    destruct (length months <? 3)%nat.
  - discriminate.
  - intros [= <-] Hm. exact Hm.
  - intros H Hm. apply bind_Ret_inv in H as (t' & _ & H).
    apply (IH _ _ _ H). apply List.Forall_app. split; [exact Hm|].
    constructor; [apply strftime_date_shaped|constructor].
  - intros [= <-] Hm. exact Hm.
Qed.

(** Whatever the input, the strings [save_days] returns are printed by
    [strftime]. *)
Lemma save_days_date_shaped (fuel : nat) (s : string) (keep_dates : list string) :
  save_days fuel s = Ret keep_dates -> Forall date_shaped keep_dates.
Proof.
  unfold save_days. intros H.
  apply bind_Ret_inv in H as (daily & Hd & H).
  apply bind_Ret_inv in H as (ld & _ & H).
  apply bind_Ret_inv in H as (weekly & Hw & H).
  apply bind_Ret_inv in H as (lw & _ & H).
  apply bind_Ret_inv in H as (monthly & Hm & [= <-]).
  apply List.Forall_app. split; [|apply List.Forall_app; split].
  - unfold generate_daily in Hd. apply bind_Ret_inv in Hd as (D & _ & Hd).
    apply (mapM_Forall date_shaped _ _) in Hd; [exact Hd|].
    intros i y Hy. apply bind_Ret_inv in Hy as (d & _ & [= <-]).
    apply strftime_date_shaped.
  - unfold generate_weekly in Hw. apply bind_Ret_inv in Hw as (p & _ & Hw).
    apply bind_Ret_inv in Hw as (a & _ & Hw).
    apply (weekly_loop_date_shaped _ _ _ _ _ Hw). constructor.
  - unfold generate_monthly in Hm. apply bind_Ret_inv in Hm as (p & _ & Hm).
    apply bind_Ret_inv in Hm as (a & _ & Hm).
    apply bind_Ret_inv in Hm as (t & _ & Hm).
    apply (monthly_loop_date_shaped _ _ _ _ Hm).
    constructor; [apply strftime_date_shaped|constructor].
Qed.

(** ** What a delete request can hold *)

Lemma delete_loop_log_pages {S : Type} (cl : s3_client S) (BUCKET_NAME DEST_FOLDER : string)
    (keep_folders : gset string) (existing_folders : list string) :
  forall (st : S) (log : list delete_request) (rq : delete_request),
  In rq (snd (fst (delete_loop cl BUCKET_NAME DEST_FOLDER keep_folders
                     existing_folders st log))) ->
  In rq log \/
  (one_page_request cl BUCKET_NAME DEST_FOLDER rq /\
   (req_folder rq ∉ keep_folders) /\ In (req_folder rq) existing_folders).
Proof.
  induction existing_folders as [|folder rest IH]; intros st log rq Hin.
  - left. exact Hin.
  - cbn [delete_loop] in Hin. destruct (decide (folder ∈ keep_folders)) as [Hk|Hk].
    + destruct (IH _ _ _ Hin) as [H|(H0 & H1 & H2)]; [left; exact H|right].
      repeat split; [exact H0|exact H1|right; exact H2].
    + destruct (list_objects_v2 cl st BUCKET_NAME (folder_prefix DEST_FOLDER folder) None)
        as [listing| |] eqn:Hlist; [|left; exact Hin|left; exact Hin].
      destruct (delete_objects cl st BUCKET_NAME (get_Contents listing))
        as [st' resp] eqn:Hdel.
      assert (Hnew : forall q,
                In q (log ++ [{| req_folder := folder; req_keys := get_Contents listing;
                                 req_response := resp |}]) ->
                In q log \/
                (one_page_request cl BUCKET_NAME DEST_FOLDER q /\
                 (req_folder q ∉ keep_folders) /\ In (req_folder q) (folder :: rest))).
      { intros q Hq. apply in_app_iff in Hq as [Hq|[<-|[]]]; [left; exact Hq|right].
        split; [|split; [exact Hk|left; reflexivity]].
        exists st, listing. cbn [req_folder req_keys req_response].
        rewrite Hdel. repeat split. exact Hlist. }
      destruct resp as [r|e|]; cbn [fst snd] in Hin; try (apply Hnew; exact Hin).
      destruct (IH _ _ _ Hin) as [H|(H0 & H1 & H2)]; [apply Hnew; exact H|right].
      repeat split; [exact H0|exact H1|right; exact H2].
Qed.

Lemma list_loop_date_shaped {S : Type} (cl : s3_client S) (st : S)
    (bucket_name prefix : string) (fuel : nat) :
  forall (folders : gset string) (tok : option string) (result : gset string),
  list_loop cl fuel st bucket_name prefix folders tok = Ret result ->
  (forall x, x ∈ folders -> date_shaped x) ->
  forall x, x ∈ result -> date_shaped x.
Proof.
  induction fuel as [|fuel IH]; intros folders tok result; [discriminate|].
  cbn [list_loop]. intros H Hf. apply bind_Ret_inv in H as (r & _ & H).
  assert (Hadd : forall x, x ∈ add_folders prefix folders (get_Contents r) -> date_shaped x).
  { intros x Hx. apply elem_of_add_folders in Hx as [Hx|(key & _ & Hm)];
      [apply Hf, Hx|apply (match_folder_Some _ _ _ Hm)]. }
  destruct (IsTruncated r).
  - apply (IH _ _ _ H Hadd).
  - injection H as <-. exact Hadd.
Qed.

Lemma list_s3_folders_date_shaped {S : Type} (cl : s3_client S) (st : S)
    (bucket_name prefix : string) (fuel : nat) (folders : list string) :
  list_s3_folders cl fuel st bucket_name prefix = Ret folders ->
  forall x, In x folders -> date_shaped x.
Proof.
  unfold list_s3_folders. intros H. apply bind_Ret_inv in H as (G & HG & [= <-]).
  intros x Hx. apply (proj2 (proj2 (sorted_spec G))) in Hx.
  apply (list_loop_date_shaped cl st bucket_name prefix fuel ∅ None G HG); [|exact Hx].
  intros y Hy. exfalso. exact (not_elem_of_empty y Hy).
Qed.

(** Under a store that honours prefixes, every key in a delete request
    is a key of the folder of the request, which is not kept. *)
Lemma requests_keys_doomed {S : Type} (cl : s3_client S) (st : S) (fuel : nat)
    (BUCKET_NAME DEST_FOLDER DATE : string) (exit_status : Z) (keep_dates : list string) :
  honours_prefix cl -> save_days fuel DATE = Ret keep_dates ->
  forall rq key,
    In rq (requests (retention_policy cl fuel st BUCKET_NAME DEST_FOLDER DATE exit_status)) ->
    In key (req_keys rq) ->
    match_folder DEST_FOLDER key = Some (req_folder rq) /\ ~ In (req_folder rq) keep_dates.
Proof.
  intros Hh Hsave rq key. unfold retention_policy.
  destruct (list_s3_folders cl fuel st BUCKET_NAME DEST_FOLDER) as [existing| |] eqn:Hlist;
    [|intros []|intros []].
  rewrite Hsave.
  destruct (delete_loop cl BUCKET_NAME DEST_FOLDER (list_to_set keep_dates) existing st [])
    as [[st' log] r] eqn:Hrun.
  cbn [requests]. intros Hrq Hkey.
  assert (Hlog : log = snd (fst (delete_loop cl BUCKET_NAME DEST_FOLDER
                                   (list_to_set keep_dates) existing st [])))
    by (rewrite Hrun; reflexivity).
  rewrite Hlog in Hrq.
  apply delete_loop_log_pages in Hrq as [[]|((st0 & listing & Hl & Hk & _) & Hnk & Hex)].
  split.
  - apply match_folder_under_prefix.
    + apply (list_s3_folders_date_shaped _ _ _ _ _ _ Hlist), Hex.
    + apply Hh in Hl. rewrite Hk in Hkey. rewrite List.Forall_forall in Hl. apply Hl, Hkey.
  - intros Hin. apply Hnk. apply elem_of_list_to_set, list_elem_of_In, Hin.
Qed.

Lemma after_incl (t : string) (l : list string) : forall x, In x (after t l) -> In x l.
Proof.
  induction l as [|k l IH]; intros x; cbn [after]; [auto|].
  destruct (String.eqb k t); intros H; right; [exact H|apply IH, H].
Qed.

Lemma firstn_incl {A : Type} (n : nat) :
  forall (l : list A) (x : A), In x (firstn n l) -> In x l.
Proof.
  induction n as [|n IH]; intros l x; [intros []|].
  destruct l as [|y l]; cbn [firstn]; [intros []|].
  intros [<-|Hx]; [left; reflexivity|right; apply IH, Hx].
Qed.

Lemma bucket_client_honours_prefix : honours_prefix bucket_client.
Proof.
  intros b bucket_name prefix tok r. cbn [list_objects_v2 bucket_client].
  unfold bucket_list. intros [= <-]. unfold get_Contents. cbn [Contents].
  set (matching := List.filter (String.prefix prefix) (objects b)).
  set (remaining := match tok with Some t => after t matching | None => matching end).
  assert (Hpage : forall x, In x (firstn (page_size b) remaining) ->
                            String.prefix prefix x = true).
  { intros x Hx. apply firstn_incl in Hx.
    assert (In x matching) as Hm.
    { subst remaining. destruct tok; [apply (after_incl _ _ _ Hx)|exact Hx]. }
    apply filter_In in Hm as [_ Hm]. exact Hm. }
  destruct (firstn (page_size b) remaining) as [|k page] eqn:Hf; cbn [default].
  - constructor.
  - apply List.Forall_forall. exact Hpage.
Qed.

(** ** Kept folders are spared *)

(** C2: for every keep-set and every list of existing folders, whatever the
    store answers, a delete request is issued only for an existing folder
    outside the keep-set, and it carries the keys of one listing of the
    prefix of that very folder: the folders with a delete request and the
    keep-set are disjoint.  When the listings of the store honour the
    prefix and folder names hold no slash (as the dated names do), every
    key in a delete request lies under the folder of the request and under
    no kept folder: no object of a kept folder is asked to be deleted. *)
Theorem delete_requests_spare_kept_folders {S : Type} (cl : s3_client S)
    (BUCKET_NAME DEST_FOLDER : string) (keep_folders : gset string)
    (existing_folders : list string) (st : S) :
  let log := snd (fst (delete_loop cl BUCKET_NAME DEST_FOLDER keep_folders
                         existing_folders st [])) in
  (forall rq, In rq log ->
     (req_folder rq ∉ keep_folders) /\ In (req_folder rq) existing_folders /\
     one_page_request cl BUCKET_NAME DEST_FOLDER rq) /\
  (list_to_set (map req_folder log) : gset string) ∩ keep_folders = ∅ /\
  (honours_prefix cl ->
   Forall (fun folder => no_slash folder = true) existing_folders ->
   forall rq key, In rq log -> In key (req_keys rq) ->
     String.prefix (folder_prefix DEST_FOLDER (req_folder rq)) key = true /\
     forall kept, kept ∈ keep_folders -> no_slash kept = true ->
       String.prefix (folder_prefix DEST_FOLDER kept) key = false).
Proof.
  intros log.
  assert (H : forall rq, In rq log ->
                one_page_request cl BUCKET_NAME DEST_FOLDER rq /\
                (req_folder rq ∉ keep_folders) /\ In (req_folder rq) existing_folders).
  { intros rq Hin. apply delete_loop_log_pages in Hin as [[]|H]. exact H. }
  split; [|split].
  - intros rq Hin. destruct (H rq Hin) as (H0 & H1 & H2). auto.
  - apply set_eq. intros x. rewrite elem_of_intersection, elem_of_list_to_set.
    split; [|intros Hx; exfalso; exact (not_elem_of_empty x Hx)].
    intros [Hx Hk]. apply list_elem_of_In, in_map_iff in Hx as (rq & <- & Hrq).
    destruct (H rq Hrq) as (_ & Hn & _). contradiction.
  - intros Hh Hns rq key Hrq Hkey.
    destruct (H rq Hrq) as ((st0 & listing & Hl & Hk & _) & Hnk & Hex).
    assert (Hp : String.prefix (folder_prefix DEST_FOLDER (req_folder rq)) key = true).
    { apply Hh in Hl. rewrite Hk in Hkey. rewrite List.Forall_forall in Hl.
      apply Hl, Hkey. }
    split; [exact Hp|]. intros kept Hkept Hs.
    destruct (String.prefix (folder_prefix DEST_FOLDER kept) key) eqn:Hq; [|reflexivity].
    exfalso. apply Hnk.
    rewrite List.Forall_forall in Hns.
    rewrite (folder_prefix_unique DEST_FOLDER (req_folder rq) kept key
               (Hns _ Hex) Hs Hp Hq).
    exact Hkept.
Qed.

Lemma delete_requests_spare_kept_folders_witness :
  honours_prefix bucket_client /\
  Forall (fun folder => no_slash folder = true) small_existing /\
  forall rq key,
    In rq (snd (fst (delete_loop bucket_client "bucket" "databases" small_keep
                       small_existing small_store []))) ->
    In key (req_keys rq) ->
    String.prefix (folder_prefix "databases" (req_folder rq)) key = true /\
    forall kept, kept ∈ small_keep -> no_slash kept = true ->
      String.prefix (folder_prefix "databases" kept) key = false.
Proof.
  split; [exact bucket_client_honours_prefix|].
  split; [repeat constructor|].
  apply (proj2 (proj2 (delete_requests_spare_kept_folders bucket_client "bucket" "databases"
                         small_keep small_existing small_store)));
    [exact bucket_client_honours_prefix|repeat constructor].
Defined.

(** X7: in a run of the retention part, for a plain destination folder and
    a first listing of ASCII keys, under a store whose listings honour the
    prefix: every key that is put into a delete request lies under the
    folder the request is for and belongs to it by the pattern of
    [list_s3_folders]; that folder has the form of a date and is not among
    the kept dates; and the key lies under the folder of no kept date.  No
    object of a kept folder is ever asked to be deleted. *)
Theorem delete_requests_hold_doomed_keys {S : Type} (cl : s3_client S) (st : S)
    (N fuel : nat) (BUCKET_NAME DEST_FOLDER DATE : string) (exit_status : Z)
    (pages : list (list string)) (keep_dates : list string) :
  honours_prefix cl -> plain DEST_FOLDER = true ->
  served_pages cl N st BUCKET_NAME DEST_FOLDER None = Some pages -> (N <= fuel)%nat ->
  forallb ascii_text (concat pages) = true ->
  save_days fuel DATE = Ret keep_dates ->
  forall rq key,
    In rq (requests (retention_policy cl fuel st BUCKET_NAME DEST_FOLDER DATE exit_status)) ->
    In key (req_keys rq) ->
    String.prefix (folder_prefix DEST_FOLDER (req_folder rq)) key = true /\
    match_folder DEST_FOLDER key = Some (req_folder rq) /\
    date_shaped (req_folder rq) /\
    ~ In (req_folder rq) keep_dates /\
    forall kept, In kept keep_dates ->
      String.prefix (folder_prefix DEST_FOLDER kept) key = false.
Proof.
  intros Hh _ _ _ _ Hsave rq key Hrq Hkey.
  destruct (requests_keys_doomed cl st fuel BUCKET_NAME DEST_FOLDER DATE exit_status
              keep_dates Hh Hsave rq key Hrq Hkey) as (Hm & Hn).
  destruct (match_folder_Some _ _ _ Hm) as (Hs & rest & Hrest).
  assert (Hp : String.prefix (folder_prefix DEST_FOLDER (req_folder rq)) key = true).
  { rewrite Hrest. apply prefix_append_true. }
  split; [exact Hp|]. split; [exact Hm|]. split; [exact Hs|]. split; [exact Hn|].
  intros kept Hkept.
  destruct (String.prefix (folder_prefix DEST_FOLDER kept) key) eqn:Hq; [|reflexivity].
  exfalso. apply Hn.
  pose proof (save_days_date_shaped fuel DATE keep_dates Hsave) as Hall.
  rewrite List.Forall_forall in Hall.
  rewrite (folder_prefix_unique DEST_FOLDER (req_folder rq) kept key
             (date_shaped_no_slash _ Hs) (date_shaped_no_slash _ (Hall _ Hkept)) Hp Hq).
  exact Hkept.
Qed.

Lemma delete_requests_hold_doomed_keys_witness :
  honours_prefix bucket_client /\ plain "databases" = true /\
  served_pages bucket_client 1 small_store "bucket" "databases" None = Some [five_keys] /\
  (1 <= 62)%nat /\
  forallb ascii_text (concat [five_keys]) = true /\
  save_days 62 "2024-03-15" =
    Ret ["2024-03-15"; "2024-03-14"; "2024-03-13"; "2024-03-12";
         "2024-03-11"; "2024-03-10"; "2024-03-09";
         "2024-03-08"; "2024-03-01"; "2024-02-22"; "2024-02-15";
         "2024-02-01"; "2024-01-01"; "2023-12-01"]%string /\
  forall rq key,
    In rq (requests (retention_policy bucket_client 62 small_store "bucket" "databases"
                       "2024-03-15" 0)) ->
    In key (req_keys rq) ->
    String.prefix (folder_prefix "databases" (req_folder rq)) key = true /\
    match_folder "databases" key = Some (req_folder rq) /\
    date_shaped (req_folder rq) /\
    ~ In (req_folder rq)
        ["2024-03-15"; "2024-03-14"; "2024-03-13"; "2024-03-12";
         "2024-03-11"; "2024-03-10"; "2024-03-09";
         "2024-03-08"; "2024-03-01"; "2024-02-22"; "2024-02-15";
         "2024-02-01"; "2024-01-01"; "2023-12-01"]%string /\
    forall kept,
      In kept ["2024-03-15"; "2024-03-14"; "2024-03-13"; "2024-03-12";
               "2024-03-11"; "2024-03-10"; "2024-03-09";
               "2024-03-08"; "2024-03-01"; "2024-02-22"; "2024-02-15";
               "2024-02-01"; "2024-01-01"; "2023-12-01"]%string ->
      String.prefix (folder_prefix "databases" kept) key = false.
Proof.
  split; [exact bucket_client_honours_prefix|]. split; [reflexivity|].
  split; [reflexivity|]. split; [lia|]. split; [reflexivity|]. split; [reflexivity|].
  apply (delete_requests_hold_doomed_keys bucket_client small_store 1 62 "bucket"
           "databases" "2024-03-15" 0 [five_keys]);
    [exact bucket_client_honours_prefix|reflexivity|reflexivity|lia|reflexivity|reflexivity].
Defined.

(** The reference date itself is always kept. *)
Lemma save_days_keeps_today (fuel : nat) (D : datetime) :
  valid D -> 1001 <= year D -> (62 <= fuel)%nat ->
  exists keep_dates, save_days fuel (strftime D) = Ret keep_dates /\ In (strftime D) keep_dates.
Proof.
  intros Hv Hy Hfuel.
  destruct (save_days_anatomy fuel (strftime D) D (strptime_strftime D Hv) ltac:(lia) Hfuel)
    as (k & w1 & w2 & w3 & w4 & a & _ & _ & _ & _ & _ & _ & _ & _ & Hsave & _).
  eexists. split; [exact Hsave|]. left. reflexivity.
Qed.

(** X8: an object the backup loop has uploaded under today's date is in
    no delete request of the same run, whatever else the bucket holds
    (for a store that honours prefixes and a plain destination folder). *)
Theorem todays_upload_is_never_deleted {S : Type} (cl : s3_client S) (st : S)
    (fuel : nat) (BUCKET_NAME DEST_FOLDER TIME db : string) (D : datetime)
    (exit_status : Z) :
  honours_prefix cl -> plain DEST_FOLDER = true ->
  valid D -> 1001 <= year D -> (62 <= fuel)%nat ->
  forall rq,
    In rq (requests (retention_policy cl fuel st BUCKET_NAME DEST_FOLDER (strftime D)
                       exit_status)) ->
    req_folder rq <> strftime D /\
    ~ In (upload_key DEST_FOLDER (strftime D) TIME db) (req_keys rq).
Proof.
  intros Hh _ Hv Hy Hfuel rq Hrq.
  destruct (save_days_keeps_today fuel D Hv Hy Hfuel) as (keep_dates & Hsave & Hin).
  assert (Hne : req_folder rq <> strftime D).
  { intros Heq. revert Hrq. unfold retention_policy.
    destruct (list_s3_folders cl fuel st BUCKET_NAME DEST_FOLDER) as [existing| |];
      [|intros []|intros []].
    rewrite Hsave.
    destruct (delete_loop cl BUCKET_NAME DEST_FOLDER (list_to_set keep_dates) existing st [])
      as [[st' log] r] eqn:Hrun.
    cbn [requests]. intros Hrq.
    assert (Hlog : log = snd (fst (delete_loop cl BUCKET_NAME DEST_FOLDER
                                     (list_to_set keep_dates) existing st [])))
      by (rewrite Hrun; reflexivity).
    rewrite Hlog in Hrq. apply delete_loop_log in Hrq as [[]|[Hnk _]].
    apply Hnk. rewrite Heq. apply elem_of_list_to_set, list_elem_of_In, Hin. }
  split; [exact Hne|]. intros Hkey.
  destruct (requests_keys_doomed cl st fuel BUCKET_NAME DEST_FOLDER (strftime D) exit_status
              keep_dates Hh Hsave rq _ Hrq Hkey) as (Hm & _).
  rewrite match_folder_upload_key in Hm. congruence.
Qed.

Lemma todays_upload_is_never_deleted_witness :
  honours_prefix bucket_client /\ plain "databases" = true /\
  valid (mkdate 2024 3 15) /\ 1001 <= year (mkdate 2024 3 15) /\ (62 <= 62)%nat /\
  forall rq,
    In rq (requests (retention_policy bucket_client 62 small_store "bucket" "databases"
                       (strftime (mkdate 2024 3 15)) 0)) ->
    req_folder rq <> strftime (mkdate 2024 3 15) /\
    ~ In (upload_key "databases" (strftime (mkdate 2024 3 15)) "03-00" "shop") (req_keys rq).
Proof.
  split; [exact bucket_client_honours_prefix|]. split; [reflexivity|].
  split; [reflexivity|]. split; [simpl; lia|]. split; [lia|].
  apply (todays_upload_is_never_deleted bucket_client small_store 62 "bucket" "databases"
           "03-00" "shop" (mkdate 2024 3 15) 0);
    [exact bucket_client_honours_prefix|reflexivity|reflexivity|simpl; lia|lia].
Defined.

(** X9: once an upload of day [d] is among the keys the store serves, the
    folder list holds the date of [d] as [strftime] prints it, so the
    clean-up compares it with the kept dates. *)
Theorem uploaded_folder_is_listed {S : Type} (cl : s3_client S) (st : S)
    (bucket_name DEST_FOLDER TIME db : string) (d : datetime) (N fuel : nat)
    (pages : list (list string)) :
  plain DEST_FOLDER = true ->
  served_pages cl N st bucket_name DEST_FOLDER None = Some pages ->
  (N <= fuel)%nat ->
  In (upload_key DEST_FOLDER (strftime d) TIME db) (concat pages) ->
  exists folders,
    list_s3_folders cl fuel st bucket_name DEST_FOLDER = Ret folders /\
    In (strftime d) folders.
Proof.
  intros _ Hp Hfuel Hin.
  exists (sorted (add_folders DEST_FOLDER ∅ (concat pages))). split.
  - unfold list_s3_folders.
    rewrite (list_loop_pages cl st bucket_name DEST_FOLDER N fuel None ∅ pages) by auto.
    reflexivity.
  - apply sorted_spec, elem_of_add_folders. right.
    exists (upload_key DEST_FOLDER (strftime d) TIME db).
    split; [exact Hin|apply match_folder_upload_key].
Qed.

Lemma uploaded_folder_is_listed_witness :
  plain "databases" = true /\
  served_pages bucket_client 3
    {| objects := five_keys; locked := []; page_size := 2 |} "bucket" "databases" None
    = Some [firstn 2 five_keys; firstn 2 (skipn 2 five_keys); skipn 4 five_keys] /\
  (3 <= 3)%nat /\
  In (upload_key "databases" (strftime (mkdate 2024 3 15)) "03-00" "shop")
     (concat [firstn 2 five_keys; firstn 2 (skipn 2 five_keys); skipn 4 five_keys]) /\
  exists folders,
    list_s3_folders bucket_client 3
      {| objects := five_keys; locked := []; page_size := 2 |} "bucket" "databases"
      = Ret folders /\
    In (strftime (mkdate 2024 3 15)) folders.
Proof.
  split; [reflexivity|]. split; [reflexivity|]. split; [lia|].
  split; [vm_compute; tauto|].
  apply (uploaded_folder_is_listed bucket_client _ "bucket" "databases" "03-00" "shop"
           (mkdate 2024 3 15) 3 3
           [firstn 2 five_keys; firstn 2 (skipn 2 five_keys); skipn 4 five_keys]);
    [reflexivity|reflexivity|lia|vm_compute; tauto].
Defined.

(** ** The order of the requests, and runs with nothing to delete *)

Lemma delete_loop_prefix {S : Type} (cl : s3_client S) (BUCKET_NAME DEST_FOLDER : string)
    (keep_folders : gset string) (existing_folders : list string) :
  forall (st st' : S) (log log' : list delete_request) (r : result unit),
  delete_loop cl BUCKET_NAME DEST_FOLDER keep_folders existing_folders st log
    = (st', log', r) ->
  exists new rest,
    log' = log ++ new /\
    doomed keep_folders existing_folders = map req_folder new ++ rest /\
    (r = Ret tt -> rest = []) /\
    (doomed keep_folders existing_folders = [] -> st' = st /\ r = Ret tt).
Proof.
  induction existing_folders as [|folder rest IH]; intros st st' log log' r Hrun.
  - injection Hrun as <- <- <-. exists [], []. rewrite app_nil_r. auto.
  - cbn [delete_loop] in Hrun. unfold doomed. cbn [List.filter].
    destruct (decide (folder ∈ keep_folders)) as [Hk|Hk].
    + rewrite (bool_decide_eq_true_2 _ Hk). cbn [negb]. apply (IH _ _ _ _ _ Hrun).
    + rewrite (bool_decide_eq_false_2 _ Hk). cbn [negb].
      fold (doomed keep_folders rest).
      destruct (list_objects_v2 cl st BUCKET_NAME (folder_prefix DEST_FOLDER folder) None)
        as [listing|e|].
      * destruct (delete_objects cl st BUCKET_NAME (get_Contents listing)) as [st1 resp].
        destruct resp as [d|e|].
        -- destruct (IH _ _ _ _ _ Hrun) as (new & rest' & -> & Hd & Hr & _).
           eexists (_ :: new), rest'. rewrite <- app_assoc. cbn [map req_folder app].
           repeat split; [rewrite Hd; reflexivity|exact Hr|discriminate|discriminate].
        -- injection Hrun as <- <- <-.
           eexists [_], (doomed keep_folders rest). cbn [map req_folder app].
           repeat split; discriminate.
        -- injection Hrun as <- <- <-.
           eexists [_], (doomed keep_folders rest). cbn [map req_folder app].
           repeat split; discriminate.
      * injection Hrun as <- <- <-. exists [], (folder :: doomed keep_folders rest).
        rewrite app_nil_r. repeat split; discriminate.
      * injection Hrun as <- <- <-. exists [], (folder :: doomed keep_folders rest).
        rewrite app_nil_r. repeat split; discriminate.
Qed.

(** X10: however the clean-up loop ends, the folders it has sent delete
    requests for are an initial stretch of the folders that are not kept,
    in the order of the listing, one request each; and when every
    existing folder is kept the loop ends normally without having
    changed the store. *)
Theorem delete_requests_follow_the_listing {S : Type} (cl : s3_client S)
    (BUCKET_NAME DEST_FOLDER : string) (keep_folders : gset string)
    (existing_folders : list string) (st : S) :
  (exists rest,
     doomed keep_folders existing_folders =
       map req_folder
         (snd (fst (delete_loop cl BUCKET_NAME DEST_FOLDER keep_folders
                      existing_folders st []))) ++ rest) /\
  ((forall folder, In folder existing_folders -> folder ∈ keep_folders) ->
   delete_loop cl BUCKET_NAME DEST_FOLDER keep_folders existing_folders st []
     = (st, [], Ret tt)).
Proof.
  destruct (delete_loop cl BUCKET_NAME DEST_FOLDER keep_folders existing_folders st [])
    as [[st' log'] r] eqn:Hrun.
  destruct (delete_loop_prefix _ _ _ _ _ _ _ _ _ _ Hrun) as (new & rest & -> & Hd & _ & Hnone).
  cbn [fst snd app]. split; [exists rest; exact Hd|].
  intros Hall.
  assert (Hempty : doomed keep_folders existing_folders = []).
  { unfold doomed. clear -Hall. induction existing_folders as [|f l IH]; [reflexivity|].
    cbn [List.filter]. rewrite bool_decide_eq_true_2 by (apply Hall; left; reflexivity).
    cbn [negb]. apply IH. intros g Hg. apply Hall. right. exact Hg. }
  destruct (Hnone Hempty) as (-> & ->).
  rewrite Hempty in Hd. symmetry in Hd. apply app_eq_nil in Hd as (Hd & _).
  apply map_eq_nil in Hd as ->. reflexivity.
Qed.

(** ** The exit status *)

Lemma backup_loop_from (returncodes : list Z) :
  forall (exit_status : Z),
  exit_status = 0 \/ exit_status = -1 ->
  let final := fold_left (fun exit_status rc => if rc =? 0 then exit_status else -1)
                 returncodes exit_status in
  (final = 0 /\ exit_status = 0 /\ Forall (fun rc => rc = 0) returncodes) \/
  (final = -1 /\ (exit_status = -1 \/ Exists (fun rc => rc <> 0) returncodes)).
Proof.
  induction returncodes as [|rc l IH]; intros exit_status Hes; cbn [fold_left].
  - destruct Hes as [->| ->]; [left|right]; auto.
  - destruct (Z.eqb_spec rc 0) as [->|Hne].
    + destruct (IH exit_status Hes) as [(Hf & H0 & Hall)|(Hf & [H|H])].
      * left. repeat split; try assumption. constructor; [reflexivity|exact Hall].
      * right. split; [exact Hf|left; exact H].
      * right. split; [exact Hf|right; apply Exists_cons_tl, H].
    + destruct (IH (-1) ltac:(right; reflexivity)) as [(_ & H & _)|(Hf & _)]; [lia|].
      right. split; [exact Hf|right; apply Exists_cons_hd, Hne].
Qed.

(** X11: when the script reaches [sys.exit], the status is 0 if every
    upload returned 0 and -1 if at least one did not, whatever the uploads
    after a failed one returned and whatever happened to the delete
    requests: the retention part never changes the status. *)
Theorem exit_status_reports_the_uploads {S : Type} (cl : s3_client S) (st : S)
    (fuel : nat) (BUCKET_NAME DEST_FOLDER DATE : string) (returncodes : list Z)
    (status : Z) :
  exit_code (retention_policy cl fuel st BUCKET_NAME DEST_FOLDER DATE
               (backup_loop returncodes)) = Ret status ->
  (status = 0 /\ Forall (fun rc => rc = 0) returncodes) \/
  (status = -1 /\ Exists (fun rc => rc <> 0) returncodes).
Proof.
  unfold retention_policy.
  destruct (list_s3_folders cl fuel st BUCKET_NAME DEST_FOLDER) as [existing| |];
    try discriminate.
  destruct (save_days fuel DATE) as [keep_dates| |]; try discriminate.
  destruct (delete_loop cl BUCKET_NAME DEST_FOLDER (list_to_set keep_dates) existing st [])
    as [[st' log] r].
  cbn [exit_code]. destruct r as [[]| |]; try discriminate.
  cbn [bind]. intros [= <-].
  destruct (backup_loop_from returncodes 0 ltac:(left; reflexivity))
    as [(Hf & _ & Hall)|(Hf & [H|H])].
  - left. split; assumption.
  - discriminate.
  - right. split; assumption.
Qed.

Lemma exit_status_reports_the_uploads_witness :
  exit_code (retention_policy bucket_client 62 locked_store "bucket" "databases"
               "2024-03-15" (backup_loop [0; 2; 0])) = Ret (-1) /\
  ((-1 = 0 /\ Forall (fun rc => rc = 0) [0; 2; 0]) \/
   (-1 = -1 /\ Exists (fun rc => rc <> 0) [0; 2; 0])).
Proof.
  split; [vm_compute; reflexivity|].
  apply (exit_status_reports_the_uploads bucket_client locked_store 62 "bucket" "databases"
           "2024-03-15" [0; 2; 0] (-1)).
  vm_compute. reflexivity.
Defined.

(** * The list of databases and the keys of the uploads *)

Lemma no_space_append (a b : string) :
  no_space (String.append a b) = no_space a && no_space b.
Proof.
  induction a as [|c a IH]; [reflexivity|].
  rewrite append_String. cbn [no_space]. rewrite IH. apply andb_assoc.
Qed.

Lemma eqb_empty_append (w : string) (c : ascii) :
  String.eqb (String.append w (String c "")) "" = false.
Proof. destruct w; reflexivity. Qed.

Lemma split_from_words (s : string) :
  forall word, no_space word = true ->
  Forall (fun w => is_word w = true) (split_from word s).
Proof.
  induction s as [|c s IH]; intros word Hw; cbn [split_from].
  - destruct (String.eqb word "") eqn:He; [constructor|].
    constructor; [|constructor]. unfold is_word. rewrite He, Hw. reflexivity.
  - destruct (is_space c) eqn:Hc.
    + destruct (String.eqb word "") eqn:He; [apply IH; reflexivity|].
      constructor; [|apply IH; reflexivity]. unfold is_word. rewrite He, Hw. reflexivity.
    + apply IH. rewrite no_space_append, Hw. cbn [no_space]. rewrite Hc. reflexivity.
Qed.

(** Reading a word that is followed by more text. *)
Lemma split_from_word (n : string) :
  forall (word s : string), no_space n = true ->
  split_from word (String.append n s) = split_from (String.append word n) s.
Proof.
  induction n as [|c n IH]; intros word s Hn.
  - rewrite append_Empty. replace (String.append word "") with word; [reflexivity|].
    clear. induction word as [|x w IHw]; [reflexivity|]. rewrite append_String, <- IHw.
    reflexivity.
  - cbn [no_space] in Hn. apply andb_true_iff in Hn as (Hc & Hn).
    apply negb_true_iff in Hc. rewrite append_String. cbn [split_from]. rewrite Hc.
    rewrite IH by exact Hn. rewrite append_assoc, append_String, append_Empty.
    reflexivity.
Qed.

Lemma split_one_per_line (names : list string) :
  Forall (fun n => is_word n = true) names -> split (one_per_line names) = names.
Proof.
  unfold split. induction 1 as [|n names Hn Hall IH]; [reflexivity|].
  cbn [one_per_line]. unfold is_word in Hn. apply andb_true_iff in Hn as (He & Hs).
  apply negb_true_iff in He.
  rewrite split_from_word by exact Hs. rewrite append_Empty.
  cbn [split_from]. change (is_space "010"%char) with true. cbv iota.
  rewrite He, IH. reflexivity.
Qed.

(** X12: for the text [mysql] prints, a header line and one name a line,
    all in ASCII characters, the databases backed up are the names
    listed, in order, without those named in the exclude option. *)
Theorem databases_of_listing (names : list string) (exclude : string) :
  forallb ascii_text names = true -> ascii_text exclude = true ->
  Forall (fun n => is_word n = true) names ->
  ~ In "Database"%string names ->
  databases (one_per_line ("Database"%string :: names)) exclude =
  List.filter (fun db => negb (mem db (split exclude))) names.
Proof.
  intros _ _ Hw Hh. unfold databases. cbv zeta.
  rewrite split_one_per_line by (constructor; [reflexivity|exact Hw]).
  cbn [List.filter]. change (String.eqb "Database" "Database") with true.
  rewrite andb_false_r. cbn [negb].
  apply List.filter_ext_in. intros db Hdb.
  destruct (String.eqb_spec db "Database") as [->|_]; [contradiction|].
  apply andb_true_r.
Qed.

Lemma databases_of_listing_witness :
  forallb ascii_text ["information_schema"; "shop"; "mysql"; "wiki"]%string = true /\
  ascii_text "information_schema performance_schema mysql sys" = true /\
  Forall (fun n => is_word n = true)
    ["information_schema"; "shop"; "mysql"; "wiki"]%string /\
  ~ In "Database"%string ["information_schema"; "shop"; "mysql"; "wiki"]%string /\
  databases (one_per_line ("Database" :: ["information_schema"; "shop"; "mysql"; "wiki"]))%string
    "information_schema performance_schema mysql sys" =
  List.filter
    (fun db => negb (mem db (split "information_schema performance_schema mysql sys")))
    ["information_schema"; "shop"; "mysql"; "wiki"]%string.
Proof.
  assert (Hw : Forall (fun n => is_word n = true)
                 ["information_schema"; "shop"; "mysql"; "wiki"]%string)
    by (repeat constructor).
  assert (Hh : ~ In "Database"%string ["information_schema"; "shop"; "mysql"; "wiki"]%string)
    by (simpl; intros [H|[H|[H|[H|[]]]]]; discriminate).
  split; [reflexivity|]. split; [reflexivity|].
  split; [exact Hw|]. split; [exact Hh|].
  apply (databases_of_listing ["information_schema"; "shop"; "mysql"; "wiki"]%string
           "information_schema performance_schema mysql sys" eq_refl eq_refl Hw Hh).
Defined.

(** X13: whatever [mysql] prints and whatever the exclude option says, in
    ASCII characters, a database that is backed up has a name that is not
    empty, holds no white space, is not the header [Database], is not one
    of the words of the exclude option and is a word of the output. *)
Theorem databases_are_words (stdout exclude db : string) :
  ascii_text stdout = true -> ascii_text exclude = true ->
  In db (databases stdout exclude) ->
  is_word db = true /\ db <> "Database"%string /\ ~ In db (split exclude) /\
  In db (split stdout).
Proof.
  unfold databases. cbv zeta. intros _ _ H. apply filter_In in H as (Hin & Hf).
  apply andb_true_iff in Hf as (He & Hd). apply negb_true_iff in He, Hd.
  split.
  - pose proof (split_from_words stdout "" eq_refl) as Hw.
    rewrite List.Forall_forall in Hw. apply Hw, Hin.
  - split; [intros ->; discriminate|]. split; [|exact Hin].
    intros Hex. unfold mem in He.
    assert (existsb (String.eqb db) (split exclude) = true) as Ht; [|congruence].
    apply existsb_exists. exists db. split; [exact Hex|apply String.eqb_refl].
Qed.

Lemma databases_are_words_witness :
  ascii_text (String.append "Database" (String "010"%char "shop mysql")) = true /\
  ascii_text "mysql sys" = true /\
  In "shop"%string
     (databases (String.append "Database" (String "010"%char "shop mysql")) "mysql sys") /\
  is_word "shop" = true /\ "shop"%string <> "Database"%string /\
  ~ In "shop"%string (split "mysql sys") /\
  In "shop"%string (split (String.append "Database" (String "010"%char "shop mysql"))).
Proof.
  split; [reflexivity|]. split; [reflexivity|].
  split; [vm_compute; tauto|].
  apply (databases_are_words (String.append "Database" (String "010"%char "shop mysql"))
           "mysql sys" "shop"); [reflexivity|reflexivity|].
  vm_compute. tauto.
Defined.

Lemma length_append (a b : string) :
  String.length (String.append a b) = (String.length a + String.length b)%nat.
Proof.
  induction a as [|c a IH]; [reflexivity|]. rewrite append_String. cbn [String.length].
  rewrite IH. reflexivity.
Qed.

Lemma append_inj_r (t : string) :
  forall a b : string, String.append a t = String.append b t -> a = b.
Proof.
  induction a as [|c a IH]; intros [|d b] H.
  - reflexivity.
  - apply (f_equal String.length) in H. rewrite !length_append in H.
    cbn [String.length] in H. lia.
  - apply (f_equal String.length) in H. rewrite !length_append in H.
    cbn [String.length] in H. lia.
  - rewrite !append_String in H. injection H as -> H. f_equal. apply IH, H.
Qed.

(** X14: two databases with different names are uploaded to different
    keys, whatever the destination folder, date and time: the uploads of
    one run do not overwrite one another. *)
Theorem upload_keys_differ (DEST_FOLDER DATE TIME db1 db2 : string) :
  db1 <> db2 ->
  upload_key DEST_FOLDER DATE TIME db1 <> upload_key DEST_FOLDER DATE TIME db2.
Proof.
  intros Hne Heq. apply Hne. unfold upload_key, filename in Heq.
  do 6 apply append_inj_l in Heq. apply (append_inj_r _ _ _ Heq).
Qed.

Lemma upload_keys_differ_witness :
  "shop"%string <> "wiki"%string /\
  upload_key "databases" "2024-03-15" "03-00" "shop" <>
  upload_key "databases" "2024-03-15" "03-00" "wiki".
Proof.
  split; [discriminate|].
  apply (upload_keys_differ "databases" "2024-03-15" "03-00" "shop" "wiki"). discriminate.
Defined.

(** * How far apart the weekly dates are *)

Lemma toordinal_same_month (y m s t : Z) :
  toordinal (mkdate y m s) - toordinal (mkdate y m t) = s - t.
Proof. unfold toordinal. cbn [year month day]. lia. Qed.

(** From the first of a month back to day [s] of the month before. *)
Lemma toordinal_across_month (a : datetime) (s : Z) :
  valid a -> 13 < month_index a ->
  toordinal (mkdate (year a) (month a) 1) -
  toordinal (mkdate (year (prev_month_end a)) (month (prev_month_end a)) s)
  = day (prev_month_end a) - s + 1.
Proof.
  intros Hv Hm. pose proof Hv as Hv'. apply valid_iff in Hv'.
  assert (Hv1 : valid (mkdate (year a) (month a) 1)).
  { apply valid_iff. cbn [year month day].
    pose proof (days_in_month_bounds (year a) (month a)). lia. }
  assert (Hp : pred_day (mkdate (year a) (month a) 1) = Ret (prev_month_end a)).
  { unfold pred_day, prev_month_end, month_index, MINYEAR in *. cbn [year month day].
    change (1 <? 1) with false. cbv iota.
    destruct (Z.ltb_spec 1 (month a)); [reflexivity|].
    destruct (Z.ltb_spec 1 (year a)); [reflexivity|lia]. }
  pose proof (pred_day_toordinal _ _ Hv1 Hp) as Ho.
  pose proof (toordinal_same_month (year (prev_month_end a)) (month (prev_month_end a))
                (day (prev_month_end a)) s) as Hs.
  replace (mkdate (year (prev_month_end a)) (month (prev_month_end a))
             (day (prev_month_end a))) with (prev_month_end a) in Hs
    by (destruct (prev_month_end a); reflexivity).
  lia.
Qed.

(** X15: for every input date of year 1001 or later the weekly tier is the
    rendering of four calendar dates of which the first
    is at most 9 days before the anchor (the day before the input), and
    each weekly date is 7 to 10 days before the one in front of it: the
    steps are of 7 days inside a month and of 7 to 10 days from the 1st
    back to the 22nd of the month before. *)
Theorem weekly_dates_seven_to_ten_days_apart (fuel : nat) (s : string) (w : datetime) :
  strptime s = Ret w -> 1001 <= year w -> (62 <= fuel)%nat ->
  exists a w1 w2 w3 w4,
    sub_days w 1 = Ret a /\
    generate_weekly fuel s = Ret (map strftime [w1; w2; w3; w4]) /\
    Forall valid [w1; w2; w3; w4] /\
    0 <= toordinal a - toordinal w1 <= 9 /\
    7 <= toordinal w1 - toordinal w2 <= 10 /\
    7 <= toordinal w2 - toordinal w3 <= 10 /\
    7 <= toordinal w3 - toordinal w4 <= 10.
Proof.
  intros Hs Hy Hfuel.
  assert (Hm : 14 < month_index w).
  { pose proof (strptime_valid _ _ Hs) as Hv. apply valid_iff in Hv.
    unfold month_index. lia. }
  destruct (generate_weekly_spec fuel s w Hs Hm Hfuel)
    as (a & k & Ha & Hva & _ & Hma & Hsub & _ & Hweekly & Hlen & Hmin).
  assert (Hma' : 13 < month_index a) by lia.
  assert (Hvalid : Forall valid (weekly_dates a k)).
  { destruct (weekly_dates_props a k Hva Hsub) as (_ & Hall).
    eapply Forall_impl; [exact Hall|]. intros t (Ht & _). exact Ht. }
  rewrite (weekly_dates_closed a k Hva Hma' Hlen Hmin) in Hweekly, Hvalid.
  pose proof Hva as Hv'. apply valid_iff in Hv'.
  pose proof (days_in_month_bounds (year a) (month a)) as Hdim.
  destruct (prev_month_end_props a Hva Hma') as (_ & _ & HL).
  pose proof (toordinal_across_month a 22 Hva Hma') as H22.
  pose proof (toordinal_same_month (year (prev_month_end a)) (month (prev_month_end a))) as Hp.
  pose proof (toordinal_same_month (year a) (month a)) as Hc.
  assert (Ha0 : toordinal a = toordinal (mkdate (year a) (month a) (day a)))
    by (destruct a; reflexivity).
  exists a. unfold weekly_closed in Hweekly, Hvalid. cbv zeta in Hweekly, Hvalid.
  destruct (Z.leb_spec 22 (day a)); [|destruct (Z.leb_spec 15 (day a));
    [|destruct (Z.leb_spec 8 (day a))]];
    eexists _, _, _, _; (split; [exact Ha|]); (split; [exact Hweekly|]);
    (split; [exact Hvalid|]).
  - pose proof (Hc (day a) 22). pose proof (Hc 22 15). pose proof (Hc 15 8).
    pose proof (Hc 8 1). lia.
  - pose proof (Hc (day a) 15). pose proof (Hc 15 8). pose proof (Hc 8 1). lia.
  - pose proof (Hc (day a) 8). pose proof (Hc 8 1). pose proof (Hp 22 15). lia.
  - pose proof (Hc (day a) 1). pose proof (Hp 22 15). pose proof (Hp 15 8). lia.
Qed.

Lemma weekly_dates_seven_to_ten_days_apart_witness :
  strptime "2024-03-03" = Ret (mkdate 2024 3 3) /\
  1001 <= year (mkdate 2024 3 3) /\ (62 <= 62)%nat /\
  exists a w1 w2 w3 w4,
    sub_days (mkdate 2024 3 3) 1 = Ret a /\
    generate_weekly 62 "2024-03-03" = Ret (map strftime [w1; w2; w3; w4]) /\
    Forall valid [w1; w2; w3; w4] /\
    0 <= toordinal a - toordinal w1 <= 9 /\
    7 <= toordinal w1 - toordinal w2 <= 10 /\
    7 <= toordinal w2 - toordinal w3 <= 10 /\
    7 <= toordinal w3 - toordinal w4 <= 10.
Proof.
  split; [reflexivity|]. split; [simpl; lia|]. split; [lia|].
  apply (weekly_dates_seven_to_ten_days_apart 62 "2024-03-03" (mkdate 2024 3 3));
    [reflexivity|simpl; lia|lia].
Defined.
